(** * OpenCTM: the context API of [openctm.c]

    A functional model of the API functions of [openctm.c] and the
    properties of the context they maintain: the mode gate, the error
    register, mesh definition, the map-indexed array properties and the
    header that [ctmSaveCustom] writes and [ctmLoadCustom] reads.

    Conventions of the model.
    - A [CTMuint] is an [N]; where the C code can wrap around 32 bits the
      wrap is written out with [wrap32].
    - A pointer to an array is an [option] of the array's contents, [None]
      being the null pointer.  A [_CTMfloatmap] list is the list of its
      nodes, [mNext] being the tail.  Arrays are values here, so [free] has
      no counterpart; the places where the C code calls it are marked.
    - The handle [CTMcontext] is an [option]: [None] is the null handle.
    - The enumerators of [openctm.h], the arithmetic of [CTMfloat] and the
      three codecs are not defined in [openctm.c]: they are parameters
      ([Enumerators], [FloatOps], [Codecs]).
    - Every API function returns a [reply]: the value the C function
      returns, the context after the call and, as a record of the control
      path, whether the call left through a branch that assigns [mError]. *)

From Stdlib Require Import NArith ZArith List Bool Lia.
From Stdlib Require Import Strings.Byte.
From Stdlib Require Import Floats.SpecFloat.
Import ListNotations.
Local Open Scope N_scope.

(** ** Outcomes of a call *)

(** [Undefined]: the C program has no defined behaviour there (a read
    through a null pointer or past the end of an array, a value read from a
    buffer the stream did not fill).  [OutOfFuel]: the loop was still running
    when the fuel ran out. *)
Inductive outcome (A : Type) : Type :=
| Returns (a : A)
| Undefined
| OutOfFuel.

Arguments Returns {A} a.
Arguments Undefined {A}.
Arguments OutOfFuel {A}.

Definition bind {A B : Type} (m : outcome A) (k : A -> outcome B) : outcome B :=
  match m with
  | Returns a => k a
  | Undefined => Undefined
  | OutOfFuel => OutOfFuel
  end.

Notation "x <- m ;; k" := (bind m (fun x => k))
  (at level 61, m at next level, right associativity).
Notation "' p <- m ;; k" := (bind m (fun x => let 'p := x in k))
  (at level 61, p pattern, m at next level, right associativity).

Definition of_option {A : Type} (o : option A) : outcome A :=
  match o with
  | Some a => Returns a
  | None => Undefined
  end.

(** ** The types of [openctm.h] *)

Definition CTMuint := N.
Definition CTMproperty := N.

Definition wrap32 (n : N) : CTMuint := n mod 2 ^ 32.

(** Modelled from the spec: the enumeration [CTMcontextmode] of [openctm.h],
    which is not part of [openctm.c].  A context is in Import or in Export
    mode; [CTM_MODE_OTHER] stands for the values of the C type that are
    neither enumerator ([ctmNewContext] stores what it is given). *)
Inductive CTMcontextmode := CTM_IMPORT | CTM_EXPORT | CTM_MODE_OTHER.

(** Modelled from the spec: the enumeration [CTMmethod] of [openctm.h].
    There are three methods; [CTM_METHOD_OTHER] stands for the values of the
    C type that are none of them, which [ctmCompressionMethod] turns down. *)
Inductive CTMmethod :=
  CTM_METHOD_RAW | CTM_METHOD_MG1 | CTM_METHOD_MG2 | CTM_METHOD_OTHER.

(** Modelled from the spec: the enumeration [CTMerror] of [openctm.h].
    [openctm.c] assigns the first eight codes; [CTM_UNSUPPORTED_OPERATION]
    is the remaining kind of the error taxonomy and is assigned nowhere in
    [openctm.c]. *)
Inductive CTMerror :=
| CTM_NO_ERROR
| CTM_INVALID_CONTEXT
| CTM_INVALID_ARGUMENT
| CTM_INVALID_OPERATION
| CTM_INVALID_MESH
| CTM_OUT_OF_MEMORY
| CTM_FILE_ERROR
| CTM_FORMAT_ERROR
| CTM_UNSUPPORTED_OPERATION.

Definition CTMcontextmode_eqb (a b : CTMcontextmode) : bool :=
  match a, b with
  | CTM_IMPORT, CTM_IMPORT | CTM_EXPORT, CTM_EXPORT
  | CTM_MODE_OTHER, CTM_MODE_OTHER => true
  | _, _ => false
  end.

Definition CTMmethod_eqb (a b : CTMmethod) : bool :=
  match a, b with
  | CTM_METHOD_RAW, CTM_METHOD_RAW | CTM_METHOD_MG1, CTM_METHOD_MG1
  | CTM_METHOD_MG2, CTM_METHOD_MG2 | CTM_METHOD_OTHER, CTM_METHOD_OTHER => true
  | _, _ => false
  end.

(** The property identifiers and the constants of [internal.h] that
    [openctm.c] uses.  Their values are fixed by headers that are not part of
    this file, so the model takes them as parameters. *)
Class Enumerators := {
  CTM_NONE : CTMproperty;
  CTM_VERTEX_COUNT : CTMproperty;
  CTM_TRIANGLE_COUNT : CTMproperty;
  CTM_TEX_MAP_COUNT : CTMproperty;
  CTM_ATTRIB_MAP_COUNT : CTMproperty;
  CTM_HAS_NORMALS : CTMproperty;
  CTM_INDICES : CTMproperty;
  CTM_VERTICES : CTMproperty;
  CTM_NORMALS : CTMproperty;
  CTM_FILE_COMMENT : CTMproperty;
  CTM_TEX_MAP_1 : CTMproperty;
  CTM_ATTRIB_MAP_1 : CTMproperty;
  CTM_TRUE : CTMuint;
  CTM_FALSE : CTMuint;
  _CTM_FORMAT_VERSION : CTMuint
}.

(** The arithmetic of [CTMfloat], as far as [openctm.c] uses it. *)
Class FloatOps := {
  CTMfloat : Type;
  double : Type;
  f_zero : CTMfloat;                          (* 0.0 *)
  f_default_precision : CTMfloat;             (* 1.0 / 1024.0 *)
  f_le_zero : CTMfloat -> bool;               (* x <= 0.0 *)
  f_add : CTMfloat -> CTMfloat -> CTMfloat;
  f_sub : CTMfloat -> CTMfloat -> CTMfloat;
  f_mul : CTMfloat -> CTMfloat -> CTMfloat;
  f_div : CTMfloat -> CTMfloat -> CTMfloat;
  f_sqrt : CTMfloat -> double;                (* sqrt(x), of math.h *)
  f_add_double : CTMfloat -> double -> CTMfloat;  (* a += d *)
  f_of_uint : CTMuint -> CTMfloat             (* (CTMfloat) n *)
}.

(** Modelled from the spec: the types [CTMreadfn] and [CTMwritefn] of
    [openctm.h] and the user data pointer.  The stream callbacks are function
    pointers and an opaque pointer handed back to them; the model keeps them
    as tokens. *)
Inductive CTMreadfn := _ctmDefaultRead | user_readfn (id : N).
Inductive CTMwritefn := _ctmDefaultWrite | user_writefn (id : N).
Inductive userdata :=
| null_userdata
| file_stream (name : list byte)
| user_pointer (p : N).

(** What surrounds the context: the allocator, the byte source and sink the
    bound callbacks stand for, and the file system behind [fopen]. *)
Record World := {
  w_malloc : list bool;       (* the coming [malloc] calls: [false] = null *)
  w_source : list byte;       (* what the read callback has yet to deliver *)
  w_sink : list byte;         (* what the write callback has accepted *)
  w_fopen_rb : list byte -> option (list byte);
  w_fopen_wb : list byte -> bool
}.

Definition set_w_malloc (x : list bool) (w : World) :=
  {| w_malloc := x; w_source := w_source w; w_sink := w_sink w;
     w_fopen_rb := w_fopen_rb w; w_fopen_wb := w_fopen_wb w |}.

Definition set_w_source (x : list byte) (w : World) :=
  {| w_malloc := w_malloc w; w_source := x; w_sink := w_sink w;
     w_fopen_rb := w_fopen_rb w; w_fopen_wb := w_fopen_wb w |}.

Definition set_w_sink (x : list byte) (w : World) :=
  {| w_malloc := w_malloc w; w_source := w_source w; w_sink := x;
     w_fopen_rb := w_fopen_rb w; w_fopen_wb := w_fopen_wb w |}.

(** [malloc]: the next answer of the allocator; an allocator with nothing
    left to say grants the block. *)
Definition malloc (w : World) : bool * World :=
  match w_malloc w with
  | [] => (true, w)
  | b :: rest => (b, set_w_malloc rest w)
  end.

Section Model.

Context {F : FloatOps} {E : Enumerators}.

(** ** The structures of [internal.h] *)

(** Modelled from the spec: the structure [_CTMfloatmap] of [internal.h],
    which is not part of [openctm.c]: an entry of a map list, with the
    fields [openctm.c] accesses ([mNext] is the tail of the list). *)
Record _CTMfloatmap := {
  mName : option (list byte);
  mValues : option (list CTMfloat)
}.

(** Modelled from the spec: the structure [_CTMcontext] of [internal.h],
    which is not part of [openctm.c]: the mode, the mesh with its two map
    lists, the error register, the method, the precision, the comment and
    the bound stream callbacks, under the names [openctm.c] accesses them
    by. *)
Record _CTMcontext := {
  mMode : CTMcontextmode;
  mVertices : option (list CTMfloat);
  mVertexCount : CTMuint;
  mIndices : option (list CTMuint);
  mTriangleCount : CTMuint;
  mNormals : option (list CTMfloat);
  mTexMapCount : CTMuint;
  mTexMaps : list _CTMfloatmap;
  mAttribMapCount : CTMuint;
  mAttribMaps : list _CTMfloatmap;
  mError : CTMerror;
  mMethod : CTMmethod;
  mVertexPrecision : CTMfloat;
  mFileComment : option (list byte);
  mReadFn : option CTMreadfn;
  mWriteFn : option CTMwritefn;
  mUserData : userdata
}.

Definition CTMcontext := option _CTMcontext.

(** Assignment to one field. *)

Definition set_mVertices (x : option (list CTMfloat)) (self : _CTMcontext) :=
  {| mMode := mMode self; mVertices := x;
     mVertexCount := mVertexCount self; mIndices := mIndices self;
     mTriangleCount := mTriangleCount self; mNormals := mNormals self;
     mTexMapCount := mTexMapCount self; mTexMaps := mTexMaps self;
     mAttribMapCount := mAttribMapCount self;
     mAttribMaps := mAttribMaps self; mError := mError self;
     mMethod := mMethod self; mVertexPrecision := mVertexPrecision self;
     mFileComment := mFileComment self; mReadFn := mReadFn self;
     mWriteFn := mWriteFn self; mUserData := mUserData self |}.

Definition set_mVertexCount (x : CTMuint) (self : _CTMcontext) :=
  {| mMode := mMode self; mVertices := mVertices self; mVertexCount := x;
     mIndices := mIndices self; mTriangleCount := mTriangleCount self;
     mNormals := mNormals self; mTexMapCount := mTexMapCount self;
     mTexMaps := mTexMaps self; mAttribMapCount := mAttribMapCount self;
     mAttribMaps := mAttribMaps self; mError := mError self;
     mMethod := mMethod self; mVertexPrecision := mVertexPrecision self;
     mFileComment := mFileComment self; mReadFn := mReadFn self;
     mWriteFn := mWriteFn self; mUserData := mUserData self |}.

Definition set_mIndices (x : option (list CTMuint)) (self : _CTMcontext) :=
  {| mMode := mMode self; mVertices := mVertices self;
     mVertexCount := mVertexCount self; mIndices := x;
     mTriangleCount := mTriangleCount self; mNormals := mNormals self;
     mTexMapCount := mTexMapCount self; mTexMaps := mTexMaps self;
     mAttribMapCount := mAttribMapCount self;
     mAttribMaps := mAttribMaps self; mError := mError self;
     mMethod := mMethod self; mVertexPrecision := mVertexPrecision self;
     mFileComment := mFileComment self; mReadFn := mReadFn self;
     mWriteFn := mWriteFn self; mUserData := mUserData self |}.

Definition set_mTriangleCount (x : CTMuint) (self : _CTMcontext) :=
  {| mMode := mMode self; mVertices := mVertices self;
     mVertexCount := mVertexCount self; mIndices := mIndices self;
     mTriangleCount := x; mNormals := mNormals self;
     mTexMapCount := mTexMapCount self; mTexMaps := mTexMaps self;
     mAttribMapCount := mAttribMapCount self;
     mAttribMaps := mAttribMaps self; mError := mError self;
     mMethod := mMethod self; mVertexPrecision := mVertexPrecision self;
     mFileComment := mFileComment self; mReadFn := mReadFn self;
     mWriteFn := mWriteFn self; mUserData := mUserData self |}.

Definition set_mNormals (x : option (list CTMfloat)) (self : _CTMcontext) :=
  {| mMode := mMode self; mVertices := mVertices self;
     mVertexCount := mVertexCount self; mIndices := mIndices self;
     mTriangleCount := mTriangleCount self; mNormals := x;
     mTexMapCount := mTexMapCount self; mTexMaps := mTexMaps self;
     mAttribMapCount := mAttribMapCount self;
     mAttribMaps := mAttribMaps self; mError := mError self;
     mMethod := mMethod self; mVertexPrecision := mVertexPrecision self;
     mFileComment := mFileComment self; mReadFn := mReadFn self;
     mWriteFn := mWriteFn self; mUserData := mUserData self |}.

Definition set_mTexMapCount (x : CTMuint) (self : _CTMcontext) :=
  {| mMode := mMode self; mVertices := mVertices self;
     mVertexCount := mVertexCount self; mIndices := mIndices self;
     mTriangleCount := mTriangleCount self; mNormals := mNormals self;
     mTexMapCount := x; mTexMaps := mTexMaps self;
     mAttribMapCount := mAttribMapCount self;
     mAttribMaps := mAttribMaps self; mError := mError self;
     mMethod := mMethod self; mVertexPrecision := mVertexPrecision self;
     mFileComment := mFileComment self; mReadFn := mReadFn self;
     mWriteFn := mWriteFn self; mUserData := mUserData self |}.

Definition set_mTexMaps (x : list _CTMfloatmap) (self : _CTMcontext) :=
  {| mMode := mMode self; mVertices := mVertices self;
     mVertexCount := mVertexCount self; mIndices := mIndices self;
     mTriangleCount := mTriangleCount self; mNormals := mNormals self;
     mTexMapCount := mTexMapCount self; mTexMaps := x;
     mAttribMapCount := mAttribMapCount self;
     mAttribMaps := mAttribMaps self; mError := mError self;
     mMethod := mMethod self; mVertexPrecision := mVertexPrecision self;
     mFileComment := mFileComment self; mReadFn := mReadFn self;
     mWriteFn := mWriteFn self; mUserData := mUserData self |}.

Definition set_mAttribMapCount (x : CTMuint) (self : _CTMcontext) :=
  {| mMode := mMode self; mVertices := mVertices self;
     mVertexCount := mVertexCount self; mIndices := mIndices self;
     mTriangleCount := mTriangleCount self; mNormals := mNormals self;
     mTexMapCount := mTexMapCount self; mTexMaps := mTexMaps self;
     mAttribMapCount := x; mAttribMaps := mAttribMaps self;
     mError := mError self; mMethod := mMethod self;
     mVertexPrecision := mVertexPrecision self;
     mFileComment := mFileComment self; mReadFn := mReadFn self;
     mWriteFn := mWriteFn self; mUserData := mUserData self |}.

Definition set_mAttribMaps (x : list _CTMfloatmap) (self : _CTMcontext) :=
  {| mMode := mMode self; mVertices := mVertices self;
     mVertexCount := mVertexCount self; mIndices := mIndices self;
     mTriangleCount := mTriangleCount self; mNormals := mNormals self;
     mTexMapCount := mTexMapCount self; mTexMaps := mTexMaps self;
     mAttribMapCount := mAttribMapCount self; mAttribMaps := x;
     mError := mError self; mMethod := mMethod self;
     mVertexPrecision := mVertexPrecision self;
     mFileComment := mFileComment self; mReadFn := mReadFn self;
     mWriteFn := mWriteFn self; mUserData := mUserData self |}.

Definition set_mError (x : CTMerror) (self : _CTMcontext) :=
  {| mMode := mMode self; mVertices := mVertices self;
     mVertexCount := mVertexCount self; mIndices := mIndices self;
     mTriangleCount := mTriangleCount self; mNormals := mNormals self;
     mTexMapCount := mTexMapCount self; mTexMaps := mTexMaps self;
     mAttribMapCount := mAttribMapCount self;
     mAttribMaps := mAttribMaps self; mError := x; mMethod := mMethod self;
     mVertexPrecision := mVertexPrecision self;
     mFileComment := mFileComment self; mReadFn := mReadFn self;
     mWriteFn := mWriteFn self; mUserData := mUserData self |}.

Definition set_mMethod (x : CTMmethod) (self : _CTMcontext) :=
  {| mMode := mMode self; mVertices := mVertices self;
     mVertexCount := mVertexCount self; mIndices := mIndices self;
     mTriangleCount := mTriangleCount self; mNormals := mNormals self;
     mTexMapCount := mTexMapCount self; mTexMaps := mTexMaps self;
     mAttribMapCount := mAttribMapCount self;
     mAttribMaps := mAttribMaps self; mError := mError self; mMethod := x;
     mVertexPrecision := mVertexPrecision self;
     mFileComment := mFileComment self; mReadFn := mReadFn self;
     mWriteFn := mWriteFn self; mUserData := mUserData self |}.

Definition set_mVertexPrecision (x : CTMfloat) (self : _CTMcontext) :=
  {| mMode := mMode self; mVertices := mVertices self;
     mVertexCount := mVertexCount self; mIndices := mIndices self;
     mTriangleCount := mTriangleCount self; mNormals := mNormals self;
     mTexMapCount := mTexMapCount self; mTexMaps := mTexMaps self;
     mAttribMapCount := mAttribMapCount self;
     mAttribMaps := mAttribMaps self; mError := mError self;
     mMethod := mMethod self; mVertexPrecision := x;
     mFileComment := mFileComment self; mReadFn := mReadFn self;
     mWriteFn := mWriteFn self; mUserData := mUserData self |}.

Definition set_mFileComment (x : option (list byte)) (self : _CTMcontext) :=
  {| mMode := mMode self; mVertices := mVertices self;
     mVertexCount := mVertexCount self; mIndices := mIndices self;
     mTriangleCount := mTriangleCount self; mNormals := mNormals self;
     mTexMapCount := mTexMapCount self; mTexMaps := mTexMaps self;
     mAttribMapCount := mAttribMapCount self;
     mAttribMaps := mAttribMaps self; mError := mError self;
     mMethod := mMethod self; mVertexPrecision := mVertexPrecision self;
     mFileComment := x; mReadFn := mReadFn self; mWriteFn := mWriteFn self;
     mUserData := mUserData self |}.

Definition set_mReadFn (x : option CTMreadfn) (self : _CTMcontext) :=
  {| mMode := mMode self; mVertices := mVertices self;
     mVertexCount := mVertexCount self; mIndices := mIndices self;
     mTriangleCount := mTriangleCount self; mNormals := mNormals self;
     mTexMapCount := mTexMapCount self; mTexMaps := mTexMaps self;
     mAttribMapCount := mAttribMapCount self;
     mAttribMaps := mAttribMaps self; mError := mError self;
     mMethod := mMethod self; mVertexPrecision := mVertexPrecision self;
     mFileComment := mFileComment self; mReadFn := x;
     mWriteFn := mWriteFn self; mUserData := mUserData self |}.

Definition set_mWriteFn (x : option CTMwritefn) (self : _CTMcontext) :=
  {| mMode := mMode self; mVertices := mVertices self;
     mVertexCount := mVertexCount self; mIndices := mIndices self;
     mTriangleCount := mTriangleCount self; mNormals := mNormals self;
     mTexMapCount := mTexMapCount self; mTexMaps := mTexMaps self;
     mAttribMapCount := mAttribMapCount self;
     mAttribMaps := mAttribMaps self; mError := mError self;
     mMethod := mMethod self; mVertexPrecision := mVertexPrecision self;
     mFileComment := mFileComment self; mReadFn := mReadFn self;
     mWriteFn := x; mUserData := mUserData self |}.

Definition set_mUserData (x : userdata) (self : _CTMcontext) :=
  {| mMode := mMode self; mVertices := mVertices self;
     mVertexCount := mVertexCount self; mIndices := mIndices self;
     mTriangleCount := mTriangleCount self; mNormals := mNormals self;
     mTexMapCount := mTexMapCount self; mTexMaps := mTexMaps self;
     mAttribMapCount := mAttribMapCount self;
     mAttribMaps := mAttribMaps self; mError := mError self;
     mMethod := mMethod self; mVertexPrecision := mVertexPrecision self;
     mFileComment := mFileComment self; mReadFn := mReadFn self;
     mWriteFn := mWriteFn self; mUserData := x |}.

(** ** Replies *)

(** [Raised e]: the call left through a branch that assigns [mError = e]. *)
Inductive status := Done | Raised (e : CTMerror).

Record reply (A : Type) := Reply {
  value : A;
  raised : status;
  after : CTMcontext
}.

Arguments Reply {A} value raised after.
Arguments value {A} r.
Arguments raised {A} r.
Arguments after {A} r.

(** [return v;] *)
Definition quiet {A : Type} (v : A) (c : CTMcontext) : reply A :=
  Reply v Done c.

(** [self->mError = e; return v;] *)
Definition raise {A : Type} (v : A) (e : CTMerror) (self : _CTMcontext)
  : reply A :=
  Reply v (Raised e) (Some (set_mError e self)).

Definition is_null {A : Type} (p : option A) : bool :=
  match p with
  | Some _ => false
  | None => true
  end.

(** ** [_ctmFreeMapList] and [_ctmClearMesh] *)

(** The loop [while(map) { ...; nextMap = map->mNext; free(map); }].  The
    body releases the values (in import mode), the name and the node, and
    stores the successor in [nextMap]; it never assigns [map], so the
    condition is evaluated on the same node again. *)
Fixpoint _ctmFreeMapList (fuel : nat) (self : _CTMcontext)
  (map : list _CTMfloatmap) : outcome unit :=
  match map with
  | [] => Returns tt
  | _ :: nextMap =>
      match fuel with
      | O => OutOfFuel
      | S fuel' => _ctmFreeMapList fuel' self map
      end
  end.

Definition _ctmClearMesh (fuel : nat) (self : _CTMcontext)
  : outcome _CTMcontext :=
  (* in import mode: free(mVertices), free(mIndices), free(mNormals) *)
  let self := set_mVertices None self in
  let self := set_mVertexCount 0 self in
  let self := set_mIndices None self in
  let self := set_mTriangleCount 0 self in
  let self := set_mNormals None self in
  _ <- _ctmFreeMapList fuel self (mTexMaps self) ;;
  let self := set_mTexMaps [] self in
  let self := set_mTexMapCount 0 self in
  _ <- _ctmFreeMapList fuel self (mAttribMaps self) ;;
  let self := set_mAttribMaps [] self in
  let self := set_mAttribMapCount 0 self in
  Returns self.

(** ** Creation, destruction, the error register *)

(** [malloc] is not checked: on a null result [memset] writes through it. *)
Definition ctmNewContext (aMode : CTMcontextmode) (w : World)
  : outcome (CTMcontext * World) :=
  let '(granted, w) := malloc w in
  if granted then
    Returns
      (Some {| mMode := aMode; mVertices := None; mVertexCount := 0;
               mIndices := None; mTriangleCount := 0; mNormals := None;
               mTexMapCount := 0; mTexMaps := []; mAttribMapCount := 0;
               mAttribMaps := []; mError := CTM_NO_ERROR;
               mMethod := CTM_METHOD_MG1;
               mVertexPrecision := f_default_precision;
               mFileComment := None; mReadFn := None; mWriteFn := None;
               mUserData := null_userdata |}, w)
  else Undefined.

(** After the call no context object remains. *)
Definition ctmFreeContext (fuel : nat) (aContext : CTMcontext)
  : outcome (reply unit) :=
  match aContext with
  | None => Returns (quiet tt None)
  | Some self =>
      _ <- _ctmClearMesh fuel self ;;
      (* free(mFileComment); free(self) *)
      Returns (quiet tt None)
  end.

Definition ctmError (aContext : CTMcontext) : reply CTMerror :=
  match aContext with
  | None => quiet CTM_INVALID_CONTEXT None
  | Some self =>
      let err := mError self in
      quiet err (Some (set_mError CTM_NO_ERROR self))
  end.

(** ** The property accessors *)

Definition ctmGetInteger (aContext : CTMcontext) (aProperty : CTMproperty)
  : reply CTMuint :=
  match aContext with
  | None => quiet 0 None
  | Some self =>
      if aProperty =? CTM_VERTEX_COUNT then
        quiet (mVertexCount self) (Some self)
      else if aProperty =? CTM_TRIANGLE_COUNT then
        quiet (mTriangleCount self) (Some self)
      else if aProperty =? CTM_TEX_MAP_COUNT then
        quiet (mTexMapCount self) (Some self)
      else if aProperty =? CTM_ATTRIB_MAP_COUNT then
        quiet (mAttribMapCount self) (Some self)
      else if aProperty =? CTM_HAS_NORMALS then
        quiet (if is_null (mNormals self) then CTM_FALSE else CTM_TRUE)
          (Some self)
      else raise 0 CTM_INVALID_ARGUMENT self
  end.

Definition ctmGetIntegerArray (aContext : CTMcontext)
  (aProperty : CTMproperty) : reply (option (list CTMuint)) :=
  match aContext with
  | None => quiet None None
  | Some self =>
      if aProperty =? CTM_INDICES then quiet (mIndices self) (Some self)
      else raise None CTM_INVALID_ARGUMENT self
  end.

(** The loop [while(map && (i != aProperty)) { map = map->mNext; ++ i; }];
    the result is the value of [map] when it ends. *)
Fixpoint walk_maps (map : list _CTMfloatmap) (i : CTMuint)
  (aProperty : CTMproperty) : list _CTMfloatmap :=
  match map with
  | [] => []
  | _ :: mNext =>
      if i =? aProperty then map
      else walk_maps mNext (wrap32 (i + 1)) aProperty
  end.

Definition ctmGetFloatArray (aContext : CTMcontext) (aProperty : CTMproperty)
  : reply (option (list CTMfloat)) :=
  match aContext with
  | None => quiet None None
  | Some self =>
      if (CTM_TEX_MAP_1 <=? aProperty)
         && (aProperty - CTM_TEX_MAP_1 <? mTexMapCount self) then
        match walk_maps (mTexMaps self) CTM_TEX_MAP_1 aProperty with
        | [] => raise None CTM_INVALID_ARGUMENT self
        | map :: _ => quiet (mValues map) (Some self)
        end
      else if (CTM_ATTRIB_MAP_1 <=? aProperty)
              && (aProperty - CTM_ATTRIB_MAP_1 <? mAttribMapCount self) then
        match walk_maps (mAttribMaps self) CTM_ATTRIB_MAP_1 aProperty with
        | [] => raise None CTM_INVALID_ARGUMENT self
        | map :: _ => quiet (mValues map) (Some self)
        end
      else if aProperty =? CTM_VERTICES then
        quiet (mVertices self) (Some self)
      else if aProperty =? CTM_NORMALS then
        quiet (mNormals self) (Some self)
      else raise None CTM_INVALID_ARGUMENT self
  end.

Definition ctmGetString (aContext : CTMcontext) (aProperty : CTMproperty)
  : reply (option (list byte)) :=
  match aContext with
  | None => quiet None None
  | Some self =>
      if aProperty =? CTM_FILE_COMMENT then
        quiet (mFileComment self) (Some self)
      else raise None CTM_INVALID_ARGUMENT self
  end.

(** ** Compression method and precision *)

Definition ctmCompressionMethod (aContext : CTMcontext) (aMethod : CTMmethod)
  : reply unit :=
  match aContext with
  | None => quiet tt None
  | Some self =>
      if negb (CTMcontextmode_eqb (mMode self) CTM_EXPORT) then
        raise tt CTM_INVALID_OPERATION self
      else if negb (CTMmethod_eqb aMethod CTM_METHOD_RAW)
              && negb (CTMmethod_eqb aMethod CTM_METHOD_MG1)
              && negb (CTMmethod_eqb aMethod CTM_METHOD_MG2) then
        raise tt CTM_INVALID_ARGUMENT self
      else quiet tt (Some (set_mMethod aMethod self))
  end.

Definition ctmVertexPrecision (aContext : CTMcontext) (aPrecision : CTMfloat)
  : reply unit :=
  match aContext with
  | None => quiet tt None
  | Some self =>
      if negb (CTMcontextmode_eqb (mMode self) CTM_EXPORT) then
        raise tt CTM_INVALID_OPERATION self
      else if f_le_zero aPrecision then
        raise tt CTM_INVALID_ARGUMENT self
      else quiet tt (Some (set_mVertexPrecision aPrecision self))
  end.

Definition point : Type := CTMfloat * CTMfloat * CTMfloat.

(** [self->mIndices[k]] *)
Definition index_at (self : _CTMcontext) (k : N) : outcome CTMuint :=
  match mIndices self with
  | None => Undefined
  | Some a => of_option (nth_error a (N.to_nat k))
  end.

(** [p[0]], [p[1]], [p[2]] for [p = &self->mVertices[k]] *)
Definition vertex_at (self : _CTMcontext) (k : N) : outcome point :=
  match mVertices self with
  | None => Undefined
  | Some a =>
      x <- of_option (nth_error a (N.to_nat k)) ;;
      y <- of_option (nth_error a (N.to_nat (k + 1))) ;;
      z <- of_option (nth_error a (N.to_nat (k + 2))) ;;
      Returns (x, y, z)
  end.

(** [sqrt((p2[0] - p1[0]) * (p2[0] - p1[0]) + ...)] *)
Definition edge_length (p1 p2 : point) : double :=
  let '(x1, y1, z1) := p1 in
  let '(x2, y2, z2) := p2 in
  f_sqrt (f_add (f_add (f_mul (f_sub x2 x1) (f_sub x2 x1))
                       (f_mul (f_sub y2 y1) (f_sub y2 y1)))
                (f_mul (f_sub z2 z1) (f_sub z2 z1))).

(** The loop [for(j = 0; j < 3; ++ j)], over the values of [j] to come; the
    state is [p1], [avgEdgeLength] and [edgeCount]. *)
Fixpoint edge_loop (self : _CTMcontext) (i : CTMuint) (js : list CTMuint)
  (st : point * CTMfloat * CTMuint) : outcome (point * CTMfloat * CTMuint) :=
  match js with
  | [] => Returns st
  | j :: js' =>
      let '(p1, avgEdgeLength, edgeCount) := st in
      k <- index_at self (wrap32 (i * 3 + j)) ;;
      p2 <- vertex_at self (wrap32 (k * 3)) ;;
      edge_loop self i js'
        (p2, f_add_double avgEdgeLength (edge_length p1 p2),
         wrap32 (edgeCount + 1))
  end.

(** The loop [for(i = 0; i < self->mTriangleCount; ++ i)], with [n]
    iterations to go. *)
Fixpoint triangle_loop (self : _CTMcontext) (n : nat) (i : CTMuint)
  (st : CTMfloat * CTMuint) : outcome (CTMfloat * CTMuint) :=
  match n with
  | O => Returns st
  | S n' =>
      let '(avgEdgeLength, edgeCount) := st in
      k <- index_at self (wrap32 (i * 3 + 2)) ;;
      p1 <- vertex_at self (wrap32 (k * 3)) ;;
      ' (_, avgEdgeLength, edgeCount) <-
        edge_loop self i [0; 1; 2] (p1, avgEdgeLength, edgeCount) ;;
      triangle_loop self n' (wrap32 (i + 1)) (avgEdgeLength, edgeCount)
  end.

Definition ctmVertexPrecisionRel (aContext : CTMcontext)
  (aRelPrecision : CTMfloat) : outcome (reply unit) :=
  match aContext with
  | None => Returns (quiet tt None)
  | Some self =>
      if negb (CTMcontextmode_eqb (mMode self) CTM_EXPORT) then
        Returns (raise tt CTM_INVALID_OPERATION self)
      else if f_le_zero aRelPrecision then
        Returns (raise tt CTM_INVALID_ARGUMENT self)
      else
        ' (avgEdgeLength, edgeCount) <-
          triangle_loop self (N.to_nat (mTriangleCount self)) 0 (f_zero, 0) ;;
        if edgeCount =? 0 then Returns (raise tt CTM_INVALID_MESH self)
        else
          let avgEdgeLength := f_div avgEdgeLength (f_of_uint edgeCount) in
          Returns (quiet tt (Some (set_mVertexPrecision
                                     (f_mul aRelPrecision avgEdgeLength) self)))
  end.

(** The body after the checks is still to be written ("FIXME!"). *)
Definition ctmTexCoordPrecision (aContext : CTMcontext) (aTexMap : CTMproperty)
  (aPrecision : CTMfloat) : reply unit :=
  match aContext with
  | None => quiet tt None
  | Some self =>
      if negb (CTMcontextmode_eqb (mMode self) CTM_EXPORT) then
        raise tt CTM_INVALID_OPERATION self
      else if f_le_zero aPrecision || (aTexMap <? CTM_TEX_MAP_1)
              || (mTexMapCount self <=? aTexMap - CTM_TEX_MAP_1) then
        raise tt CTM_INVALID_ARGUMENT self
      else quiet tt (Some self)
  end.

Definition ctmAttribPrecision (aContext : CTMcontext)
  (aAttribMap : CTMproperty) (aPrecision : CTMfloat) : reply unit :=
  match aContext with
  | None => quiet tt None
  | Some self =>
      if negb (CTMcontextmode_eqb (mMode self) CTM_EXPORT) then
        raise tt CTM_INVALID_OPERATION self
      else if f_le_zero aPrecision || (aAttribMap <? CTM_ATTRIB_MAP_1)
              || (mAttribMapCount self <=? aAttribMap - CTM_ATTRIB_MAP_1) then
        raise tt CTM_INVALID_ARGUMENT self
      else quiet tt (Some self)
  end.

(** ** File comment, mesh and maps *)

(** A [const char *] argument is an [option] of the bytes of the object it
    points to, from the pointer to the end of the object.  [strlen] and
    [strcpy] read them up to the first NUL, and past the end of an object
    that holds none.  [c_str]: the string such an object holds, its bytes
    before the first NUL. *)
Definition terminated (obj : list byte) : bool :=
  existsb (fun b => Byte.eqb b x00) obj.

Fixpoint c_str (obj : list byte) : list byte :=
  match obj with
  | [] => []
  | b :: rest => if Byte.eqb b x00 then [] else b :: c_str rest
  end.

(** [(int) n] for a [size_t] value [n]: [int] has the width of [CTMuint], and
    a value above [INT_MAX] is converted modulo [2 ^ 32], in two's
    complement. *)
Definition INT_MAX : Z := 2 ^ 31 - 1.

Definition int_of_size (n : N) : Z :=
  let m := Z.of_N (wrap32 n) in
  if (m <=? INT_MAX)%Z then m else (m - 2 ^ 32)%Z.

(** Whether a block of [(size_t) (len + 1)] bytes holds a string of [n]
    bytes and its NUL, where [len] is [(int) n].  When [len] is not negative
    the block has [len + 1] bytes, which are enough when [len] is [n].  When
    [len] is negative, [n] is [2 ^ 31] or more and [len + 1] is converted
    modulo the range of [size_t], which is a multiple of [2 ^ 32] above [n]:
    the block has [n + 1] bytes or more, unless [len + 1] is zero. *)
Definition holds_string (len : Z) (n : nat) : bool :=
  ((0 <=? len) && (Z.of_nat n =? len) || (len <? -1))%Z.

Definition ctmFileComment (aContext : CTMcontext)
  (aFileComment : option (list byte)) (w : World)
  : outcome (reply unit * World) :=
  match aContext with
  | None => Returns (quiet tt None, w)
  | Some self =>
      if negb (CTMcontextmode_eqb (mMode self) CTM_EXPORT) then
        Returns (raise tt CTM_INVALID_OPERATION self, w)
      else
        let self :=
          if is_null (mFileComment self) then self
          else (* free(mFileComment) *) set_mFileComment None self in
        match aFileComment with
        | None => Returns (quiet tt (Some self), w)
        | Some obj =>
            if negb (terminated obj) then
              (* strlen reads past the end of the object *) Undefined
            else
            let str := c_str obj in
            (* int len = strlen(aFileComment) *)
            let len := int_of_size (N.of_nat (length str)) in
            if (len =? 0)%Z then Returns (quiet tt (Some self), w)
            else if (len =? INT_MAX)%Z then
              (* malloc(len + 1): the sum overflows *) Undefined
            else
              let '(granted, w) := malloc w in
              if granted then
                if holds_string len (length str) then
                  (* strcpy *)
                  Returns
                    (quiet tt (Some (set_mFileComment (Some str) self)), w)
                else (* strcpy writes past the end of the block *) Undefined
              else
                Returns
                  (raise tt CTM_OUT_OF_MEMORY (set_mFileComment None self), w)
        end
  end.

Definition ctmDefineMesh (fuel : nat) (aContext : CTMcontext)
  (aVertices : option (list CTMfloat)) (aVertexCount : CTMuint)
  (aIndices : option (list CTMuint)) (aTriangleCount : CTMuint)
  (aNormals : option (list CTMfloat)) : outcome (reply unit) :=
  match aContext with
  | None => Returns (quiet tt None)
  | Some self =>
      if negb (CTMcontextmode_eqb (mMode self) CTM_EXPORT) then
        Returns (raise tt CTM_INVALID_OPERATION self)
      else if is_null aVertices || is_null aIndices
              || (aVertexCount =? 0) || (aTriangleCount =? 0) then
        Returns (raise tt CTM_INVALID_ARGUMENT self)
      else
        self <- _ctmClearMesh fuel self ;;
        let self := set_mVertices aVertices self in
        let self := set_mVertexCount aVertexCount self in
        let self := set_mIndices aIndices self in
        let self := set_mTriangleCount aTriangleCount self in
        let self := set_mNormals aNormals self in
        Returns (quiet tt (Some self))
  end.

(** The two bodies are still to be written ("FIXME!"): they return
    [CTM_NONE] and do not look at their arguments. *)
Definition ctmAddTexMap (aContext : CTMcontext)
  (aTexCoords : option (list CTMfloat)) (aName : option (list byte))
  : reply CTMproperty :=
  quiet CTM_NONE aContext.

Definition ctmAddAttribMap (aContext : CTMcontext)
  (aAttribValues : option (list CTMfloat)) (aName : option (list byte))
  : reply CTMproperty :=
  quiet CTM_NONE aContext.

(** ** The stream helpers and constants of [stream.c] and [internal.h] *)

Definition byte_of_N (n : N) : byte :=
  match Byte.of_N (n mod 256) with
  | Some b => b
  | None => x00
  end.

(** The four bytes of a 32-bit integer, least significant first, and the
    integer of a byte sequence read that way. *)
Definition bytes_of_uint (n : CTMuint) : list byte :=
  [byte_of_N n; byte_of_N (n / 2 ^ 8); byte_of_N (n / 2 ^ 16);
   byte_of_N (n / 2 ^ 24)].

Definition uint_of_bytes (buf : list byte) : CTMuint :=
  fold_right (fun b acc => Byte.to_N b + 256 * acc) 0 buf.

(** Modelled from the spec: the macro [FOURCC] of [internal.h], which is not
    part of [openctm.c].  The magic token and the method tag are 4-byte
    fields compared with an integer read from the stream; the byte order is
    the one the integers of the header use. *)
Definition FOURCC (str : list byte) : CTMuint :=
  uint_of_bytes (firstn 4 str).

(** Modelled from the spec: the constant [_CTM_HAS_NORMALS_BIT] of
    [internal.h]; bit 0 of the flags word means normals are present. *)
Definition _CTM_HAS_NORMALS_BIT : CTMuint := 1.

(** Modelled from the spec: [_ctmStreamRead] of [stream.c].  The bound read
    callback fills the caller's buffer from the source and returns the count
    it obtained; the count is not checked, so when the source has fewer bytes
    left the buffer holds no defined value. *)
Definition _ctmStreamRead (self : _CTMcontext) (aCount : CTMuint) (w : World)
  : outcome (list byte * World) :=
  match mReadFn self with
  | None => Undefined
  | Some _ =>
      if aCount <=? N.of_nat (length (w_source w)) then
        Returns (firstn (N.to_nat aCount) (w_source w),
                 set_w_source (skipn (N.to_nat aCount) (w_source w)) w)
      else Undefined
  end.

(** Modelled from the spec: [_ctmStreamReadUINT] of [stream.c]; the
    integers of the header are 32-bit. *)
Definition _ctmStreamReadUINT (self : _CTMcontext) (w : World)
  : outcome (CTMuint * World) :=
  ' (buf, w) <- _ctmStreamRead self 4 w ;;
  Returns (uint_of_bytes buf, w).

(** Modelled from the spec: [_ctmStreamReadSTRING] of [stream.c]; the
    comment is a length-prefixed text, length 0 standing for an absent
    one.  The result is what the call stores through its second argument. *)
Definition _ctmStreamReadSTRING (self : _CTMcontext) (w : World)
  : outcome (option (list byte) * World) :=
  ' (len, w) <- _ctmStreamReadUINT self w ;;
  if len =? 0 then Returns (None, w)
  else
    ' (str, w) <- _ctmStreamRead self len w ;;
    Returns (Some str, w).

(** Modelled from the spec: [_ctmStreamWrite] of [stream.c].  The bound
    write callback consumes the caller's buffer; the sink accepts every
    byte. *)
Definition _ctmStreamWrite (self : _CTMcontext) (aBuf : list byte)
  (aCount : CTMuint) (w : World) : outcome World :=
  match mWriteFn self with
  | None => Undefined
  | Some _ =>
      Returns (set_w_sink (w_sink w ++ firstn (N.to_nat aCount) aBuf) w)
  end.

(** Modelled from the spec: [_ctmStreamWriteUINT] of [stream.c]. *)
Definition _ctmStreamWriteUINT (self : _CTMcontext) (aValue : CTMuint)
  (w : World) : outcome World :=
  _ctmStreamWrite self (bytes_of_uint aValue) 4 w.

(** Modelled from the spec: [_ctmStreamWriteSTRING] of [stream.c]; a null
    string is written as length 0. *)
Definition _ctmStreamWriteSTRING (self : _CTMcontext)
  (aValue : option (list byte)) (w : World) : outcome World :=
  match aValue with
  | None => _ctmStreamWriteUINT self 0 w
  | Some str =>
      let len := N.of_nat (length str) in
      w <- _ctmStreamWriteUINT self len w ;;
      _ctmStreamWrite self str len w
  end.

(** ** The codecs *)

(** [compressRAW.c], [compressMG1.c] and [compressMG2.c]: each function
    works on the context and, through its bound callback, on the stream. *)
Class Codecs := {
  _ctmCompressMesh_RAW : _CTMcontext -> World -> outcome (_CTMcontext * World);
  _ctmCompressMesh_MG1 : _CTMcontext -> World -> outcome (_CTMcontext * World);
  _ctmCompressMesh_MG2 : _CTMcontext -> World -> outcome (_CTMcontext * World);
  _ctmUncompressMesh_RAW :
    _CTMcontext -> World -> outcome (_CTMcontext * World);
  _ctmUncompressMesh_MG1 :
    _CTMcontext -> World -> outcome (_CTMcontext * World);
  _ctmUncompressMesh_MG2 :
    _CTMcontext -> World -> outcome (_CTMcontext * World)
}.

Context {C : Codecs}.

Definition tag_OCTM : list byte := ["O"; "C"; "T"; "M"]%byte.
Definition tag_RAW : list byte := ["R"; "A"; "W"; x00]%byte.
Definition tag_MG1 : list byte := ["M"; "G"; "1"; x00]%byte.
Definition tag_MG2 : list byte := ["M"; "G"; "2"; x00]%byte.

(** ** Loading *)

(** The chain [if(method == FOURCC("RAW\0")) ... else if ...] of
    [ctmLoadCustom]; [None] is its final [else]. *)
Definition method_of_tag (method : CTMuint) : option CTMmethod :=
  if method =? FOURCC tag_RAW then Some CTM_METHOD_RAW
  else if method =? FOURCC tag_MG1 then Some CTM_METHOD_MG1
  else if method =? FOURCC tag_MG2 then Some CTM_METHOD_MG2
  else None.

(** A block fresh from [malloc]; its contents are not specified and the
    model fills it with [0.0] (respectively [0]). *)
Definition fresh_floats (n : N) : list CTMfloat := repeat f_zero (N.to_nat n).
Definition fresh_uints (n : N) : list CTMuint := repeat 0 (N.to_nat n).

(** [switch(self->mMethod)] at the end of [ctmLoadCustom] *)
Definition uncompress (self : _CTMcontext) (w : World)
  : outcome (_CTMcontext * World) :=
  match mMethod self with
  | CTM_METHOD_RAW => _ctmUncompressMesh_RAW self w
  | CTM_METHOD_MG1 => _ctmUncompressMesh_MG1 self w
  | CTM_METHOD_MG2 => _ctmUncompressMesh_MG2 self w
  | CTM_METHOD_OTHER => Returns (self, w)
  end.

(** [ctmLoadCustom] from "Allocate memory for the mesh arrays" on. *)
Definition load_arrays (fuel : nat) (self : _CTMcontext) (flags : CTMuint)
  (w : World) : outcome (reply unit * World) :=
  let '(granted, w) := malloc w in
  if negb granted then
    Returns (raise tt CTM_OUT_OF_MEMORY (set_mVertices None self), w)
  else
    let self :=
      set_mVertices (Some (fresh_floats (mVertexCount self * 3))) self in
    let '(granted, w) := malloc w in
    if negb granted then
      self <- _ctmClearMesh fuel (set_mIndices None self) ;;
      Returns (raise tt CTM_OUT_OF_MEMORY self, w)
    else
      let self :=
        set_mIndices (Some (fresh_uints (mTriangleCount self * 3))) self in
      if negb (N.land flags _CTM_HAS_NORMALS_BIT =? 0) then
        let '(granted, w) := malloc w in
        if negb granted then
          self <- _ctmClearMesh fuel (set_mNormals None self) ;;
          Returns (raise tt CTM_OUT_OF_MEMORY self, w)
        else
          let self :=
            set_mNormals (Some (fresh_floats (mVertexCount self * 3))) self in
          ' (self, w) <- uncompress self w ;;
          Returns (quiet tt (Some self), w)
      else
        ' (self, w) <- uncompress self w ;;
        Returns (quiet tt (Some self), w).

Definition ctmLoadCustom (fuel : nat) (aContext : CTMcontext)
  (aReadFn : CTMreadfn) (aUserData : userdata) (w : World)
  : outcome (reply unit * World) :=
  match aContext with
  | None => Returns (quiet tt None, w)
  | Some self =>
      if negb (CTMcontextmode_eqb (mMode self) CTM_IMPORT) then
        Returns (raise tt CTM_INVALID_OPERATION self, w)
      else
        let self := set_mReadFn (Some aReadFn) self in
        let self := set_mUserData aUserData self in
        self <- _ctmClearMesh fuel self ;;
        ' (magic, w) <- _ctmStreamReadUINT self w ;;
        if negb (magic =? FOURCC tag_OCTM) then
          Returns (raise tt CTM_FORMAT_ERROR self, w)
        else
          ' (formatVersion, w) <- _ctmStreamReadUINT self w ;;
          if negb (formatVersion =? _CTM_FORMAT_VERSION) then
            Returns (raise tt CTM_FORMAT_ERROR self, w)
          else
            ' (method, w) <- _ctmStreamReadUINT self w ;;
            match method_of_tag method with
            | None => Returns (raise tt CTM_FORMAT_ERROR self, w)
            | Some m =>
                let self := set_mMethod m self in
                ' (n, w) <- _ctmStreamReadUINT self w ;;
                let self := set_mVertexCount n self in
                if mVertexCount self =? 0 then
                  Returns (raise tt CTM_FORMAT_ERROR self, w)
                else
                  ' (n, w) <- _ctmStreamReadUINT self w ;;
                  let self := set_mTriangleCount n self in
                  if mTriangleCount self =? 0 then
                    Returns (raise tt CTM_FORMAT_ERROR self, w)
                  else
                    ' (n, w) <- _ctmStreamReadUINT self w ;;
                    let self := set_mTexMapCount n self in
                    ' (n, w) <- _ctmStreamReadUINT self w ;;
                    let self := set_mAttribMapCount n self in
                    ' (flags, w) <- _ctmStreamReadUINT self w ;;
                    ' (str, w) <- _ctmStreamReadSTRING self w ;;
                    let self := set_mFileComment str self in
                    load_arrays fuel self flags w
            end
  end.

(** [fopen(aFileName, "rb")] binds the source to the contents of the file. *)
Definition ctmLoad (fuel : nat) (aContext : CTMcontext)
  (aFileName : list byte) (w : World) : outcome (reply unit * World) :=
  match aContext with
  | None => Returns (quiet tt None, w)
  | Some self =>
      if negb (CTMcontextmode_eqb (mMode self) CTM_IMPORT) then
        Returns (raise tt CTM_INVALID_OPERATION self, w)
      else
        match w_fopen_rb w aFileName with
        | None => Returns (raise tt CTM_FILE_ERROR self, w)
        | Some contents =>
            (* ...; fclose(f) *)
            ctmLoadCustom fuel (Some self) _ctmDefaultRead
              (file_stream aFileName) (set_w_source contents w)
        end
  end.

(** ** Saving *)

(** [switch(self->mMethod)] in the header of [ctmSaveCustom] *)
Definition write_method_tag (self : _CTMcontext) (w : World) : outcome World :=
  match mMethod self with
  | CTM_METHOD_RAW => _ctmStreamWrite self tag_RAW 4 w
  | CTM_METHOD_MG1 => _ctmStreamWrite self tag_MG1 4 w
  | CTM_METHOD_MG2 => _ctmStreamWrite self tag_MG2 4 w
  | CTM_METHOD_OTHER => Returns w
  end.

(** [switch(self->mMethod)] at the end of [ctmSaveCustom] *)
Definition compress (self : _CTMcontext) (w : World)
  : outcome (_CTMcontext * World) :=
  match mMethod self with
  | CTM_METHOD_RAW => _ctmCompressMesh_RAW self w
  | CTM_METHOD_MG1 => _ctmCompressMesh_MG1 self w
  | CTM_METHOD_MG2 => _ctmCompressMesh_MG2 self w
  | CTM_METHOD_OTHER => Returns (self, w)
  end.

Definition ctmSaveCustom (aContext : CTMcontext) (aWriteFn : CTMwritefn)
  (aUserData : userdata) (w : World) : outcome (reply unit * World) :=
  match aContext with
  | None => Returns (quiet tt None, w)
  | Some self =>
      if negb (CTMcontextmode_eqb (mMode self) CTM_EXPORT) then
        Returns (raise tt CTM_INVALID_OPERATION self, w)
      else if is_null (mVertices self) || is_null (mIndices self)
              || (mVertexCount self <? 1) || (mTriangleCount self <? 1) then
        Returns (raise tt CTM_INVALID_MESH self, w)
      else
        let self := set_mWriteFn (Some aWriteFn) self in
        let self := set_mUserData aUserData self in
        let flags :=
          if is_null (mNormals self) then 0
          else N.lor 0 _CTM_HAS_NORMALS_BIT in
        w <- _ctmStreamWrite self tag_OCTM 4 w ;;
        w <- _ctmStreamWriteUINT self _CTM_FORMAT_VERSION w ;;
        w <- write_method_tag self w ;;
        w <- _ctmStreamWriteUINT self (mVertexCount self) w ;;
        w <- _ctmStreamWriteUINT self (mTriangleCount self) w ;;
        w <- _ctmStreamWriteUINT self (mTexMapCount self) w ;;
        w <- _ctmStreamWriteUINT self (mAttribMapCount self) w ;;
        w <- _ctmStreamWriteUINT self flags w ;;
        w <- _ctmStreamWriteSTRING self (mFileComment self) w ;;
        ' (self, w) <- compress self w ;;
        Returns (quiet tt (Some self), w)
  end.

(** [fopen(aFileName, "wb")] binds the sink to the new, empty file. *)
Definition ctmSave (aContext : CTMcontext) (aFileName : list byte) (w : World)
  : outcome (reply unit * World) :=
  match aContext with
  | None => Returns (quiet tt None, w)
  | Some self =>
      if negb (CTMcontextmode_eqb (mMode self) CTM_EXPORT) then
        Returns (raise tt CTM_INVALID_OPERATION self, w)
      else if w_fopen_wb w aFileName then
        (* ...; fclose(f) *)
        ctmSaveCustom (Some self) _ctmDefaultWrite (file_stream aFileName)
          (set_w_sink [] w)
      else Returns (raise tt CTM_FILE_ERROR self, w)
  end.

(** ** The API as a set of operations *)

Inductive operation :=
| call_ctmFreeContext
| call_ctmError
| call_ctmGetInteger (aProperty : CTMproperty)
| call_ctmGetIntegerArray (aProperty : CTMproperty)
| call_ctmGetFloatArray (aProperty : CTMproperty)
| call_ctmGetString (aProperty : CTMproperty)
| call_ctmCompressionMethod (aMethod : CTMmethod)
| call_ctmVertexPrecision (aPrecision : CTMfloat)
| call_ctmVertexPrecisionRel (aRelPrecision : CTMfloat)
| call_ctmTexCoordPrecision (aTexMap : CTMproperty) (aPrecision : CTMfloat)
| call_ctmAttribPrecision (aAttribMap : CTMproperty) (aPrecision : CTMfloat)
| call_ctmFileComment (aFileComment : option (list byte))
| call_ctmDefineMesh (aVertices : option (list CTMfloat))
    (aVertexCount : CTMuint) (aIndices : option (list CTMuint))
    (aTriangleCount : CTMuint) (aNormals : option (list CTMfloat))
| call_ctmAddTexMap (aTexCoords : option (list CTMfloat))
    (aName : option (list byte))
| call_ctmAddAttribMap (aAttribValues : option (list CTMfloat))
    (aName : option (list byte))
| call_ctmLoad (aFileName : list byte)
| call_ctmLoadCustom (aReadFn : CTMreadfn) (aUserData : userdata)
| call_ctmSave (aFileName : list byte)
| call_ctmSaveCustom (aWriteFn : CTMwritefn) (aUserData : userdata).

(** What a call returns to its caller. *)
Inductive result :=
| no_value
| uint_value (n : CTMuint)
| error_value (e : CTMerror)
| property_value (p : CTMproperty)
| floats_value (a : option (list CTMfloat))
| uints_value (a : option (list CTMuint))
| string_value (s : option (list byte)).

Definition with_value {A : Type} (f : A -> result) (r : reply A)
  : reply result :=
  Reply (f (value r)) (raised r) (after r).

Definition void (r : reply unit) : reply result :=
  with_value (fun _ => no_value) r.

Definition run (fuel : nat) (op : operation) (aContext : CTMcontext)
  (w : World) : outcome (reply result * World) :=
  match op with
  | call_ctmFreeContext =>
      r <- ctmFreeContext fuel aContext ;; Returns (void r, w)
  | call_ctmError => Returns (with_value error_value (ctmError aContext), w)
  | call_ctmGetInteger aProperty =>
      Returns (with_value uint_value (ctmGetInteger aContext aProperty), w)
  | call_ctmGetIntegerArray aProperty =>
      Returns
        (with_value uints_value (ctmGetIntegerArray aContext aProperty), w)
  | call_ctmGetFloatArray aProperty =>
      Returns
        (with_value floats_value (ctmGetFloatArray aContext aProperty), w)
  | call_ctmGetString aProperty =>
      Returns (with_value string_value (ctmGetString aContext aProperty), w)
  | call_ctmCompressionMethod aMethod =>
      Returns (void (ctmCompressionMethod aContext aMethod), w)
  | call_ctmVertexPrecision aPrecision =>
      Returns (void (ctmVertexPrecision aContext aPrecision), w)
  | call_ctmVertexPrecisionRel aRelPrecision =>
      r <- ctmVertexPrecisionRel aContext aRelPrecision ;;
      Returns (void r, w)
  | call_ctmTexCoordPrecision aTexMap aPrecision =>
      Returns (void (ctmTexCoordPrecision aContext aTexMap aPrecision), w)
  | call_ctmAttribPrecision aAttribMap aPrecision =>
      Returns (void (ctmAttribPrecision aContext aAttribMap aPrecision), w)
  | call_ctmFileComment aFileComment =>
      ' (r, w) <- ctmFileComment aContext aFileComment w ;;
      Returns (void r, w)
  | call_ctmDefineMesh aVertices aVertexCount aIndices aTriangleCount
      aNormals =>
      r <- ctmDefineMesh fuel aContext aVertices aVertexCount aIndices
             aTriangleCount aNormals ;;
      Returns (void r, w)
  | call_ctmAddTexMap aTexCoords aName =>
      Returns
        (with_value property_value (ctmAddTexMap aContext aTexCoords aName), w)
  | call_ctmAddAttribMap aAttribValues aName =>
      Returns
        (with_value property_value
           (ctmAddAttribMap aContext aAttribValues aName), w)
  | call_ctmLoad aFileName =>
      ' (r, w) <- ctmLoad fuel aContext aFileName w ;; Returns (void r, w)
  | call_ctmLoadCustom aReadFn aUserData =>
      ' (r, w) <- ctmLoadCustom fuel aContext aReadFn aUserData w ;;
      Returns (void r, w)
  | call_ctmSave aFileName =>
      ' (r, w) <- ctmSave aContext aFileName w ;; Returns (void r, w)
  | call_ctmSaveCustom aWriteFn aUserData =>
      ' (r, w) <- ctmSaveCustom aContext aWriteFn aUserData w ;;
      Returns (void r, w)
  end.

(** ** Vocabulary of the statements *)

(** [c'] is [c] with another value in [mError], at most. *)
Definition same_but_mError (c c' : _CTMcontext) : Prop :=
  mMode c' = mMode c /\ mVertices c' = mVertices c
  /\ mVertexCount c' = mVertexCount c /\ mIndices c' = mIndices c
  /\ mTriangleCount c' = mTriangleCount c /\ mNormals c' = mNormals c
  /\ mTexMapCount c' = mTexMapCount c /\ mTexMaps c' = mTexMaps c
  /\ mAttribMapCount c' = mAttribMapCount c
  /\ mAttribMaps c' = mAttribMaps c /\ mMethod c' = mMethod c
  /\ mVertexPrecision c' = mVertexPrecision c
  /\ mFileComment c' = mFileComment c /\ mReadFn c' = mReadFn c
  /\ mWriteFn c' = mWriteFn c /\ mUserData c' = mUserData c.

(** The call on [self] left through a branch assigning [mError = e] and
    changed no other field. *)
Definition rejected {A : Type} (e : CTMerror) (self : _CTMcontext)
  (r : reply A) : Prop :=
  raised r = Raised e
  /\ exists c', after r = Some c' /\ mError c' = e /\ same_but_mError self c'.

(** What [_ctmClearMesh] leaves. *)
Definition cleared (self : _CTMcontext) : _CTMcontext :=
  set_mAttribMapCount 0 (set_mAttribMaps [] (set_mTexMapCount 0
    (set_mTexMaps [] (set_mNormals None (set_mTriangleCount 0
      (set_mIndices None (set_mVertexCount 0 (set_mVertices None self)))))))).

Definition no_maps (self : _CTMcontext) : Prop :=
  mTexMaps self = [] /\ mAttribMaps self = [].


(** A reply that records an error has it in the error register. *)
Definition coherent {A : Type} (r : reply A) : Prop :=
  forall e, raised r = Raised e ->
            exists c, after r = Some c /\ mError c = e.

(** The header of a file, field by field, for the mesh of a context. *)
Definition header_flags (self : _CTMcontext) : CTMuint :=
  if is_null (mNormals self) then 0 else 1.

Definition method_tag (m : CTMmethod) : list byte :=
  match m with
  | CTM_METHOD_RAW => tag_RAW
  | CTM_METHOD_MG1 => tag_MG1
  | CTM_METHOD_MG2 => tag_MG2
  | CTM_METHOD_OTHER => []
  end.

Definition comment_bytes (comment : option (list byte)) : list byte :=
  match comment with
  | None => bytes_of_uint 0
  | Some str => bytes_of_uint (N.of_nat (length str)) ++ str
  end.

Definition header (self : _CTMcontext) : list byte :=
  tag_OCTM ++ bytes_of_uint _CTM_FORMAT_VERSION ++ method_tag (mMethod self)
  ++ bytes_of_uint (mVertexCount self) ++ bytes_of_uint (mTriangleCount self)
  ++ bytes_of_uint (mTexMapCount self) ++ bytes_of_uint (mAttribMapCount self)
  ++ bytes_of_uint (header_flags self) ++ comment_bytes (mFileComment self).

(** The identifiers [base], ..., [base + count - 1] of a map list. *)
Definition in_window (base count : N) (p : CTMproperty) : Prop :=
  base <= p /\ p < base + count.

(** The identifiers [ctmGetFloatArray] has a case for. *)
Definition recognised (self : _CTMcontext) (p : CTMproperty) : Prop :=
  in_window CTM_TEX_MAP_1 (mTexMapCount self) p
  \/ in_window CTM_ATTRIB_MAP_1 (mAttribMapCount self) p
  \/ p = CTM_VERTICES \/ p = CTM_NORMALS.

(** Each count is the length of its list. *)
Definition holds_maps (self : _CTMcontext) : Prop :=
  length (mTexMaps self) = N.to_nat (mTexMapCount self)
  /\ length (mAttribMaps self) = N.to_nat (mAttribMapCount self).









(** The operations that hand the context to a codec. *)
Definition calls_codec (op : operation) : bool :=
  match op with
  | call_ctmLoad _ | call_ctmLoadCustom _ _
  | call_ctmSave _ | call_ctmSaveCustom _ _ => true
  | _ => false
  end.

(** The codecs leave the error register as they find it. *)
Definition codecs_keep_mError : Prop :=
  forall codec,
    In codec [_ctmCompressMesh_RAW; _ctmCompressMesh_MG1;
              _ctmCompressMesh_MG2; _ctmUncompressMesh_RAW;
              _ctmUncompressMesh_MG1; _ctmUncompressMesh_MG2] ->
    forall self w c w',
      codec self w = Returns (c, w') -> mError c = mError self.

(** [succeed fuel ops c w c' w']: the calls [ops], none of them [ctmError],
    made one after the other on the handle [c] in the world [w], return,
    none of them recording an error, and leave the handle [c'] and the world
    [w']. *)
Inductive succeed (fuel : nat)
  : list operation -> CTMcontext -> World -> CTMcontext -> World -> Prop :=
| succeed_nil (c : CTMcontext) (w : World) : succeed fuel [] c w c w
| succeed_cons (op : operation) (ops : list operation) (c c' : CTMcontext)
    (w w1 w' : World) (r : reply result) :
    op <> call_ctmError ->
    run fuel op c w = Returns (r, w1) -> raised r = Done ->
    succeed fuel ops (after r) w1 c' w' ->
    succeed fuel (op :: ops) c w c' w'.

(** The mesh as [ctmVertexPrecisionRel] reads it.  The triangle [i]: the
    vertices that its three indices name; and the triangles [i], [i + 1],
    ... *)
Definition triangle : Type := point * point * point.

Definition triangle_at (self : _CTMcontext) (i : CTMuint) : outcome triangle :=
  a <- index_at self (wrap32 (i * 3 + 0)) ;;
  b <- index_at self (wrap32 (i * 3 + 1)) ;;
  c <- index_at self (wrap32 (i * 3 + 2)) ;;
  pa <- vertex_at self (wrap32 (a * 3)) ;;
  pb <- vertex_at self (wrap32 (b * 3)) ;;
  pc <- vertex_at self (wrap32 (c * 3)) ;;
  Returns (pa, pb, pc).

Fixpoint triangles (self : _CTMcontext) (n : nat) (i : CTMuint)
  : outcome (list triangle) :=
  match n with
  | O => Returns []
  | S n' =>
      t <- triangle_at self i ;;
      ts <- triangles self n' (wrap32 (i + 1)) ;;
      Returns (t :: ts)
  end.

(** The lengths of the three boundary edges of a triangle, the edge from the
    last vertex to the first one included, which comes first. *)
Definition boundary_edges (t : triangle) : list double :=
  let '(pa, pb, pc) := t in
  [edge_length pc pa; edge_length pa pb; edge_length pb pc].

(** The edge lengths of all triangles, added one after the other to a
    [CTMfloat] that starts at [0.0]. *)
Definition sum_of_edges (ts : list triangle) : CTMfloat :=
  fold_left f_add_double (flat_map boundary_edges ts) f_zero.


(** ** Vocabulary of the further properties *)

(** The case labels of a [switch] are pairwise different: those of
    [ctmGetInteger], and those of [ctmGetFloatArray]. *)
Definition distinct_labels : Prop :=
  NoDup [CTM_VERTEX_COUNT; CTM_TRIANGLE_COUNT; CTM_TEX_MAP_COUNT;
         CTM_ATTRIB_MAP_COUNT; CTM_HAS_NORMALS]
  /\ CTM_VERTICES <> CTM_NORMALS.

(** What every operation that calls no codec keeps of a context: the mode,
    the bound callbacks, a method that is one of the three, and map lists
    that are the old ones or empty. *)
Definition kept (self c : _CTMcontext) : Prop :=
  mMode c = mMode self
  /\ mReadFn c = mReadFn self /\ mWriteFn c = mWriteFn self
  /\ mUserData c = mUserData self
  /\ (mTexMaps c = mTexMaps self \/ mTexMaps c = [])
  /\ (mAttribMaps c = mAttribMaps self \/ mAttribMaps c = [])
  /\ (mTexMapCount c = mTexMapCount self \/ mTexMapCount c = 0)
  /\ (mAttribMapCount c = mAttribMapCount self \/ mAttribMapCount c = 0)
  /\ (mMethod self <> CTM_METHOD_OTHER -> mMethod c <> CTM_METHOD_OTHER).

(** A context without maps, by its lists and by its counts, and with one of
    the three methods selected. *)
Definition mapless (self : _CTMcontext) : Prop :=
  no_maps self /\ mTexMapCount self = 0 /\ mAttribMapCount self = 0
  /\ mMethod self <> CTM_METHOD_OTHER.

(** [c] is [self] with another comment, at most. *)
Definition same_but_mFileComment (self c : _CTMcontext) : Prop :=
  mMode c = mMode self /\ mVertices c = mVertices self
  /\ mVertexCount c = mVertexCount self /\ mIndices c = mIndices self
  /\ mTriangleCount c = mTriangleCount self /\ mNormals c = mNormals self
  /\ mTexMapCount c = mTexMapCount self /\ mTexMaps c = mTexMaps self
  /\ mAttribMapCount c = mAttribMapCount self
  /\ mAttribMaps c = mAttribMaps self /\ mError c = mError self
  /\ mMethod c = mMethod self
  /\ mVertexPrecision c = mVertexPrecision self
  /\ mReadFn c = mReadFn self
  /\ mWriteFn c = mWriteFn self /\ mUserData c = mUserData self.

(** The [CTMuint] fields of a context hold 32-bit values, and the length of
    the comment is one. *)
Definition in_range (self : _CTMcontext) : Prop :=
  mVertexCount self < 2 ^ 32 /\ mTriangleCount self < 2 ^ 32
  /\ mTexMapCount self < 2 ^ 32 /\ mAttribMapCount self < 2 ^ 32
  /\ match mFileComment self with
     | Some str => N.of_nat (length str) < 2 ^ 32
     | None => True
     end.

(** The comment as it comes back from a file: the empty string is written
    as length 0, which is read as no comment. *)
Definition comment_read (comment : option (list byte)) : option (list byte) :=
  match comment with
  | Some [] => None
  | _ => comment
  end.

(** The operations that begin with a test of the mode. *)
Definition gated (op : operation) : bool :=
  match op with
  | call_ctmCompressionMethod _ | call_ctmVertexPrecision _
  | call_ctmVertexPrecisionRel _ | call_ctmTexCoordPrecision _ _
  | call_ctmAttribPrecision _ _ | call_ctmFileComment _
  | call_ctmDefineMesh _ _ _ _ _
  | call_ctmLoad _ | call_ctmLoadCustom _ _
  | call_ctmSave _ | call_ctmSaveCustom _ _ => true
  | _ => false
  end.

(** A sequence of calls on one handle. *)
Fixpoint run_all (fuel : nat) (ops : list operation) (aContext : CTMcontext)
  (w : World) : outcome (CTMcontext * World) :=
  match ops with
  | [] => Returns (aContext, w)
  | op :: rest =>
      ' (r, w) <- run fuel op aContext w ;;
      run_all fuel rest (after r) w
  end.

End Model.

Arguments Reply {F A} value raised after.
Arguments value {F A} r.
Arguments raised {F A} r.
Arguments after {F A} r.

(** ** An instance of the parameters *)

(** IEEE 754 arithmetic, round to nearest even: single precision for
    [CTMfloat], double precision for [double]. *)
Definition to_binary32 (x : spec_float) : spec_float :=
  match x with
  | S754_finite s m e => binary_normalize 24 128 (cond_Zopp s (Zpos m)) e s
  | _ => x
  end.

Definition binary32 : FloatOps :=
  {| CTMfloat := spec_float;
     double := spec_float;
     f_zero := S754_zero false;
     f_default_precision :=
       to_binary32
         (SFdiv 53 1024 (binary_normalize 53 1024 1 0 false)
            (binary_normalize 53 1024 1024 0 false));
     f_le_zero := fun x => SFleb x (S754_zero false);
     f_add := SFadd 24 128;
     f_sub := SFsub 24 128;
     f_mul := SFmul 24 128;
     f_div := SFdiv 24 128;
     f_sqrt := SFsqrt 53 1024;
     f_add_double := fun a d => to_binary32 (SFadd 53 1024 a d);
     f_of_uint := fun n => binary_normalize 24 128 (Z.of_N n) 0 false |}.

(** One assignment of the enumerators: the identifiers of the texture maps
    start at [0x0700], those of the attribute maps at [0x0800]. *)
Definition sample_enumerators : Enumerators :=
  {| CTM_NONE := 0x0000;
     CTM_VERTEX_COUNT := 0x0301;
     CTM_TRIANGLE_COUNT := 0x0302;
     CTM_TEX_MAP_COUNT := 0x0304;
     CTM_ATTRIB_MAP_COUNT := 0x0305;
     CTM_HAS_NORMALS := 0x0303;
     CTM_INDICES := 0x0601;
     CTM_VERTICES := 0x0602;
     CTM_NORMALS := 0x0603;
     CTM_FILE_COMMENT := 0x0501;
     CTM_TEX_MAP_1 := 0x0700;
     CTM_ATTRIB_MAP_1 := 0x0800;
     CTM_TRUE := 1;
     CTM_FALSE := 0;
     _CTM_FORMAT_VERSION := 1 |}.

(** Codecs that leave the context and the stream as they find them. *)
Definition idle_codecs {F : FloatOps} : Codecs :=
  {| _ctmCompressMesh_RAW := fun self w => Returns (self, w);
     _ctmCompressMesh_MG1 := fun self w => Returns (self, w);
     _ctmCompressMesh_MG2 := fun self w => Returns (self, w);
     _ctmUncompressMesh_RAW := fun self w => Returns (self, w);
     _ctmUncompressMesh_MG1 := fun self w => Returns (self, w);
     _ctmUncompressMesh_MG2 := fun self w => Returns (self, w) |}.

(** ** Sample data *)

Definition sample_world : World :=
  {| w_malloc := []; w_source := []; w_sink := [];
     w_fopen_rb := fun _ => None; w_fopen_wb := fun _ => false |}.

(** A context as [ctmNewContext] makes it. *)
Definition new_context {F : FloatOps} (aMode : CTMcontextmode) : _CTMcontext :=
  {| mMode := aMode; mVertices := None; mVertexCount := 0;
     mIndices := None; mTriangleCount := 0; mNormals := None;
     mTexMapCount := 0; mTexMaps := []; mAttribMapCount := 0;
     mAttribMaps := []; mError := CTM_NO_ERROR; mMethod := CTM_METHOD_MG1;
     mVertexPrecision := f_default_precision; mFileComment := None;
     mReadFn := None; mWriteFn := None; mUserData := null_userdata |}.

(** An Export-mode context with one triangle defined and a comment set. *)
Definition triangle_context : @_CTMcontext binary32 :=
  {| mMode := CTM_EXPORT;
     mVertices :=
       Some (map (@f_of_uint binary32) [1; 0; 0; 0; 1; 0; 0; 0; 1]);
     mVertexCount := 3; mIndices := Some [0; 1; 2]; mTriangleCount := 1;
     mNormals := None; mTexMapCount := 0; mTexMaps := [];
     mAttribMapCount := 0; mAttribMaps := []; mError := CTM_NO_ERROR;
     mMethod := CTM_METHOD_MG1;
     mVertexPrecision := @f_default_precision binary32;
     mFileComment := Some ["o"; "l"; "d"]%byte; mReadFn := None;
     mWriteFn := None; mUserData := null_userdata |}.

(** The same mesh in an Import-mode context, as after a load. *)
Definition loaded_context : @_CTMcontext binary32 :=
  {| mMode := CTM_IMPORT;
     mVertices := mVertices triangle_context;
     mVertexCount := 3; mIndices := Some [0; 1; 2]; mTriangleCount := 1;
     mNormals := None; mTexMapCount := 0; mTexMaps := [];
     mAttribMapCount := 0; mAttribMaps := []; mError := CTM_NO_ERROR;
     mMethod := CTM_METHOD_MG1;
     mVertexPrecision := @f_default_precision binary32;
     mFileComment := None; mReadFn := None; mWriteFn := None;
     mUserData := null_userdata |}.

Definition sample_map : @_CTMfloatmap binary32 :=
  {| mName := None; mValues := Some [@f_zero binary32] |}.

Definition other_map : @_CTMfloatmap binary32 :=
  {| mName := None; mValues := Some [@f_default_precision binary32] |}.

(** An Import-mode context that holds one texture map. *)
Definition mapped_context : @_CTMcontext binary32 :=
  set_mTexMaps [sample_map] (set_mTexMapCount 1 (new_context CTM_IMPORT)).

(** A context with two texture maps and one attribute map. *)
Definition three_maps_context : @_CTMcontext binary32 :=
  set_mAttribMaps [other_map]
    (set_mAttribMapCount 1
       (set_mTexMaps [sample_map; other_map]
          (set_mTexMapCount 2 (new_context CTM_IMPORT)))).

(** A context with 256 texture maps and one attribute map. *)
Definition crowded_context : @_CTMcontext binary32 :=
  set_mAttribMaps [other_map]
    (set_mAttribMapCount 1
       (set_mTexMaps (repeat sample_map 256)
          (set_mTexMapCount 256 (new_context CTM_IMPORT)))).

(** An allocator that refuses the next block. *)
Definition starved_world : World := set_w_malloc [false] sample_world.

(** A source whose first four bytes are not the magic token. *)
Definition garbled_world : World :=
  set_w_source ["X"; "C"; "T"; "M"; x01; x00; x00; x00]%byte sample_world.

(** The sample triangle with a third index that names no vertex. *)
Definition wild_context : @_CTMcontext binary32 :=
  set_mIndices (Some [0; 1; 7]) triangle_context.

(** An Export-mode context that holds one texture map. *)
Definition export_mapped_context : @_CTMcontext binary32 :=
  set_mTexMaps [sample_map] (set_mTexMapCount 1 (new_context CTM_EXPORT)).

(** A context with a texture map count of two and no map. *)
Definition counted_context : @_CTMcontext binary32 :=
  set_mTexMapCount 2 (new_context CTM_IMPORT).

(** A world where every file can be opened for writing, with bytes left in
    the sink. *)
Definition open_world : World :=
  {| w_malloc := []; w_source := []; w_sink := ["o"; "l"; "d"]%byte;
     w_fopen_rb := fun _ => None; w_fopen_wb := fun _ => true |}.

(** A stream that holds the header of the sample triangle and one byte
    more. *)
Definition saved_world : World :=
  set_w_source
    (@header binary32 sample_enumerators triangle_context ++ ["*"]%byte)
    sample_world.

(** A triangle with the vertices (9, 0, 0), (0, 9, 0) and (0, 0, 9): its three
    sides have the same length, the square root of 162. *)
Definition equilateral_context : @_CTMcontext binary32 :=
  set_mVertices (Some (map (@f_of_uint binary32) [9; 0; 0; 0; 9; 0; 0; 0; 9]))
    triangle_context.

(** * Properties *)

Section Properties.

Context {F : FloatOps} {E : Enumerators} {C : Codecs}.

(** ** Basic facts *)

Lemma CTMcontextmode_eqb_eq (a b : CTMcontextmode) :
  CTMcontextmode_eqb a b = true <-> a = b.
Proof. destruct a, b; simpl; split; congruence. Qed.

Lemma same_but_mError_set (e : CTMerror) (self : _CTMcontext) :
  same_but_mError self (set_mError e self).
Proof. unfold same_but_mError; simpl; repeat split. Qed.

Lemma raise_rejected {A : Type} (v : A) (e : CTMerror) (self : _CTMcontext) :
  rejected e self (raise v e self).
Proof.
  split; [reflexivity|].
  exists (set_mError e self); repeat split.
Qed.

Create HintDb ctm.
#[local] Hint Resolve raise_rejected same_but_mError_set : ctm.

(** The release loop returns on the empty list only. *)
Lemma _ctmFreeMapList_nil (fuel : nat) (self : _CTMcontext) :
  _ctmFreeMapList fuel self [] = Returns tt.
Proof. destruct fuel; reflexivity. Qed.

Lemma _ctmFreeMapList_cons (fuel : nat) (self : _CTMcontext)
  (m : _CTMfloatmap) (l : list _CTMfloatmap) :
  _ctmFreeMapList fuel self (m :: l) = OutOfFuel.
Proof. induction fuel as [|fuel IH]; simpl; [reflexivity|exact IH]. Qed.

Lemma _ctmClearMesh_no_maps (fuel : nat) (self : _CTMcontext) :
  no_maps self -> _ctmClearMesh fuel self = Returns (cleared self).
Proof.
  intros [Ht Ha]. unfold _ctmClearMesh. simpl.
  rewrite Ht, Ha, !_ctmFreeMapList_nil. reflexivity.
Qed.

Lemma _ctmClearMesh_maps (fuel : nat) (self : _CTMcontext) :
  ~ no_maps self -> _ctmClearMesh fuel self = OutOfFuel.
Proof.
  intros Hn. unfold _ctmClearMesh. simpl.
  destruct (mTexMaps self) as [|m l] eqn:Ht.
  - destruct (mAttribMaps self) as [|m l] eqn:Ha.
    + exfalso. apply Hn. split; assumption.
    + rewrite _ctmFreeMapList_nil. simpl.
      rewrite _ctmFreeMapList_cons. reflexivity.
  - rewrite _ctmFreeMapList_cons. reflexivity.
Qed.

Lemma _ctmClearMesh_Returns (fuel : nat) (self c : _CTMcontext) :
  _ctmClearMesh fuel self = Returns c -> no_maps self /\ c = cleared self.
Proof.
  intros H.
  destruct (mTexMaps self) as [|m l] eqn:Ht;
    [destruct (mAttribMaps self) as [|m l] eqn:Ha|].
  - assert (Hn : no_maps self) by (split; assumption).
    rewrite (_ctmClearMesh_no_maps fuel self Hn) in H.
    split; congruence.
  - rewrite _ctmClearMesh_maps in H; [discriminate|].
    intros [_ Ha']; congruence.
  - rewrite _ctmClearMesh_maps in H; [discriminate|].
    intros [Ht' _]; congruence.
Qed.

(** ** The mode gate *)

(** C1.  On an Import-mode context each of the Export-only operations
    ([ctmCompressionMethod], [ctmVertexPrecision], [ctmVertexPrecisionRel],
    [ctmFileComment], [ctmDefineMesh], [ctmSaveCustom]), whatever its
    arguments, sets the error register to [CTM_INVALID_OPERATION] and changes
    no other field of the context (nor anything around it); on an
    Export-mode context [ctmLoadCustom] does the same. *)
Theorem mode_gating (self self' : _CTMcontext) (w : World)
  (Himport : mMode self = CTM_IMPORT) (Hexport : mMode self' = CTM_EXPORT) :
  (forall aMethod,
      rejected CTM_INVALID_OPERATION self
        (ctmCompressionMethod (Some self) aMethod))
  /\ (forall aPrecision,
         rejected CTM_INVALID_OPERATION self
           (ctmVertexPrecision (Some self) aPrecision))
  /\ (forall aRelPrecision,
         exists r, ctmVertexPrecisionRel (Some self) aRelPrecision = Returns r
                   /\ rejected CTM_INVALID_OPERATION self r)
  /\ (forall aFileComment,
         exists r, ctmFileComment (Some self) aFileComment w = Returns (r, w)
                   /\ rejected CTM_INVALID_OPERATION self r)
  /\ (forall fuel aVertices aVertexCount aIndices aTriangleCount aNormals,
         exists r, ctmDefineMesh fuel (Some self) aVertices aVertexCount
                     aIndices aTriangleCount aNormals = Returns r
                   /\ rejected CTM_INVALID_OPERATION self r)
  /\ (forall aWriteFn aUserData,
         exists r, ctmSaveCustom (Some self) aWriteFn aUserData w
                   = Returns (r, w)
                   /\ rejected CTM_INVALID_OPERATION self r)
  /\ (forall fuel aReadFn aUserData,
         exists r, ctmLoadCustom fuel (Some self') aReadFn aUserData w
                   = Returns (r, w)
                   /\ rejected CTM_INVALID_OPERATION self' r).
Proof.
  repeat apply conj.
  - intros. unfold ctmCompressionMethod. rewrite Himport. simpl. auto with ctm.
  - intros. unfold ctmVertexPrecision. rewrite Himport. simpl. auto with ctm.
  - intros. unfold ctmVertexPrecisionRel. rewrite Himport. simpl. eauto with ctm.
  - intros. unfold ctmFileComment. rewrite Himport. simpl. eauto with ctm.
  - intros. unfold ctmDefineMesh. rewrite Himport. simpl. eauto with ctm.
  - intros. unfold ctmSaveCustom. rewrite Himport. simpl. eauto with ctm.
  - intros. unfold ctmLoadCustom. rewrite Hexport. simpl. eauto with ctm.
Qed.

(** ** The error register *)

Lemma coherent_quiet {A : Type} (v : A) (c : CTMcontext) :
  coherent (quiet v c).
Proof. intros e H. discriminate H. Qed.

Lemma coherent_raise {A : Type} (v : A) (e : CTMerror) (self : _CTMcontext) :
  coherent (raise v e self).
Proof.
  intros e' H. injection H as <-. exists (set_mError e self). split; reflexivity.
Qed.

Lemma coherent_with_value {A : Type} (f : A -> result) (r : reply A) :
  coherent r -> coherent (with_value f r).
Proof. intros H e He. exact (H e He). Qed.

Lemma coherent_void (r : reply unit) : coherent r -> coherent (void r).
Proof. apply coherent_with_value. Qed.

(** Case analysis along the control flow of a model function. *)
Ltac branch :=
  match goal with
  | |- context [match ?x with _ => _ end] => destruct x eqn:?
  | H : context [match ?x with _ => _ end] |- _ => destruct x eqn:?
  end.

Ltac returned :=
  match goal with
  | H : Returns _ = Returns _ |- _ => injection H as H; subst
  | H : (_, _) = (_, _) |- _ => injection H as H; subst
  | H : Undefined = Returns _ |- _ => discriminate H
  | H : OutOfFuel = Returns _ |- _ => discriminate H
  end.

Ltac crunch := repeat (simpl in *; unfold bind in *; try returned; try branch).

Lemma ctmVertexPrecisionRel_coherent (c : CTMcontext) (a : CTMfloat)
  (r : reply unit) :
  ctmVertexPrecisionRel c a = Returns r -> coherent r.
Proof.
  unfold ctmVertexPrecisionRel. intros H.
  destruct c as [self|]; [|crunch; auto using coherent_quiet, coherent_raise, coherent_void,
      coherent_with_value].
  destruct (negb _); [crunch; auto using coherent_quiet, coherent_raise, coherent_void,
      coherent_with_value|].
  destruct (f_le_zero a); [crunch; auto using coherent_quiet, coherent_raise, coherent_void,
      coherent_with_value|].
  destruct (triangle_loop _ _ _ _) as [[avg n]| |]; crunch; auto using coherent_quiet, coherent_raise, coherent_void,
      coherent_with_value.
Qed.

Lemma ctmFileComment_coherent (c : CTMcontext) (s : option (list byte))
  (w w' : World) (r : reply unit) :
  ctmFileComment c s w = Returns (r, w') -> coherent r.
Proof.
  unfold ctmFileComment, malloc. intros H. crunch; auto using coherent_quiet, coherent_raise, coherent_void,
      coherent_with_value.
Qed.

Lemma ctmDefineMesh_coherent (fuel : nat) (c : CTMcontext)
  (v : option (list CTMfloat)) (vc : CTMuint) (i : option (list CTMuint))
  (tc : CTMuint) (n : option (list CTMfloat)) (r : reply unit) :
  ctmDefineMesh fuel c v vc i tc n = Returns r -> coherent r.
Proof.
  unfold ctmDefineMesh. intros H.
  destruct c as [self|]; [|crunch; auto using coherent_quiet, coherent_raise, coherent_void,
      coherent_with_value].
  destruct (negb _); [crunch; auto using coherent_quiet, coherent_raise, coherent_void,
      coherent_with_value|].
  destruct (_ || _); [crunch; auto using coherent_quiet, coherent_raise, coherent_void,
      coherent_with_value|].
  destruct (_ctmClearMesh fuel self); crunch; auto using coherent_quiet, coherent_raise, coherent_void,
      coherent_with_value.
Qed.

Lemma load_arrays_coherent (fuel : nat) (self : _CTMcontext) (flags : CTMuint)
  (w w' : World) (r : reply unit) :
  load_arrays fuel self flags w = Returns (r, w') -> coherent r.
Proof.
  unfold load_arrays, uncompress, malloc. intros H.
  crunch; auto using coherent_quiet, coherent_raise, coherent_void,
      coherent_with_value.
Qed.

Lemma ctmLoadCustom_coherent (fuel : nat) (c : CTMcontext) (rf : CTMreadfn)
  (ud : userdata) (w w' : World) (r : reply unit) :
  ctmLoadCustom fuel c rf ud w = Returns (r, w') -> coherent r.
Proof.
  unfold ctmLoadCustom. intros H.
  destruct c as [self|]; [|crunch; auto using coherent_quiet, coherent_raise, coherent_void,
      coherent_with_value].
  destruct (negb _); [crunch; auto using coherent_quiet, coherent_raise, coherent_void,
      coherent_with_value|].
  destruct (_ctmClearMesh _ _) as [c1| |]; [|discriminate H..].
  unfold bind in H.
  repeat (match type of H with
          | context [_ctmStreamReadUINT ?a ?b] =>
              destruct (_ctmStreamReadUINT a b) as [[? ?]| |];
              [|discriminate H..]
          | context [_ctmStreamReadSTRING ?a ?b] =>
              destruct (_ctmStreamReadSTRING a b) as [[? ?]| |];
              [|discriminate H..]
          | context [if ?x then _ else _] =>
              destruct x; [returned; auto using coherent_quiet, coherent_raise, coherent_void,
      coherent_with_value|]
          | context [method_of_tag ?x] =>
              destruct (method_of_tag x); [|returned; auto using coherent_quiet, coherent_raise, coherent_void,
      coherent_with_value]
          end).
  eapply load_arrays_coherent; eassumption.
Qed.

Lemma ctmLoad_coherent (fuel : nat) (c : CTMcontext) (name : list byte)
  (w w' : World) (r : reply unit) :
  ctmLoad fuel c name w = Returns (r, w') -> coherent r.
Proof.
  unfold ctmLoad. intros H.
  destruct c as [self|]; [|crunch; auto using coherent_quiet, coherent_raise, coherent_void,
      coherent_with_value].
  destruct (negb _); [crunch; auto using coherent_quiet, coherent_raise, coherent_void,
      coherent_with_value|].
  destruct (w_fopen_rb w name); [|crunch; auto using coherent_quiet, coherent_raise, coherent_void,
      coherent_with_value].
  eapply ctmLoadCustom_coherent; eassumption.
Qed.

Lemma ctmSaveCustom_coherent (c : CTMcontext) (wf : CTMwritefn)
  (ud : userdata) (w w' : World) (r : reply unit) :
  ctmSaveCustom c wf ud w = Returns (r, w') -> coherent r.
Proof.
  unfold ctmSaveCustom. intros H.
  destruct c as [self|]; [|crunch; auto using coherent_quiet, coherent_raise, coherent_void,
      coherent_with_value].
  destruct (negb _); [crunch; auto using coherent_quiet, coherent_raise, coherent_void,
      coherent_with_value|].
  destruct (_ || _); [crunch; auto using coherent_quiet, coherent_raise, coherent_void,
      coherent_with_value|].
  unfold bind in H.
  repeat (match type of H with
          | context [match ?x with _ => _ end] =>
              destruct x as [?| |]; [|discriminate H..]
          end).
  crunch; auto using coherent_quiet, coherent_raise, coherent_void,
      coherent_with_value.
Qed.

Lemma ctmSave_coherent (c : CTMcontext) (name : list byte)
  (w w' : World) (r : reply unit) :
  ctmSave c name w = Returns (r, w') -> coherent r.
Proof.
  unfold ctmSave. intros H.
  destruct c as [self|]; [|crunch; auto using coherent_quiet, coherent_raise, coherent_void,
      coherent_with_value].
  destruct (negb _); [crunch; auto using coherent_quiet, coherent_raise, coherent_void,
      coherent_with_value|].
  destruct (w_fopen_wb w name); [|crunch; auto using coherent_quiet, coherent_raise, coherent_void,
      coherent_with_value].
  eapply ctmSaveCustom_coherent; eassumption.
Qed.

(** Every operation that leaves through an error branch has assigned the
    error to the register on the way out. *)
Lemma run_coherent (fuel : nat) (op : operation) (c : CTMcontext)
  (w w' : World) (r : reply result) :
  run fuel op c w = Returns (r, w') -> coherent r.
Proof.
  destruct op; simpl; intros H.
  - unfold ctmFreeContext in H. crunch; auto using coherent_quiet, coherent_raise, coherent_void,
      coherent_with_value.
  - returned. unfold ctmError. crunch; auto using coherent_quiet, coherent_raise, coherent_void,
      coherent_with_value.
  - returned. unfold ctmGetInteger. crunch; auto using coherent_quiet, coherent_raise, coherent_void,
      coherent_with_value.
  - returned. unfold ctmGetIntegerArray. crunch; auto using coherent_quiet, coherent_raise, coherent_void,
      coherent_with_value.
  - returned. unfold ctmGetFloatArray. crunch; auto using coherent_quiet, coherent_raise, coherent_void,
      coherent_with_value.
  - returned. unfold ctmGetString. crunch; auto using coherent_quiet, coherent_raise, coherent_void,
      coherent_with_value.
  - returned. unfold ctmCompressionMethod. crunch; auto using coherent_quiet, coherent_raise, coherent_void,
      coherent_with_value.
  - returned. unfold ctmVertexPrecision. crunch; auto using coherent_quiet, coherent_raise, coherent_void,
      coherent_with_value.
  - destruct (ctmVertexPrecisionRel c aRelPrecision) eqn:Hc; crunch.
    apply coherent_void. eapply ctmVertexPrecisionRel_coherent; eauto.
  - returned. unfold ctmTexCoordPrecision. crunch; auto using coherent_quiet, coherent_raise, coherent_void,
      coherent_with_value.
  - returned. unfold ctmAttribPrecision. crunch; auto using coherent_quiet, coherent_raise, coherent_void,
      coherent_with_value.
  - destruct (ctmFileComment _ _ _) as [[r0 w0]| |] eqn:Hc; crunch.
    apply coherent_void. eapply ctmFileComment_coherent; eauto.
  - destruct (ctmDefineMesh _ _ _ _ _ _ _) eqn:Hc; crunch.
    apply coherent_void. eapply ctmDefineMesh_coherent; eauto.
  - returned. unfold ctmAddTexMap. auto using coherent_quiet, coherent_raise, coherent_void,
      coherent_with_value.
  - returned. unfold ctmAddAttribMap. auto using coherent_quiet, coherent_raise, coherent_void,
      coherent_with_value.
  - destruct (ctmLoad _ _ _ _) as [[r0 w0]| |] eqn:Hc; crunch.
    apply coherent_void. eapply ctmLoad_coherent; eauto.
  - destruct (ctmLoadCustom _ _ _ _ _) as [[r0 w0]| |] eqn:Hc; crunch.
    apply coherent_void. eapply ctmLoadCustom_coherent; eauto.
  - destruct (ctmSave _ _ _) as [[r0 w0]| |] eqn:Hc; crunch.
    apply coherent_void. eapply ctmSave_coherent; eauto.
  - destruct (ctmSaveCustom _ _ _ _) as [[r0 w0]| |] eqn:Hc; crunch.
    apply coherent_void. eapply ctmSaveCustom_coherent; eauto.
Qed.

(** Reading the register returns its content and resets it. *)
Lemma ctmError_reads_and_resets (c : _CTMcontext) :
  value (ctmError (Some c)) = mError c
  /\ after (ctmError (Some c)) = Some (set_mError CTM_NO_ERROR c)
  /\ value (ctmError (after (ctmError (Some c)))) = CTM_NO_ERROR.
Proof. repeat split. Qed.

(** The register is touched by the branches that record an error and by
    [ctmError], and by nothing else. *)
Lemma load_arrays_sticky (fuel : nat) (self c : _CTMcontext)
  (flags : CTMuint) (w w' : World) (r : reply unit) :
  codecs_keep_mError ->
  load_arrays fuel self flags w = Returns (r, w') ->
  raised r = Done -> after r = Some c -> mError c = mError self.
Proof.
  intros Hcodec H Hdone Hafter.
  unfold load_arrays, uncompress, malloc in H.
  crunch; try discriminate Hdone; injection Hafter as <-;
    try reflexivity;
    match goal with
    | Hc : _ = Returns (_, _) |- _ =>
        apply Hcodec in Hc; [rewrite Hc; reflexivity|simpl; tauto]
    end.
Qed.

Lemma ctmLoadCustom_sticky (fuel : nat) (self c : _CTMcontext)
  (rf : CTMreadfn) (ud : userdata) (w w' : World) (r : reply unit) :
  codecs_keep_mError ->
  ctmLoadCustom fuel (Some self) rf ud w = Returns (r, w') ->
  raised r = Done -> after r = Some c -> mError c = mError self.
Proof.
  intros Hcodec H Hdone Hafter. unfold ctmLoadCustom in H.
  destruct (negb _); [injection H as <- <-; discriminate Hdone|].
  destruct (_ctmClearMesh _ _) as [c1| |] eqn:Hclear; [|discriminate H..].
  apply _ctmClearMesh_Returns in Hclear. destruct Hclear as [_ Hc1].
  assert (He1 : mError c1 = mError self) by (rewrite Hc1; reflexivity).
  clear Hc1. unfold bind in H.
  repeat (match type of H with
          | context [_ctmStreamReadUINT ?a ?b] =>
              destruct (_ctmStreamReadUINT a b) as [[? ?]| |];
              [|discriminate H..]
          | context [_ctmStreamReadSTRING ?a ?b] =>
              destruct (_ctmStreamReadSTRING a b) as [[? ?]| |];
              [|discriminate H..]
          | context [if ?x then _ else _] =>
              destruct x; [injection H as <- <-; discriminate Hdone|]
          | context [method_of_tag ?x] =>
              destruct (method_of_tag x);
              [|injection H as <- <-; discriminate Hdone]
          end).
  rewrite (load_arrays_sticky _ _ _ _ _ _ _ Hcodec H Hdone Hafter).
  exact He1.
Qed.

Lemma ctmSaveCustom_sticky (self c : _CTMcontext) (wf : CTMwritefn)
  (ud : userdata) (w w' : World) (r : reply unit) :
  codecs_keep_mError ->
  ctmSaveCustom (Some self) wf ud w = Returns (r, w') ->
  raised r = Done -> after r = Some c -> mError c = mError self.
Proof.
  intros Hcodec H Hdone Hafter. unfold ctmSaveCustom in H.
  destruct (negb _); [injection H as <- <-; discriminate Hdone|].
  destruct (_ || _); [injection H as <- <-; discriminate Hdone|].
  unfold bind in H.
  repeat (match type of H with
          | context [match ?x with _ => _ end] =>
              lazymatch x with
              | compress _ _ => fail
              | _ => destruct x as [?| |]; [|discriminate H..]
              end
          end).
  destruct (compress _ _) as [[cb wb]| |] eqn:Hc; try discriminate H.
  injection H as <- <-. injection Hafter as <-.
  unfold compress in Hc. simpl mMethod in Hc.
  destruct (mMethod self);
    try (apply Hcodec in Hc; [exact Hc|simpl; tauto]).
  injection Hc as <- <-. reflexivity.
Qed.

Lemma run_sticky (fuel : nat) (op : operation) (self c : _CTMcontext)
  (w w' : World) (r : reply result) :
  codecs_keep_mError \/ calls_codec op = false ->
  op <> call_ctmError ->
  run fuel op (Some self) w = Returns (r, w') ->
  raised r = Done -> after r = Some c -> mError c = mError self.
Proof.
  intros Hcodec Hop Hrun Hdone Hafter.
  destruct op; unfold run in Hrun; try congruence.
  - unfold ctmFreeContext, bind in Hrun.
    destruct (_ctmClearMesh fuel self); try discriminate Hrun.
    injection Hrun as <- <-. discriminate Hafter.
  - injection Hrun as <- <-. unfold ctmGetInteger in *.
    repeat (match type of Hafter with
            | context [if ?x then _ else _] => destruct x
            end; [injection Hafter as <-; reflexivity|]).
    discriminate Hdone.
  - injection Hrun as <- <-. unfold ctmGetIntegerArray in *.
    destruct (_ =? _); [injection Hafter as <-; reflexivity|].
    discriminate Hdone.
  - injection Hrun as <- <-. unfold ctmGetFloatArray in *.
    destruct (_ && _).
    { destruct (walk_maps _ _ _); [discriminate Hdone|].
      injection Hafter as <-; reflexivity. }
    destruct (_ && _).
    { destruct (walk_maps _ _ _); [discriminate Hdone|].
      injection Hafter as <-; reflexivity. }
    destruct (_ =? _); [injection Hafter as <-; reflexivity|].
    destruct (_ =? _); [injection Hafter as <-; reflexivity|].
    discriminate Hdone.
  - injection Hrun as <- <-. unfold ctmGetString in *.
    destruct (_ =? _); [injection Hafter as <-; reflexivity|].
    discriminate Hdone.
  - injection Hrun as <- <-. unfold ctmCompressionMethod in *.
    destruct (negb _); [discriminate Hdone|].
    destruct (_ && _); [discriminate Hdone|].
    injection Hafter as <-; reflexivity.
  - injection Hrun as <- <-. unfold ctmVertexPrecision in *.
    destruct (negb _); [discriminate Hdone|].
    destruct (f_le_zero _); [discriminate Hdone|].
    injection Hafter as <-; reflexivity.
  - destruct (ctmVertexPrecisionRel _ _) as [r0| |] eqn:Hr;
      try discriminate Hrun.
    unfold bind in Hrun. injection Hrun as <- <-.
    unfold ctmVertexPrecisionRel in Hr.
    destruct (negb _); [injection Hr as <-; discriminate Hdone|].
    destruct (f_le_zero _); [injection Hr as <-; discriminate Hdone|].
    destruct (triangle_loop _ _ _ _) as [[avg n]| |]; try discriminate Hr.
    cbn [bind] in Hr.
    destruct (n =? 0); injection Hr as <-; [discriminate Hdone|].
    injection Hafter as <-. reflexivity.
  - injection Hrun as <- <-. unfold ctmTexCoordPrecision in *.
    destruct (negb _); [discriminate Hdone|].
    destruct (_ || _); [discriminate Hdone|].
    injection Hafter as <-; reflexivity.
  - injection Hrun as <- <-. unfold ctmAttribPrecision in *.
    destruct (negb _); [discriminate Hdone|].
    destruct (_ || _); [discriminate Hdone|].
    injection Hafter as <-; reflexivity.
  - unfold ctmFileComment, malloc in Hrun.
    destruct (negb _); [injection Hrun as <- <-; discriminate Hdone|].
    assert (H0 : mError (if is_null (mFileComment self) then self
                         else set_mFileComment None self) = mError self)
      by (destruct (is_null _); reflexivity).
    revert H0 Hrun.
    generalize (if is_null (mFileComment self) then self
                else set_mFileComment None self).
    intros c0 H0 Hrun.
    destruct aFileComment as [obj|].
    2:{ injection Hrun as <- <-. injection Hafter as <-. exact H0. }
    destruct (negb (terminated obj)); [discriminate Hrun|].
    destruct (_ =? 0)%Z.
    { injection Hrun as <- <-. injection Hafter as <-. exact H0. }
    destruct (_ =? INT_MAX)%Z; [discriminate Hrun|].
    destruct (w_malloc w) as [|[|] rest];
      try (destruct (holds_string _ _); [|discriminate Hrun]);
      injection Hrun as <- <-; try discriminate Hdone;
      injection Hafter as <-; exact H0.
  - destruct (ctmDefineMesh _ _ _ _ _ _ _) as [r0| |] eqn:Hr;
      try discriminate Hrun.
    unfold bind in Hrun. injection Hrun as <- <-.
    unfold ctmDefineMesh in Hr.
    destruct (negb _); [injection Hr as <-; discriminate Hdone|].
    destruct (_ || _); [injection Hr as <-; discriminate Hdone|].
    destruct (_ctmClearMesh fuel self) as [c1| |] eqn:Hclear;
      try discriminate Hr.
    apply _ctmClearMesh_Returns in Hclear. destruct Hclear as [_ ->].
    unfold bind in Hr. injection Hr as <-. injection Hafter as <-.
    reflexivity.
  - injection Hrun as <- <-. injection Hafter as <-. reflexivity.
  - injection Hrun as <- <-. injection Hafter as <-. reflexivity.
  - destruct Hcodec as [Hcodec|Hno]; [|discriminate Hno].
    destruct (ctmLoad _ _ _ _) as [[r0 w0]| |] eqn:Hr;
      try discriminate Hrun.
    unfold bind in Hrun. injection Hrun as <- <-. unfold ctmLoad in Hr.
    destruct (negb _); [injection Hr as <- <-; discriminate Hdone|].
    destruct (w_fopen_rb w aFileName);
      [|injection Hr as <- <-; discriminate Hdone].
    eapply ctmLoadCustom_sticky; eassumption.
  - destruct Hcodec as [Hcodec|Hno]; [|discriminate Hno].
    destruct (ctmLoadCustom _ _ _ _ _) as [[r0 w0]| |] eqn:Hr;
      try discriminate Hrun.
    unfold bind in Hrun. injection Hrun as <- <-.
    eapply ctmLoadCustom_sticky; eassumption.
  - destruct Hcodec as [Hcodec|Hno]; [|discriminate Hno].
    destruct (ctmSave _ _ _) as [[r0 w0]| |] eqn:Hr;
      try discriminate Hrun.
    unfold bind in Hrun. injection Hrun as <- <-. unfold ctmSave in Hr.
    destruct (negb _); [injection Hr as <- <-; discriminate Hdone|].
    destruct (w_fopen_wb w aFileName);
      [|injection Hr as <- <-; discriminate Hdone].
    eapply ctmSaveCustom_sticky; eassumption.
  - destruct Hcodec as [Hcodec|Hno]; [|discriminate Hno].
    destruct (ctmSaveCustom _ _ _ _) as [[r0 w0]| |] eqn:Hr;
      try discriminate Hrun.
    unfold bind in Hrun. injection Hrun as <- <-.
    eapply ctmSaveCustom_sticky; eassumption.
Qed.

(** A call on the null handle leaves the handle null. *)
Lemma run_on_null (fuel : nat) (op : operation) (w w' : World)
  (r : reply result) :
  run fuel op None w = Returns (r, w') -> after r = None.
Proof.
  destruct op; simpl; intros H; injection H as <- <-; reflexivity.
Qed.

Lemma succeed_sticky (fuel : nat) (ops : list operation)
  (c c' : CTMcontext) (w w' : World) :
  succeed fuel ops c w c' w' ->
  codecs_keep_mError
  \/ forallb (fun op => negb (calls_codec op)) ops = true ->
  forall self' , c' = Some self' ->
  exists self, c = Some self /\ mError self' = mError self.
Proof.
  induction 1 as [c w|op ops c c' w w1 w' r Hop Hrun Hdone Hrest IH];
    intros Hcodec self' Hc'.
  - exists self'. split; [exact Hc'|reflexivity].
  - assert (Hrest' : codecs_keep_mError
                     \/ forallb (fun op => negb (calls_codec op)) ops = true).
    { destruct Hcodec as [H|H]; [left; exact H|right].
      simpl in H. apply andb_prop in H. tauto. }
    assert (Hthis : codecs_keep_mError \/ calls_codec op = false).
    { destruct Hcodec as [H|H]; [left; exact H|right].
      simpl in H. apply andb_prop in H. destruct H as [H _].
      apply negb_true_iff in H. exact H. }
    destruct (IH Hrest' self' Hc') as (c1 & Hc1 & He).
    destruct c as [self|].
    + exists self. split; [reflexivity|]. rewrite He.
      eapply run_sticky; eassumption.
    + apply run_on_null in Hrun. congruence.
Qed.

(** C2.  After an operation on a non-null context has failed with error
    [e], the first [ctmError] returns [e] and resets the register, and a
    second [ctmError] right after it returns [CTM_NO_ERROR].  The register has
    one slot: when a further operation fails with [e2] before the register is
    read, the first [ctmError] returns [e2], and the one after it
    [CTM_NO_ERROR].  The register is sticky: whatever calls other than
    [ctmError] come between the failure and the first [ctmError], as long as
    none of them records an error (and the codecs they run, if any, leave
    the register alone), that first [ctmError] still returns [e], and the
    one after it [CTM_NO_ERROR]. *)
Theorem error_register (fuel : nat) (op : operation) (self : _CTMcontext)
  (w w' : World) (r : reply result) (e : CTMerror)
  (Hrun : run fuel op (Some self) w = Returns (r, w'))
  (Hfail : raised r = Raised e) :
  exists c,
    after r = Some c
    /\ value (ctmError (Some c)) = e
    /\ after (ctmError (Some c)) = Some (set_mError CTM_NO_ERROR c)
    /\ value (ctmError (after (ctmError (Some c)))) = CTM_NO_ERROR
    /\ (forall fuel2 op2 w2 r2 e2,
           run fuel2 op2 (Some c) w' = Returns (r2, w2) ->
           raised r2 = Raised e2 ->
           exists c2,
             after r2 = Some c2
             /\ value (ctmError (Some c2)) = e2
             /\ value (ctmError (after (ctmError (Some c2)))) = CTM_NO_ERROR)
    /\ (forall fuel3 ops c3 w3,
           succeed fuel3 ops (Some c) w' (Some c3) w3 ->
           codecs_keep_mError
           \/ forallb (fun op => negb (calls_codec op)) ops = true ->
           value (ctmError (Some c3)) = e
           /\ value (ctmError (after (ctmError (Some c3)))) = CTM_NO_ERROR).
Proof.
  destruct (run_coherent _ _ _ _ _ _ Hrun e Hfail) as (c & Hc & He).
  exists c. destruct (ctmError_reads_and_resets c) as (Hv & Ha & Hn).
  repeat apply conj; try assumption; try congruence.
  - intros fuel2 op2 w2 r2 e2 Hrun2 Hfail2.
    destruct (run_coherent _ _ _ _ _ _ Hrun2 e2 Hfail2) as (c2 & Hc2 & He2).
    exists c2. destruct (ctmError_reads_and_resets c2) as (Hv2 & _ & Hn2).
    repeat apply conj; try assumption; congruence.
  - intros fuel3 ops c3 w3 Hcalls Hcodec.
    destruct (succeed_sticky _ _ _ _ _ _ Hcalls Hcodec c3 eq_refl)
      as (c0 & Hc0 & He0).
    injection Hc0 as <-.
    destruct (ctmError_reads_and_resets c3) as (Hv3 & _ & Hn3).
    split; [congruence|exact Hn3].
Qed.

(** ** Saving: the precondition and the header *)

Lemma set_w_sink_twice (x y : list byte) (w : World) :
  set_w_sink x (set_w_sink y w) = set_w_sink x w.
Proof. reflexivity. Qed.

Lemma _ctmStreamWrite_bound (self : _CTMcontext) (fn : CTMwritefn)
  (buf : list byte) (n : CTMuint) (w : World) :
  mWriteFn self = Some fn ->
  n = N.of_nat (length buf) ->
  _ctmStreamWrite self buf n w = Returns (set_w_sink (w_sink w ++ buf) w).
Proof.
  intros H ->. unfold _ctmStreamWrite. rewrite H, Nat2N.id, firstn_all.
  reflexivity.
Qed.

Lemma _ctmStreamWriteUINT_bound (self : _CTMcontext) (fn : CTMwritefn)
  (n : CTMuint) (w : World) :
  mWriteFn self = Some fn ->
  _ctmStreamWriteUINT self n w
  = Returns (set_w_sink (w_sink w ++ bytes_of_uint n) w).
Proof.
  intros H. unfold _ctmStreamWriteUINT.
  apply (_ctmStreamWrite_bound self fn); [exact H|reflexivity].
Qed.

Lemma _ctmStreamWriteSTRING_bound (self : _CTMcontext) (fn : CTMwritefn)
  (s : option (list byte)) (w : World) :
  mWriteFn self = Some fn ->
  _ctmStreamWriteSTRING self s w
  = Returns (set_w_sink (w_sink w ++ comment_bytes s) w).
Proof.
  intros H. destruct s as [str|]; simpl.
  - rewrite (_ctmStreamWriteUINT_bound self fn _ w H). simpl.
    rewrite (_ctmStreamWrite_bound self fn str _ _ H eq_refl). simpl.
    rewrite <- app_assoc. reflexivity.
  - apply (_ctmStreamWriteUINT_bound self fn 0 w H).
Qed.

Lemma write_method_tag_bound (self : _CTMcontext) (fn : CTMwritefn)
  (w : World) :
  mWriteFn self = Some fn ->
  mMethod self <> CTM_METHOD_OTHER ->
  write_method_tag self w
  = Returns (set_w_sink (w_sink w ++ method_tag (mMethod self)) w).
Proof.
  intros H Hm. unfold write_method_tag.
  destruct (mMethod self); try congruence;
    apply (_ctmStreamWrite_bound self fn); (exact H || reflexivity).
Qed.

(** The bytes [ctmSaveCustom] has written when it turns to the codec. *)
Lemma ctmSaveCustom_valid (self : _CTMcontext) (aWriteFn : CTMwritefn)
  (aUserData : userdata) (w : World) :
  mMode self = CTM_EXPORT ->
  mVertices self <> None -> mIndices self <> None ->
  mVertexCount self <> 0 -> mTriangleCount self <> 0 ->
  mMethod self <> CTM_METHOD_OTHER ->
  ctmSaveCustom (Some self) aWriteFn aUserData w
  = ' (c, w2) <- compress
                   (set_mUserData aUserData
                      (set_mWriteFn (Some aWriteFn) self))
                   (set_w_sink (w_sink w ++ header self) w) ;;
    Returns (quiet tt (Some c), w2).
Proof.
  intros Hmode Hv Hi Hvc Htc Hm. unfold ctmSaveCustom.
  rewrite Hmode. simpl negb. cbv iota.
  destruct (mVertices self) as [v|] eqn:Ev; [|congruence].
  destruct (mIndices self) as [ix|] eqn:Ei; [|congruence].
  assert (Hvc' : (mVertexCount self <? 1) = false) by (apply N.ltb_ge; lia).
  assert (Htc' : (mTriangleCount self <? 1) = false) by (apply N.ltb_ge; lia).
  simpl is_null. rewrite Hvc', Htc'. simpl orb. cbv iota.
  set (bound := set_mUserData aUserData (set_mWriteFn (Some aWriteFn) self)).
  assert (Hb : mWriteFn bound = Some aWriteFn) by reflexivity.
  rewrite (_ctmStreamWrite_bound bound aWriteFn tag_OCTM 4 w Hb eq_refl).
  cbv beta iota delta [bind].
  rewrite (_ctmStreamWriteUINT_bound bound aWriteFn _ _ Hb).
  rewrite (write_method_tag_bound bound aWriteFn _ Hb Hm).
  rewrite !(_ctmStreamWriteUINT_bound bound aWriteFn _ _ Hb).
  rewrite (_ctmStreamWriteSTRING_bound bound aWriteFn _ _ Hb).
  simpl w_sink. rewrite !set_w_sink_twice.
  replace (N.lor 0 _CTM_HAS_NORMALS_BIT) with 1 by reflexivity.
  fold (header_flags self).
  unfold header. rewrite <- !app_assoc. reflexivity.
Qed.

(** C3.  In Export mode, [ctmSaveCustom] on a context with null vertices,
    null indices, zero vertex count or zero triangle count sets
    [CTM_INVALID_MESH], changes nothing else and writes no byte.  On a
    context with a mesh (and one of the three methods selected) it binds the
    write callback and writes, in this order and nothing else, the magic
    [OCTM], the format version, the tag [RAW\0], [MG1\0] or [MG2\0] of the
    selected method, the vertex, triangle, texture map and attribute map
    counts, the flags word, whose bit 0 is set exactly when normals are
    present, and the length-prefixed comment; it then runs the codec writer
    of the selected method on that stream. *)
Theorem save_precondition_and_header (self : _CTMcontext)
  (aWriteFn : CTMwritefn) (aUserData : userdata) (w : World)
  (Hexport : mMode self = CTM_EXPORT) :
  (mVertices self = None \/ mIndices self = None
   \/ mVertexCount self = 0 \/ mTriangleCount self = 0 ->
   exists r, ctmSaveCustom (Some self) aWriteFn aUserData w = Returns (r, w)
             /\ rejected CTM_INVALID_MESH self r)
  /\ (mVertices self <> None -> mIndices self <> None ->
      mVertexCount self <> 0 -> mTriangleCount self <> 0 ->
      let bound :=
        set_mUserData aUserData (set_mWriteFn (Some aWriteFn) self) in
      let written := set_w_sink (w_sink w ++ header self) w in
      header self
      = tag_OCTM ++ bytes_of_uint _CTM_FORMAT_VERSION
        ++ method_tag (mMethod self)
        ++ bytes_of_uint (mVertexCount self)
        ++ bytes_of_uint (mTriangleCount self)
        ++ bytes_of_uint (mTexMapCount self)
        ++ bytes_of_uint (mAttribMapCount self)
        ++ bytes_of_uint (header_flags self)
        ++ comment_bytes (mFileComment self)
      /\ (N.testbit (header_flags self) 0 = true <-> mNormals self <> None)
      /\ (mMethod self = CTM_METHOD_RAW ->
          method_tag (mMethod self) = tag_RAW
          /\ ctmSaveCustom (Some self) aWriteFn aUserData w
             = ' (c, w2) <- _ctmCompressMesh_RAW bound written ;;
               Returns (quiet tt (Some c), w2))
      /\ (mMethod self = CTM_METHOD_MG1 ->
          method_tag (mMethod self) = tag_MG1
          /\ ctmSaveCustom (Some self) aWriteFn aUserData w
             = ' (c, w2) <- _ctmCompressMesh_MG1 bound written ;;
               Returns (quiet tt (Some c), w2))
      /\ (mMethod self = CTM_METHOD_MG2 ->
          method_tag (mMethod self) = tag_MG2
          /\ ctmSaveCustom (Some self) aWriteFn aUserData w
             = ' (c, w2) <- _ctmCompressMesh_MG2 bound written ;;
               Returns (quiet tt (Some c), w2))).
Proof.
  split.
  - intros Hbad. unfold ctmSaveCustom. rewrite Hexport. simpl negb. cbv iota.
    assert (Hc : is_null (mVertices self) || is_null (mIndices self)
                 || (mVertexCount self <? 1) || (mTriangleCount self <? 1)
                 = true).
    { destruct Hbad as [H|[H|[H|H]]]; rewrite H; simpl;
        rewrite ?orb_true_r; reflexivity. }
    rewrite Hc. eauto with ctm.
  - intros Hv Hi Hvc Htc bound written.
    split; [reflexivity|]. split.
    + unfold header_flags. destruct (mNormals self); simpl; split;
        congruence.
    + repeat apply conj; intros Hm;
        (split; [rewrite Hm; reflexivity|]);
        rewrite (ctmSaveCustom_valid self aWriteFn aUserData w Hexport
                   Hv Hi Hvc Htc) by congruence;
        unfold compress; simpl mMethod; rewrite Hm; reflexivity.
Qed.

(** ** Loading: the header checks *)







Lemma _ctmStreamReadUINT_app (self : _CTMcontext) (fn : CTMreadfn)
  (b rest : list byte) (w : World) :
  mReadFn self = Some fn -> length b = 4%nat -> w_source w = b ++ rest ->
  _ctmStreamReadUINT self w = Returns (uint_of_bytes b, set_w_source rest w).
Proof.
  intros Hfn Hb Hsrc. unfold _ctmStreamReadUINT, _ctmStreamRead.
  rewrite Hfn, Hsrc.
  assert (Hle : (4 <=? N.of_nat (length (b ++ rest))) = true).
  { apply N.leb_le. rewrite length_app, Hb. lia. }
  rewrite Hle.
  destruct b as [|b0 [|b1 [|b2 [|b3 [|]]]]]; try discriminate Hb.
  reflexivity.
Qed.

(** A call on a context that holds a map does not return: [_ctmClearMesh]
    runs into the release loop. *)
Lemma ctmLoadCustom_maps (fuel : nat) (self : _CTMcontext)
  (aReadFn : CTMreadfn) (aUserData : userdata) (w : World) :
  mMode self = CTM_IMPORT -> ~ no_maps self ->
  ctmLoadCustom fuel (Some self) aReadFn aUserData w = OutOfFuel.
Proof.
  intros Hmode Hmaps. unfold ctmLoadCustom. rewrite Hmode. simpl negb.
  cbv iota. rewrite _ctmClearMesh_maps; [reflexivity|exact Hmaps].
Qed.



(** ** Defining the mesh *)

(** C5 (amended).  In Export mode, [ctmDefineMesh] with a null vertex array,
    a null index array, a zero vertex count or a zero triangle count sets
    [CTM_INVALID_ARGUMENT] and changes nothing else: the arguments are
    checked before the old mesh is cleared, so the mesh attached before the
    call stays attached.  With valid arguments, on a context that holds no
    maps, it replaces the mesh by the arrays and counts supplied, normals
    being optional (a null [aNormals] is stored as such), and leaves the map
    lists empty and the other fields as they were. *)
Theorem define_mesh (fuel : nat) (self : _CTMcontext)
  (aVertices : option (list CTMfloat)) (aVertexCount : CTMuint)
  (aIndices : option (list CTMuint)) (aTriangleCount : CTMuint)
  (aNormals : option (list CTMfloat))
  (Hexport : mMode self = CTM_EXPORT) :
  (aVertices = None \/ aIndices = None
   \/ aVertexCount = 0 \/ aTriangleCount = 0 ->
   exists r, ctmDefineMesh fuel (Some self) aVertices aVertexCount aIndices
               aTriangleCount aNormals = Returns r
             /\ rejected CTM_INVALID_ARGUMENT self r)
  /\ (aVertices <> None -> aIndices <> None ->
      aVertexCount <> 0 -> aTriangleCount <> 0 -> no_maps self ->
      exists c,
        ctmDefineMesh fuel (Some self) aVertices aVertexCount aIndices
          aTriangleCount aNormals = Returns (quiet tt (Some c))
        /\ mVertices c = aVertices /\ mVertexCount c = aVertexCount
        /\ mIndices c = aIndices /\ mTriangleCount c = aTriangleCount
        /\ mNormals c = aNormals
        /\ mTexMaps c = [] /\ mTexMapCount c = 0
        /\ mAttribMaps c = [] /\ mAttribMapCount c = 0
        /\ mMode c = mMode self /\ mError c = mError self
        /\ mMethod c = mMethod self
        /\ mVertexPrecision c = mVertexPrecision self
        /\ mFileComment c = mFileComment self
        /\ mReadFn c = mReadFn self /\ mWriteFn c = mWriteFn self
        /\ mUserData c = mUserData self).
Proof.
  split.
  - intros Hbad. unfold ctmDefineMesh. rewrite Hexport. simpl negb. cbv iota.
    assert (Hc : is_null aVertices || is_null aIndices
                 || (aVertexCount =? 0) || (aTriangleCount =? 0) = true).
    { destruct Hbad as [H|[H|[H|H]]]; rewrite H; simpl;
        rewrite ?orb_true_r; reflexivity. }
    rewrite Hc. eauto with ctm.
  - intros Hv Hi Hvc Htc Hmaps. unfold ctmDefineMesh.
    rewrite Hexport. simpl negb. cbv iota.
    destruct aVertices as [v|]; [|congruence].
    destruct aIndices as [ix|]; [|congruence].
    apply N.eqb_neq in Hvc, Htc. simpl is_null. rewrite Hvc, Htc.
    simpl orb. cbv iota.
    rewrite (_ctmClearMesh_no_maps fuel self Hmaps). simpl bind.
    eexists. split; [reflexivity|]. repeat split. simpl. congruence.
Qed.

(** ** The array properties *)

Lemma walk_maps_offset (l : list _CTMfloatmap) (i k : N) (m : _CTMfloatmap) :
  i + k < 2 ^ 32 ->
  nth_error l (N.to_nat k) = Some m ->
  exists rest, walk_maps l i (i + k) = m :: rest.
Proof.
  revert i k. induction l as [|x l IH]; intros i k Hlt Hnth.
  - destruct (N.to_nat k); discriminate Hnth.
  - simpl. destruct (N.eqb_spec i (i + k)) as [Heq|Hne].
    + assert (k = 0) by lia. subst k. simpl in Hnth.
      injection Hnth as <-. eauto.
    + assert (Hk : k = N.succ (N.pred k)) by lia.
      rewrite Hk, N2Nat.inj_succ in Hnth. simpl in Hnth.
      assert (Hw : wrap32 (i + 1) = i + 1)
        by (unfold wrap32; apply N.mod_small; lia).
      rewrite Hw.
      replace (i + k) with (i + 1 + N.pred k) by lia.
      apply IH; [lia|exact Hnth].
Qed.

Lemma window_test (base count p : N) :
  (base <=? p) && (p - base <? count) = true <-> in_window base count p.
Proof.
  unfold in_window. rewrite andb_true_iff, N.leb_le, N.ltb_lt. lia.
Qed.

Lemma window_test_false (base count p : N) :
  ~ in_window base count p -> (base <=? p) && (p - base <? count) = false.
Proof.
  intros H. destruct ((base <=? p) && (p - base <? count)) eqn:Ht;
    [|reflexivity].
  apply window_test in Ht. contradiction.
Qed.

Lemma nth_error_in_range {A : Type} (l : list A) (k count : N) :
  length l = N.to_nat count -> k < count ->
  exists m, nth_error l (N.to_nat k) = Some m.
Proof.
  intros Hlen Hk. destruct (nth_error l (N.to_nat k)) as [m|] eqn:Hn;
    [eauto|].
  apply nth_error_None in Hn. lia.
Qed.

(** C7 (amended).  On a context whose map counts are the lengths of its map
    lists, [ctmGetFloatArray] with identifier [CTM_TEX_MAP_1 + k] (a 32-bit
    value), [k] below the texture map count, returns the values array of the
    [k+1]-th entry of the texture map list; with [CTM_ATTRIB_MAP_1 + k], [k]
    below the attribute map count, it returns the values array of the
    [k+1]-th entry of the attribute map list, provided that identifier is not
    also one of the texture map identifiers, which are looked up first.  With
    an identifier that is none of the texture map identifiers, none of the
    attribute map identifiers and neither [CTM_VERTICES] nor [CTM_NORMALS], it
    returns null and sets [CTM_INVALID_ARGUMENT]; [base + N] and [base - 1]
    are outside the identifiers of their own list. *)
Theorem map_index_dispatch (self : _CTMcontext) (Hmaps : holds_maps self) :
  (forall k, k < mTexMapCount self -> CTM_TEX_MAP_1 + k < 2 ^ 32 ->
     exists m, nth_error (mTexMaps self) (N.to_nat k) = Some m
               /\ ctmGetFloatArray (Some self) (CTM_TEX_MAP_1 + k)
                  = quiet (mValues m) (Some self))
  /\ (forall k, k < mAttribMapCount self -> CTM_ATTRIB_MAP_1 + k < 2 ^ 32 ->
        ~ in_window CTM_TEX_MAP_1 (mTexMapCount self) (CTM_ATTRIB_MAP_1 + k) ->
        exists m, nth_error (mAttribMaps self) (N.to_nat k) = Some m
                  /\ ctmGetFloatArray (Some self) (CTM_ATTRIB_MAP_1 + k)
                     = quiet (mValues m) (Some self))
  /\ (forall p, ~ recognised self p ->
        value (ctmGetFloatArray (Some self) p) = None
        /\ rejected CTM_INVALID_ARGUMENT self
             (ctmGetFloatArray (Some self) p))
  /\ ~ in_window CTM_TEX_MAP_1 (mTexMapCount self)
         (CTM_TEX_MAP_1 + mTexMapCount self)
  /\ ~ in_window CTM_ATTRIB_MAP_1 (mAttribMapCount self)
         (CTM_ATTRIB_MAP_1 + mAttribMapCount self)
  /\ (0 < CTM_TEX_MAP_1 ->
      ~ in_window CTM_TEX_MAP_1 (mTexMapCount self) (CTM_TEX_MAP_1 - 1))
  /\ (0 < CTM_ATTRIB_MAP_1 ->
      ~ in_window CTM_ATTRIB_MAP_1 (mAttribMapCount self)
          (CTM_ATTRIB_MAP_1 - 1)).
Proof.
  destruct Hmaps as [Htl Hal]. repeat apply conj.
  - intros k Hk H32.
    destruct (nth_error_in_range _ k _ Htl Hk) as [m Hm].
    exists m. split; [exact Hm|]. unfold ctmGetFloatArray.
    assert (Hw : in_window CTM_TEX_MAP_1 (mTexMapCount self)
                   (CTM_TEX_MAP_1 + k)) by (unfold in_window; lia).
    apply window_test in Hw. rewrite Hw.
    destruct (walk_maps_offset (mTexMaps self) CTM_TEX_MAP_1 k m) as [rest Hr];
      [exact H32|exact Hm|].
    rewrite Hr. reflexivity.
  - intros k Hk H32 Hout.
    destruct (nth_error_in_range _ k _ Hal Hk) as [m Hm].
    exists m. split; [exact Hm|]. unfold ctmGetFloatArray.
    rewrite (window_test_false _ _ _ Hout).
    assert (Hw : in_window CTM_ATTRIB_MAP_1 (mAttribMapCount self)
                   (CTM_ATTRIB_MAP_1 + k)) by (unfold in_window; lia).
    apply window_test in Hw. rewrite Hw.
    destruct (walk_maps_offset (mAttribMaps self) CTM_ATTRIB_MAP_1 k m)
      as [rest Hr]; [exact H32|exact Hm|].
    rewrite Hr. reflexivity.
  - intros p Hp. unfold recognised in Hp. unfold ctmGetFloatArray.
    rewrite (window_test_false CTM_TEX_MAP_1 _ p) by tauto.
    rewrite (window_test_false CTM_ATTRIB_MAP_1 _ p) by tauto.
    destruct (N.eqb_spec p CTM_VERTICES); [tauto|].
    destruct (N.eqb_spec p CTM_NORMALS); [tauto|].
    split; [reflexivity|apply raise_rejected].
  - unfold in_window; lia.
  - unfold in_window; lia.
  - unfold in_window; lia.
  - unfold in_window; lia.
Qed.

(** Whatever the enumerators are, the identifiers of the two lists can
    run into each other: some context holds [N] maps in one of its lists and
    answers the identifier [base + N] of that list with an array. *)
Lemma map_windows_clash :
  exists (self : _CTMcontext) (p : CTMproperty),
    holds_maps self
    /\ (p = CTM_TEX_MAP_1 + mTexMapCount self
        \/ p = CTM_ATTRIB_MAP_1 + mAttribMapCount self)
    /\ raised (ctmGetFloatArray (Some self) p) = Done
    /\ value (ctmGetFloatArray (Some self) p) <> None.
Proof.
  set (m := {| mName := None; mValues := Some [] |}).
  set (base := {| mMode := CTM_IMPORT; mVertices := None; mVertexCount := 0;
                  mIndices := None; mTriangleCount := 0; mNormals := None;
                  mTexMapCount := 0; mTexMaps := []; mAttribMapCount := 0;
                  mAttribMaps := []; mError := CTM_NO_ERROR;
                  mMethod := CTM_METHOD_MG1;
                  mVertexPrecision := f_default_precision;
                  mFileComment := None; mReadFn := None; mWriteFn := None;
                  mUserData := null_userdata |}).
  destruct (N.le_gt_cases CTM_TEX_MAP_1 CTM_ATTRIB_MAP_1) as [Hle|Hgt].
  - set (n := CTM_ATTRIB_MAP_1 - CTM_TEX_MAP_1).
    exists (set_mAttribMaps [m] (set_mAttribMapCount 1
              (set_mTexMaps (repeat m (N.to_nat n))
                 (set_mTexMapCount n base)))).
    exists CTM_ATTRIB_MAP_1.
    split; [split; simpl; [apply repeat_length|reflexivity]|].
    split; [left; simpl; unfold n; lia|].
    unfold ctmGetFloatArray. simpl mTexMapCount. simpl mAttribMapCount.
    rewrite (window_test_false CTM_TEX_MAP_1 n CTM_ATTRIB_MAP_1)
      by (unfold in_window, n; lia).
    assert (Hw : in_window CTM_ATTRIB_MAP_1 1 CTM_ATTRIB_MAP_1)
      by (unfold in_window; lia).
    apply window_test in Hw. rewrite Hw. simpl. rewrite N.eqb_refl.
    split; [reflexivity|discriminate].
  - set (n := CTM_TEX_MAP_1 - CTM_ATTRIB_MAP_1).
    exists (set_mTexMaps [m] (set_mTexMapCount 1
              (set_mAttribMaps (repeat m (N.to_nat n))
                 (set_mAttribMapCount n base)))).
    exists CTM_TEX_MAP_1.
    split; [split; simpl; [reflexivity|apply repeat_length]|].
    split; [right; simpl; unfold n; lia|].
    unfold ctmGetFloatArray. simpl mTexMapCount.
    assert (Hw : in_window CTM_TEX_MAP_1 1 CTM_TEX_MAP_1)
      by (unfold in_window; lia).
    apply window_test in Hw. rewrite Hw. simpl. rewrite N.eqb_refl.
    split; [reflexivity|discriminate].
Qed.

(** ** What a failing operation leaves behind *)































(** ** Attaching maps *)

Lemma ctmNewContext_granted (aMode : CTMcontextmode) (w : World) :
  w_malloc w = [] ->
  ctmNewContext aMode w = Returns (Some (new_context aMode), w).
Proof. intros H. unfold ctmNewContext, malloc. rewrite H. reflexivity. Qed.

(** Whatever the context and the arguments, the two functions return
    [CTM_NONE] and hand the context back as they got it. *)
Lemma add_map_is_idle (aContext : CTMcontext)
  (aValues : option (list CTMfloat)) (aName : option (list byte)) :
  ctmAddTexMap aContext aValues aName = Reply CTM_NONE Done aContext
  /\ ctmAddAttribMap aContext aValues aName = Reply CTM_NONE Done aContext.
Proof. split; reflexivity. Qed.

(** C9 (the code at the failing input).  On a context fresh from
    [ctmNewContext] in Export mode, [ctmAddTexMap] and [ctmAddAttribMap]
    return [CTM_NONE] and leave the context as it was: no error is recorded,
    the error register still reads [CTM_NO_ERROR], both map lists are still
    empty, and no identifier at all, so not the one returned either,
    designates a map of the context. *)
Theorem add_map_records_nothing
  (aTexCoords aAttribValues : option (list CTMfloat))
  (aName : option (list byte)) :
  ctmAddTexMap (Some (new_context CTM_EXPORT)) aTexCoords aName
  = Reply CTM_NONE Done (Some (new_context CTM_EXPORT))
  /\ ctmAddAttribMap (Some (new_context CTM_EXPORT)) aAttribValues aName
     = Reply CTM_NONE Done (Some (new_context CTM_EXPORT))
  /\ mError (new_context CTM_EXPORT) = CTM_NO_ERROR
  /\ mTexMaps (new_context CTM_EXPORT) = []
  /\ mAttribMaps (new_context CTM_EXPORT) = []
  /\ (forall h,
        ~ in_window CTM_TEX_MAP_1 (mTexMapCount (new_context CTM_EXPORT)) h)
  /\ (forall h,
        ~ in_window CTM_ATTRIB_MAP_1
            (mAttribMapCount (new_context CTM_EXPORT)) h).
Proof.
  repeat apply conj; try reflexivity; intros h; unfold in_window; simpl; lia.
Qed.

(** ** The null handle *)

(** C10 (amended).  Every operation tolerates a null handle.  The accessors
    [ctmGetInteger], [ctmGetFloatArray], [ctmGetIntegerArray] and
    [ctmGetString] return 0 or null; [ctmError] returns
    [CTM_INVALID_CONTEXT]; the mutators [ctmCompressionMethod],
    [ctmVertexPrecision], [ctmVertexPrecisionRel], [ctmFileComment],
    [ctmDefineMesh], [ctmLoadCustom], [ctmSaveCustom] and [ctmFreeContext]
    return without effect; and whatever the operation, the call returns,
    records no error, and leaves the handle null and the surroundings as
    they were. *)
Theorem null_handle (fuel : nat) (w : World) :
  (forall aProperty, ctmGetInteger None aProperty = Reply 0 Done None)
  /\ (forall aProperty,
         ctmGetFloatArray None aProperty = Reply None Done None)
  /\ (forall aProperty,
         ctmGetIntegerArray None aProperty = Reply None Done None)
  /\ (forall aProperty, ctmGetString None aProperty = Reply None Done None)
  /\ ctmError None = Reply CTM_INVALID_CONTEXT Done None
  /\ (forall aMethod, ctmCompressionMethod None aMethod = Reply tt Done None)
  /\ (forall aPrecision,
         ctmVertexPrecision None aPrecision = Reply tt Done None)
  /\ (forall aRelPrecision,
         ctmVertexPrecisionRel None aRelPrecision
         = Returns (Reply tt Done None))
  /\ (forall aFileComment,
         ctmFileComment None aFileComment w = Returns (Reply tt Done None, w))
  /\ (forall aVertices aVertexCount aIndices aTriangleCount aNormals,
         ctmDefineMesh fuel None aVertices aVertexCount aIndices
           aTriangleCount aNormals = Returns (Reply tt Done None))
  /\ (forall aReadFn aUserData,
         ctmLoadCustom fuel None aReadFn aUserData w
         = Returns (Reply tt Done None, w))
  /\ (forall aWriteFn aUserData,
         ctmSaveCustom None aWriteFn aUserData w
         = Returns (Reply tt Done None, w))
  /\ ctmFreeContext fuel None = Returns (Reply tt Done None)
  /\ (forall op, exists v,
         run fuel op None w = Returns (Reply v Done None, w)).
Proof.
  repeat apply conj; try reflexivity.
  intros op. destruct op; eexists; reflexivity.
Qed.

(** ** The precision relative to the mesh *)

(** The arithmetic of [CTMfloat] is a parameter here, so no statement on the
    value of a sum or a quotient is made; what follows is the part of
    [ctmVertexPrecisionRel] that does not depend on it. *)

Lemma ctmVertexPrecisionRel_no_triangles (self : _CTMcontext)
  (aRelPrecision : CTMfloat) :
  mMode self = CTM_EXPORT -> f_le_zero aRelPrecision = false ->
  mTriangleCount self = 0 ->
  exists r, ctmVertexPrecisionRel (Some self) aRelPrecision = Returns r
            /\ rejected CTM_INVALID_MESH self r.
Proof.
  intros Hmode Hpos Hzero. unfold ctmVertexPrecisionRel.
  rewrite Hmode, Hpos, Hzero. simpl. eauto with ctm.
Qed.

Lemma ctmVertexPrecisionRel_precision_only (self : _CTMcontext)
  (aRelPrecision : CTMfloat) (r : reply unit) :
  ctmVertexPrecisionRel (Some self) aRelPrecision = Returns r ->
  raised r = Done ->
  exists precision, after r = Some (set_mVertexPrecision precision self).
Proof.
  unfold ctmVertexPrecisionRel. intros H Hdone.
  destruct (negb _); [crunch; discriminate Hdone|].
  destruct (f_le_zero aRelPrecision); [crunch; discriminate Hdone|].
  destruct (triangle_loop _ _ _ _) as [[avg n]| |]; crunch;
    try discriminate Hdone.
  eauto.
Qed.

(** The divisor: each triangle counts three edges, modulo [2 ^ 32]. *)
Lemma edge_loop_edgeCount (self : _CTMcontext) (i : CTMuint)
  (js : list CTMuint) (p p' : point) (avg avg' : CTMfloat) (k k' : CTMuint) :
  edge_loop self i js (p, avg, k) = Returns (p', avg', k') ->
  wrap32 k' = wrap32 (k + N.of_nat (length js)).
Proof.
  revert p avg k. induction js as [|j js IH]; intros p avg k H.
  - simpl in H. injection H as _ _ <-. rewrite N.add_0_r. reflexivity.
  - simpl in H. unfold bind in H.
    destruct (index_at self _) as [x| |]; try discriminate H.
    destruct (vertex_at self _) as [p2| |]; try discriminate H.
    apply IH in H. rewrite H. unfold wrap32.
    rewrite N.Div0.add_mod_idemp_l. f_equal. simpl length. lia.
Qed.

Lemma triangle_loop_edgeCount (self : _CTMcontext) (n : nat) (i : CTMuint)
  (avg avg' : CTMfloat) (k k' : CTMuint) :
  triangle_loop self n i (avg, k) = Returns (avg', k') ->
  wrap32 k' = wrap32 (k + 3 * N.of_nat n).
Proof.
  revert i avg k. induction n as [|n IH]; intros i avg k H.
  - simpl in H. injection H as _ <-. f_equal. lia.
  - cbn [triangle_loop] in H. unfold bind in H.
    destruct (index_at self _) as [x| |]; try discriminate H.
    destruct (vertex_at self _) as [p1| |]; try discriminate H.
    destruct (edge_loop self i [0; 1; 2] (p1, avg, k))
      as [[[p2 avg2] k2]| |] eqn:He; try discriminate H.
    apply edge_loop_edgeCount in He. apply IH in H. rewrite H.
    unfold wrap32 in *. rewrite <- N.Div0.add_mod_idemp_l, He.
    rewrite N.Div0.add_mod_idemp_l. f_equal. simpl length. lia.
Qed.

(** One triangle [a], [b], [c]: the edges summed are [c]-[a], [a]-[b] and
    [b]-[c], in this order, and the sum is divided by 3. *)
Lemma ctmVertexPrecisionRel_one_triangle (self : _CTMcontext)
  (aRelPrecision : CTMfloat) (a b c : CTMuint) (rest : list CTMuint)
  (pa pb pc : point) :
  mMode self = CTM_EXPORT -> f_le_zero aRelPrecision = false ->
  mTriangleCount self = 1 -> mIndices self = Some (a :: b :: c :: rest) ->
  vertex_at self (wrap32 (a * 3)) = Returns pa ->
  vertex_at self (wrap32 (b * 3)) = Returns pb ->
  vertex_at self (wrap32 (c * 3)) = Returns pc ->
  ctmVertexPrecisionRel (Some self) aRelPrecision
  = Returns
      (quiet tt
         (Some (set_mVertexPrecision
                  (f_mul aRelPrecision
                     (f_div
                        (f_add_double
                           (f_add_double
                              (f_add_double f_zero (edge_length pc pa))
                              (edge_length pa pb))
                           (edge_length pb pc))
                        (f_of_uint 3)))
                  self))).
Proof.
  intros Hmode Hpos Hone Hix Ha Hb Hc. unfold ctmVertexPrecisionRel.
  rewrite Hmode, Hpos, Hone. simpl negb. cbv iota.
  change (N.to_nat 1) with 1%nat. unfold triangle_loop, edge_loop, index_at.
  rewrite Hix.
  change (N.to_nat (wrap32 (0 * 3 + 0))) with 0%nat.
  change (N.to_nat (wrap32 (0 * 3 + 1))) with 1%nat.
  change (N.to_nat (wrap32 (0 * 3 + 2))) with 2%nat.
  change (wrap32 (wrap32 (wrap32 (0 + 1) + 1) + 1)) with 3.
  cbv beta iota delta [bind of_option nth_error].
  rewrite Hc. cbv beta iota. rewrite Ha. cbv beta iota.
  rewrite Hb. cbv beta iota. reflexivity.
Qed.

(** * Further properties *)

(** ** Clearing and destroying *)

(** X1.  [_ctmClearMesh] returns exactly on the contexts that hold no map,
    whatever the fuel; it then leaves the arrays null, the four counts zero
    and the map lists empty, and every other field as it was.  On a context
    that holds a map it does not return. *)
Theorem clear_mesh_returns_iff (fuel : nat) (self c : _CTMcontext) :
  (_ctmClearMesh fuel self = Returns c <-> no_maps self /\ c = cleared self)
  /\ (~ no_maps self -> _ctmClearMesh fuel self = OutOfFuel)
  /\ mVertices (cleared self) = None /\ mIndices (cleared self) = None
  /\ mNormals (cleared self) = None
  /\ mVertexCount (cleared self) = 0 /\ mTriangleCount (cleared self) = 0
  /\ mTexMapCount (cleared self) = 0 /\ mAttribMapCount (cleared self) = 0
  /\ no_maps (cleared self)
  /\ mMode (cleared self) = mMode self /\ mError (cleared self) = mError self
  /\ mMethod (cleared self) = mMethod self
  /\ mVertexPrecision (cleared self) = mVertexPrecision self
  /\ mFileComment (cleared self) = mFileComment self
  /\ mReadFn (cleared self) = mReadFn self
  /\ mWriteFn (cleared self) = mWriteFn self
  /\ mUserData (cleared self) = mUserData self.
Proof.
  split; [split|split].
  - apply _ctmClearMesh_Returns.
  - intros [Hn ->]. apply _ctmClearMesh_no_maps. exact Hn.
  - apply _ctmClearMesh_maps.
  - repeat split.
Qed.

(** X2.  [ctmFreeContext] returns exactly when the handle is null or the
    context holds no map; no context is left after it.  On a context that
    holds a map it does not return, whatever the fuel. *)
Theorem free_context_returns_iff (fuel : nat) (aContext : CTMcontext) :
  (match aContext with
   | None => True
   | Some self => no_maps self
   end <-> ctmFreeContext fuel aContext = Returns (Reply tt Done None))
  /\ (forall self, aContext = Some self -> ~ no_maps self ->
        ctmFreeContext fuel aContext = OutOfFuel).
Proof.
  split.
  - destruct aContext as [self|]; simpl; [|tauto]. split.
    + intros Hn. rewrite (_ctmClearMesh_no_maps fuel self Hn). reflexivity.
    + intros H. destruct (_ctmClearMesh fuel self) as [c| |] eqn:Hc;
        try discriminate H.
      apply _ctmClearMesh_Returns in Hc. tauto.
  - intros self -> Hn. simpl. rewrite (_ctmClearMesh_maps fuel self Hn).
    reflexivity.
Qed.

(** ** A fresh context *)

(** X3.  [ctmNewContext] does not check what [malloc] returns: when the
    block is refused the call has no defined result.  When it is granted,
    the context has the mode asked for, no pending error, method MG1, the
    default precision, no comment, no mesh and no map: [ctmError] returns
    [CTM_NO_ERROR], and the array and string properties are null. *)
Theorem new_context_is_empty (aMode : CTMcontextmode) (w : World) :
  (fst (malloc w) = false -> ctmNewContext aMode w = Undefined)
  /\ (fst (malloc w) = true ->
      exists c,
        ctmNewContext aMode w = Returns (Some c, snd (malloc w))
        /\ mMode c = aMode /\ mMethod c = CTM_METHOD_MG1
        /\ mVertexPrecision c = f_default_precision
        /\ no_maps c
        /\ ctmError (Some c) = Reply CTM_NO_ERROR Done (Some c)
        /\ ctmGetInteger (Some c) CTM_VERTEX_COUNT = Reply 0 Done (Some c)
        /\ ctmGetIntegerArray (Some c) CTM_INDICES
           = Reply None Done (Some c)
        /\ ctmGetString (Some c) CTM_FILE_COMMENT = Reply None Done (Some c)
        /\ forall p, value (ctmGetFloatArray (Some c) p) = None).
Proof.
  unfold ctmNewContext. destruct (malloc w) as [granted w1]. simpl.
  split; intros ->; [reflexivity|].
  eexists. split; [reflexivity|]. repeat apply conj; try reflexivity.
  - unfold ctmGetInteger. rewrite N.eqb_refl. reflexivity.
  - unfold ctmGetIntegerArray. rewrite N.eqb_refl. reflexivity.
  - unfold ctmGetString. rewrite N.eqb_refl. reflexivity.
  - intros p. unfold ctmGetFloatArray. simpl mTexMapCount.
    simpl mAttribMapCount.
    rewrite (window_test_false CTM_TEX_MAP_1 0 p)
      by (unfold in_window; lia).
    rewrite (window_test_false CTM_ATTRIB_MAP_1 0 p)
      by (unfold in_window; lia).
    destruct (p =? CTM_VERTICES); [reflexivity|].
    destruct (p =? CTM_NORMALS); reflexivity.
Qed.

(** ** The accessors *)

(** X4.  The four property accessors read only: whatever the context and
    the identifier, the context after the call is the context before it, or,
    when the identifier is turned down, the context before it with
    [CTM_INVALID_ARGUMENT] in the error register and a zero or null
    result. *)
Theorem accessors_read_only (self : _CTMcontext) (aProperty : CTMproperty) :
  (ctmGetInteger (Some self) aProperty
   = Reply (value (ctmGetInteger (Some self) aProperty)) Done (Some self)
   \/ ctmGetInteger (Some self) aProperty
      = raise 0 CTM_INVALID_ARGUMENT self)
  /\ (ctmGetIntegerArray (Some self) aProperty
      = Reply (value (ctmGetIntegerArray (Some self) aProperty)) Done
          (Some self)
      \/ ctmGetIntegerArray (Some self) aProperty
         = raise None CTM_INVALID_ARGUMENT self)
  /\ (ctmGetFloatArray (Some self) aProperty
      = Reply (value (ctmGetFloatArray (Some self) aProperty)) Done
          (Some self)
      \/ ctmGetFloatArray (Some self) aProperty
         = raise None CTM_INVALID_ARGUMENT self)
  /\ (ctmGetString (Some self) aProperty
      = Reply (value (ctmGetString (Some self) aProperty)) Done (Some self)
      \/ ctmGetString (Some self) aProperty
         = raise None CTM_INVALID_ARGUMENT self).
Proof.
  repeat apply conj.
  - unfold ctmGetInteger.
    repeat (match goal with
            | |- context [if ?x then _ else _] => destruct x
            end; [left; reflexivity|]).
    right; reflexivity.
  - unfold ctmGetIntegerArray.
    destruct (_ =? _); [left|right]; reflexivity.
  - unfold ctmGetFloatArray.
    destruct (_ && _).
    { destruct (walk_maps _ _ _); [right|left]; reflexivity. }
    destruct (_ && _).
    { destruct (walk_maps _ _ _); [right|left]; reflexivity. }
    destruct (_ =? _); [left; reflexivity|].
    destruct (_ =? _); [left|right]; reflexivity.
  - unfold ctmGetString.
    destruct (_ =? _); [left|right]; reflexivity.
Qed.

(** X5.  What [ctmDefineMesh] attaches, the accessors return.  On an
    Export-mode context without maps, after a call with non-null arrays and
    non-zero counts, [ctmGetInteger] returns the two counts given, zero for
    both map counts and [CTM_TRUE] exactly when normals were given;
    [ctmGetIntegerArray] and [ctmGetFloatArray] return the arrays given; none
    of these calls records an error, and the error register is the one of
    before the definition. *)
Theorem define_then_query (fuel : nat) (self : _CTMcontext)
  (v : list CTMfloat) (vc : CTMuint) (ix : list CTMuint) (tc : CTMuint)
  (n : option (list CTMfloat))
  (Hlabels : distinct_labels)
  (Hexport : mMode self = CTM_EXPORT) (Hmaps : no_maps self)
  (Hvc : vc <> 0) (Htc : tc <> 0) :
  exists c,
    ctmDefineMesh fuel (Some self) (Some v) vc (Some ix) tc n
    = Returns (quiet tt (Some c))
    /\ ctmGetInteger (Some c) CTM_VERTEX_COUNT = quiet vc (Some c)
    /\ ctmGetInteger (Some c) CTM_TRIANGLE_COUNT = quiet tc (Some c)
    /\ ctmGetInteger (Some c) CTM_TEX_MAP_COUNT = quiet 0 (Some c)
    /\ ctmGetInteger (Some c) CTM_ATTRIB_MAP_COUNT = quiet 0 (Some c)
    /\ ctmGetInteger (Some c) CTM_HAS_NORMALS
       = quiet (if is_null n then CTM_FALSE else CTM_TRUE) (Some c)
    /\ ctmGetIntegerArray (Some c) CTM_INDICES = quiet (Some ix) (Some c)
    /\ ctmGetFloatArray (Some c) CTM_VERTICES = quiet (Some v) (Some c)
    /\ ctmGetFloatArray (Some c) CTM_NORMALS = quiet n (Some c)
    /\ value (ctmError (Some c)) = mError self.
Proof.
  destruct Hlabels as [Hnd Hvn].
  unfold ctmDefineMesh. rewrite Hexport. simpl negb. cbv iota.
  simpl is_null.
  assert (Hc : (false || false || (vc =? 0) || (tc =? 0)) = false).
  { apply N.eqb_neq in Hvc, Htc. rewrite Hvc, Htc. reflexivity. }
  rewrite Hc. rewrite (_ctmClearMesh_no_maps fuel self Hmaps).
  cbv beta iota delta [bind]. eexists. split; [reflexivity|].
  assert (Hwin : forall base p, (base <=? p) && (p - base <? 0) = false).
  { intros base p. apply window_test_false. unfold in_window. lia. }
  inversion Hnd as [|a1 l1 Hn1 Hnd1]; subst.
  inversion Hnd1 as [|a2 l2 Hn2 Hnd2]; subst.
  inversion Hnd2 as [|a3 l3 Hn3 Hnd3]; subst.
  inversion Hnd3 as [|a4 l4 Hn4 Hnd4]; subst.
  simpl in Hn1, Hn2, Hn3, Hn4.
  repeat apply conj.
  - unfold ctmGetInteger. rewrite N.eqb_refl. reflexivity.
  - unfold ctmGetInteger.
    replace (CTM_TRIANGLE_COUNT =? CTM_VERTEX_COUNT) with false
      by (symmetry; apply N.eqb_neq; intuition congruence).
    rewrite N.eqb_refl. reflexivity.
  - unfold ctmGetInteger.
    replace (CTM_TEX_MAP_COUNT =? CTM_VERTEX_COUNT) with false
      by (symmetry; apply N.eqb_neq; intuition congruence).
    replace (CTM_TEX_MAP_COUNT =? CTM_TRIANGLE_COUNT) with false
      by (symmetry; apply N.eqb_neq; intuition congruence).
    rewrite N.eqb_refl. reflexivity.
  - unfold ctmGetInteger.
    replace (CTM_ATTRIB_MAP_COUNT =? CTM_VERTEX_COUNT) with false
      by (symmetry; apply N.eqb_neq; intuition congruence).
    replace (CTM_ATTRIB_MAP_COUNT =? CTM_TRIANGLE_COUNT) with false
      by (symmetry; apply N.eqb_neq; intuition congruence).
    replace (CTM_ATTRIB_MAP_COUNT =? CTM_TEX_MAP_COUNT) with false
      by (symmetry; apply N.eqb_neq; intuition congruence).
    rewrite N.eqb_refl. reflexivity.
  - unfold ctmGetInteger.
    replace (CTM_HAS_NORMALS =? CTM_VERTEX_COUNT) with false
      by (symmetry; apply N.eqb_neq; intuition congruence).
    replace (CTM_HAS_NORMALS =? CTM_TRIANGLE_COUNT) with false
      by (symmetry; apply N.eqb_neq; intuition congruence).
    replace (CTM_HAS_NORMALS =? CTM_TEX_MAP_COUNT) with false
      by (symmetry; apply N.eqb_neq; intuition congruence).
    replace (CTM_HAS_NORMALS =? CTM_ATTRIB_MAP_COUNT) with false
      by (symmetry; apply N.eqb_neq; intuition congruence).
    rewrite N.eqb_refl. reflexivity.
  - unfold ctmGetIntegerArray. rewrite N.eqb_refl. reflexivity.
  - unfold ctmGetFloatArray. simpl mTexMapCount. simpl mAttribMapCount.
    rewrite !Hwin, N.eqb_refl. reflexivity.
  - unfold ctmGetFloatArray. simpl mTexMapCount. simpl mAttribMapCount.
    rewrite !Hwin.
    replace (CTM_NORMALS =? CTM_VERTICES) with false
      by (symmetry; apply N.eqb_neq; congruence).
    rewrite N.eqb_refl. reflexivity.
  - reflexivity.
Qed.

(** ** What the operations without a codec keep *)

Lemma kept_refl (self : _CTMcontext) : kept self self.
Proof. unfold kept. tauto. Qed.

Lemma kept_set_mError (self : _CTMcontext) (e : CTMerror) :
  kept self (set_mError e self).
Proof. unfold kept. simpl. tauto. Qed.

Lemma kept_set_mVertexPrecision (self : _CTMcontext) (x : CTMfloat) :
  kept self (set_mVertexPrecision x self).
Proof. unfold kept. simpl. tauto. Qed.

Lemma kept_set_mFileComment (self : _CTMcontext) (s : option (list byte)) :
  kept self (set_mFileComment s self).
Proof. unfold kept. simpl. tauto. Qed.

Lemma kept_trans (a b c : _CTMcontext) : kept a b -> kept b c -> kept a c.
Proof.
  unfold kept.
  intros (H1 & H2 & H3 & H4 & H5 & H6 & H7 & H8 & H9)
         (K1 & K2 & K3 & K4 & K5 & K6 & K7 & K8 & K9).
  split; [congruence|]. split; [congruence|]. split; [congruence|].
  split; [congruence|].
  split; [destruct K5 as [K|K]; [rewrite K; exact H5|right; exact K]|].
  split; [destruct K6 as [K|K]; [rewrite K; exact H6|right; exact K]|].
  split; [destruct K7 as [K|K]; [rewrite K; exact H7|right; exact K]|].
  split; [destruct K8 as [K|K]; [rewrite K; exact H8|right; exact K]|].
  intros Hm. apply K9, H9, Hm.
Qed.

Lemma ctmVertexPrecisionRel_kept (self c : _CTMcontext) (a : CTMfloat)
  (r : reply unit) :
  ctmVertexPrecisionRel (Some self) a = Returns r -> after r = Some c ->
  kept self c.
Proof.
  unfold ctmVertexPrecisionRel. intros H Hc.
  destruct (negb _);
    [injection H as <-; injection Hc as <-; apply kept_set_mError|].
  destruct (f_le_zero a);
    [injection H as <-; injection Hc as <-; apply kept_set_mError|].
  destruct (triangle_loop _ _ _ _) as [[avg n]| |]; try discriminate H.
  unfold bind in H. destruct (n =? 0); injection H as <-; injection Hc as <-.
  - apply kept_set_mError.
  - apply kept_set_mVertexPrecision.
Qed.

Lemma ctmFileComment_kept (self c : _CTMcontext) (s : option (list byte))
  (w w' : World) (r : reply unit) :
  ctmFileComment (Some self) s w = Returns (r, w') ->
  (w_source w' = w_source w /\ w_sink w' = w_sink w)
  /\ (after r = Some c -> kept self c).
Proof.
  unfold ctmFileComment, malloc.
  assert (H0 : kept self
                 (if is_null (mFileComment self) then self
                  else set_mFileComment None self)).
  { destruct (is_null _); [apply kept_refl|apply kept_set_mFileComment]. }
  revert H0.
  generalize (if is_null (mFileComment self) then self
              else set_mFileComment None self).
  intros c0 H0.
  destruct (negb _).
  { intros H. injection H as <- <-. split; [split; reflexivity|].
    intros Hc. injection Hc as <-. apply kept_set_mError. }
  destruct s as [obj|].
  2:{ intros H. injection H as <- <-. split; [split; reflexivity|].
      intros Hc. injection Hc as <-. exact H0. }
  destruct (negb (terminated obj)); [discriminate|].
  destruct (_ =? 0)%Z.
  { intros H. injection H as <- <-. split; [split; reflexivity|].
    intros Hc. injection Hc as <-. exact H0. }
  destruct (_ =? INT_MAX)%Z; [discriminate|].
  destruct (w_malloc w) as [|[|] rest];
    try (destruct (holds_string _ _); [|discriminate]);
    intros H; injection H as <- <-; (split; [split; reflexivity|]);
    intros Hc; injection Hc as <-.
  - eapply kept_trans; [exact H0|apply kept_set_mFileComment].
  - eapply kept_trans; [exact H0|apply kept_set_mFileComment].
  - eapply kept_trans; [exact H0|].
    eapply kept_trans; [apply kept_set_mFileComment|apply kept_set_mError].
Qed.

Lemma ctmDefineMesh_kept (fuel : nat) (self c : _CTMcontext)
  (v : option (list CTMfloat)) (vc : CTMuint) (i : option (list CTMuint))
  (tc : CTMuint) (n : option (list CTMfloat)) (r : reply unit) :
  ctmDefineMesh fuel (Some self) v vc i tc n = Returns r ->
  after r = Some c -> kept self c.
Proof.
  unfold ctmDefineMesh. intros H Hc.
  destruct (negb _);
    [injection H as <-; injection Hc as <-; apply kept_set_mError|].
  destruct (_ || _);
    [injection H as <-; injection Hc as <-; apply kept_set_mError|].
  destruct (_ctmClearMesh fuel self) as [c1| |] eqn:Hclear;
    try discriminate H.
  apply _ctmClearMesh_Returns in Hclear. destruct Hclear as [_ ->].
  unfold bind in H. injection H as <-. injection Hc as <-.
  unfold kept. simpl. tauto.
Qed.

Lemma accessors_kept (self : _CTMcontext) (aProperty : CTMproperty) :
  (forall c, after (with_value uint_value
                      (ctmGetInteger (Some self) aProperty)) = Some c ->
             kept self c)
  /\ (forall c, after (with_value uints_value
                         (ctmGetIntegerArray (Some self) aProperty)) = Some c ->
                kept self c)
  /\ (forall c, after (with_value floats_value
                         (ctmGetFloatArray (Some self) aProperty)) = Some c ->
                kept self c)
  /\ (forall c, after (with_value string_value
                         (ctmGetString (Some self) aProperty)) = Some c ->
                kept self c).
Proof.
  assert (K : forall A (r : reply A) c,
             r = Reply (value r) Done (Some self)
             \/ r = raise (value r) CTM_INVALID_ARGUMENT self ->
             after r = Some c -> kept self c).
  { intros A r c [-> | ->]; simpl; intros Hc; injection Hc as <-;
      [apply kept_refl|apply kept_set_mError]. }
  repeat apply conj; intros c; unfold with_value; simpl after; apply K.
  - unfold ctmGetInteger.
    repeat (match goal with
            | |- context [if ?x then _ else _] => destruct x
            end; [left; reflexivity|]).
    right; reflexivity.
  - unfold ctmGetIntegerArray.
    destruct (_ =? _); [left|right]; reflexivity.
  - unfold ctmGetFloatArray.
    destruct (_ && _).
    { destruct (walk_maps _ _ _); [right|left]; reflexivity. }
    destruct (_ && _).
    { destruct (walk_maps _ _ _); [right|left]; reflexivity. }
    destruct (_ =? _); [left; reflexivity|].
    destruct (_ =? _); [left|right]; reflexivity.
  - unfold ctmGetString.
    destruct (_ =? _); [left|right]; reflexivity.
Qed.

Ltac untouched := split; [reflexivity|split; [reflexivity|]].

(** One call. *)
Lemma run_kept (fuel : nat) (op : operation) (self : _CTMcontext)
  (w w' : World) (r : reply result) :
  calls_codec op = false ->
  run fuel op (Some self) w = Returns (r, w') ->
  w_source w' = w_source w /\ w_sink w' = w_sink w
  /\ forall c, after r = Some c -> kept self c.
Proof.
  intros Hop Hrun.
  destruct op; try discriminate Hop; unfold run in Hrun.
  - unfold ctmFreeContext, bind in Hrun.
    destruct (_ctmClearMesh fuel self) as [c1| |]; try discriminate Hrun.
    injection Hrun as <- <-. untouched. intros c Hc. discriminate Hc.
  - injection Hrun as <- <-. untouched. intros c Hc.
    injection Hc as <-. apply kept_set_mError.
  - injection Hrun as <- <-. untouched. intros c.
    destruct (accessors_kept self aProperty) as (H & _). apply H.
  - injection Hrun as <- <-. untouched. intros c.
    destruct (accessors_kept self aProperty) as (_ & H & _). apply H.
  - injection Hrun as <- <-. untouched. intros c.
    destruct (accessors_kept self aProperty) as (_ & _ & H & _). apply H.
  - injection Hrun as <- <-. untouched. intros c.
    destruct (accessors_kept self aProperty) as (_ & _ & _ & H). apply H.
  - injection Hrun as <- <-. untouched. intros c.
    unfold ctmCompressionMethod.
    destruct (negb _); [intros Hc; injection Hc as <-; apply kept_set_mError|].
    destruct aMethod; simpl; intros Hc; injection Hc as <-;
      try apply kept_set_mError; unfold kept; simpl;
      repeat apply conj; try tauto; discriminate.
  - injection Hrun as <- <-. untouched. intros c.
    unfold ctmVertexPrecision.
    destruct (negb _); [intros Hc; injection Hc as <-; apply kept_set_mError|].
    destruct (f_le_zero _); intros Hc; injection Hc as <-;
      [apply kept_set_mError|apply kept_set_mVertexPrecision].
  - destruct (ctmVertexPrecisionRel _ _) as [r0| |] eqn:Hr;
      try discriminate Hrun.
    unfold bind in Hrun. injection Hrun as <- <-. untouched.
    intros c Hc. eapply ctmVertexPrecisionRel_kept; eassumption.
  - injection Hrun as <- <-. untouched. intros c.
    unfold ctmTexCoordPrecision.
    destruct (negb _); [intros Hc; injection Hc as <-; apply kept_set_mError|].
    destruct (_ || _); intros Hc; injection Hc as <-;
      [apply kept_set_mError|apply kept_refl].
  - injection Hrun as <- <-. untouched. intros c.
    unfold ctmAttribPrecision.
    destruct (negb _); [intros Hc; injection Hc as <-; apply kept_set_mError|].
    destruct (_ || _); intros Hc; injection Hc as <-;
      [apply kept_set_mError|apply kept_refl].
  - destruct (ctmFileComment _ _ _) as [[r0 w0]| |] eqn:Hr;
      try discriminate Hrun.
    unfold bind in Hrun. injection Hrun as <- <-.
    split; [|split].
    + apply (ctmFileComment_kept self self _ _ _ _ Hr).
    + apply (ctmFileComment_kept self self _ _ _ _ Hr).
    + intros c Hc. apply (ctmFileComment_kept self c _ _ _ _ Hr). exact Hc.
  - destruct (ctmDefineMesh _ _ _ _ _ _ _) as [r0| |] eqn:Hr;
      try discriminate Hrun.
    unfold bind in Hrun. injection Hrun as <- <-. untouched.
    intros c Hc. eapply ctmDefineMesh_kept; eassumption.
  - injection Hrun as <- <-. untouched. intros c Hc.
    injection Hc as <-. apply kept_refl.
  - injection Hrun as <- <-. untouched. intros c Hc.
    injection Hc as <-. apply kept_refl.
Qed.

(** A call on the null handle returns, and the handle stays null. *)
Lemma run_null (fuel : nat) (op : operation) (w : World) :
  exists r, run fuel op None w = Returns (r, w) /\ after r = None.
Proof.
  destruct op; simpl; eexists; split; reflexivity.
Qed.

Lemma run_all_null (fuel : nat) (ops : list operation) (w : World) :
  run_all fuel ops None w = Returns (None, w).
Proof.
  induction ops as [|op rest IH]; [reflexivity|].
  simpl. destruct (run_null fuel op w) as (r & -> & Hr). simpl.
  rewrite Hr. exact IH.
Qed.

(** X6.  A sequence of operations none of which calls a codec leaves the
    stream alone, what has been read from it and what has been written to
    it, and keeps of the context the mode, the two callbacks and the user
    data; the map lists and the map counts are the old ones or empty and
    zero; the method, when it is one of the three, remains one of the
    three. *)
Theorem operations_without_codec (fuel : nat) (ops : list operation)
  (self c : _CTMcontext) (w w' : World)
  (Hops : forallb (fun op => negb (calls_codec op)) ops = true)
  (Hrun : run_all fuel ops (Some self) w = Returns (Some c, w')) :
  w_source w' = w_source w /\ w_sink w' = w_sink w /\ kept self c.
Proof.
  revert self w Hrun. induction ops as [|op rest IH]; intros self w Hrun.
  - injection Hrun as <- <-. split; [reflexivity|]. split; [reflexivity|].
    apply kept_refl.
  - simpl in Hops. apply andb_prop in Hops. destruct Hops as [Hop Hrest].
    apply negb_true_iff in Hop. simpl in Hrun.
    destruct (run fuel op (Some self) w) as [[r w1]| |] eqn:Hstep;
      try discriminate Hrun.
    simpl in Hrun.
    destruct (run_kept _ _ _ _ _ _ Hop Hstep) as (Hs & Hk & Hkept).
    destruct (after r) as [c1|] eqn:Hafter.
    + destruct (IH Hrest c1 w1 Hrun) as (Hs' & Hk' & Hkept').
      split; [congruence|]. split; [congruence|].
      eapply kept_trans; [apply Hkept; reflexivity|exact Hkept'].
    + rewrite run_all_null in Hrun. discriminate Hrun.
Qed.

(** ** No map without a codec *)

Lemma index_at_fuel (self : _CTMcontext) (k : N) :
  index_at self k <> OutOfFuel.
Proof.
  unfold index_at. destruct (mIndices self) as [a|]; [|discriminate].
  destruct (nth_error a _); discriminate.
Qed.

Lemma vertex_at_fuel (self : _CTMcontext) (k : N) :
  vertex_at self k <> OutOfFuel.
Proof.
  unfold vertex_at. destruct (mVertices self) as [a|]; [|discriminate].
  destruct (nth_error a (N.to_nat k)); [|discriminate].
  destruct (nth_error a (N.to_nat (k + 1))); [|discriminate].
  destruct (nth_error a (N.to_nat (k + 2))); discriminate.
Qed.

Lemma edge_loop_fuel (self : _CTMcontext) (i : CTMuint) (js : list CTMuint)
  (st : point * CTMfloat * CTMuint) :
  edge_loop self i js st <> OutOfFuel.
Proof.
  revert st. induction js as [|j js IH]; intros [[p avg] k]; [discriminate|].
  simpl. pose proof (index_at_fuel self (wrap32 (i * 3 + j))) as Hi.
  destruct (index_at self _) as [x| |]; try discriminate; [|congruence].
  simpl. pose proof (vertex_at_fuel self (wrap32 (x * 3))) as Hv.
  destruct (vertex_at self _) as [p2| |]; try discriminate; [|congruence].
  apply IH.
Qed.

Lemma triangle_loop_fuel (self : _CTMcontext) (n : nat) (i : CTMuint)
  (st : CTMfloat * CTMuint) :
  triangle_loop self n i st <> OutOfFuel.
Proof.
  revert i st. induction n as [|n IH]; intros i [avg k]; [discriminate|].
  cbn [triangle_loop].
  pose proof (index_at_fuel self (wrap32 (i * 3 + 2))) as Hi.
  destruct (index_at self _) as [x| |]; try discriminate; [|congruence].
  cbn [bind]. pose proof (vertex_at_fuel self (wrap32 (x * 3))) as Hv.
  destruct (vertex_at self _) as [p1| |]; try discriminate; [|congruence].
  cbn [bind].
  pose proof (edge_loop_fuel self i [0; 1; 2] (p1, avg, k)) as He.
  destruct (edge_loop self i [0; 1; 2] (p1, avg, k)) as [[[p2 avg2] k2]| |];
    try discriminate; [|congruence].
  cbn [bind]. apply IH.
Qed.

(** On a context without maps, a call that runs no codec comes to an end. *)
Lemma run_no_maps (fuel : nat) (op : operation) (self : _CTMcontext)
  (w : World) :
  calls_codec op = false -> no_maps self ->
  run fuel op (Some self) w <> OutOfFuel.
Proof.
  intros Hop Hmaps. destruct op; try discriminate Hop; unfold run;
    try discriminate.
  - unfold ctmFreeContext. rewrite (_ctmClearMesh_no_maps fuel self Hmaps).
    discriminate.
  - unfold ctmVertexPrecisionRel.
    destruct (negb _); [discriminate|].
    destruct (f_le_zero _); [discriminate|].
    pose proof (triangle_loop_fuel self (N.to_nat (mTriangleCount self)) 0
                  (f_zero, 0)) as Ht.
    destruct (triangle_loop _ _ _ _) as [[avg n]| |];
      try discriminate; [|congruence].
    cbn [bind]. destruct (n =? 0); discriminate.
  - unfold ctmFileComment.
    destruct (negb _); [discriminate|].
    destruct aFileComment as [obj|]; [|discriminate].
    destruct (negb (terminated obj)); [discriminate|].
    destruct (_ =? 0)%Z; [discriminate|].
    destruct (_ =? INT_MAX)%Z; [discriminate|].
    destruct (malloc w) as [[|] w1]; [|discriminate].
    destruct (holds_string _ _); discriminate.
  - unfold ctmDefineMesh.
    destruct (negb _); [discriminate|].
    destruct (_ || _); [discriminate|].
    rewrite (_ctmClearMesh_no_maps fuel self Hmaps). discriminate.
Qed.

Lemma kept_mapless (self c : _CTMcontext) :
  kept self c -> mapless self -> mapless c.
Proof.
  unfold kept, mapless, no_maps.
  intros (_ & _ & _ & _ & H5 & H6 & H7 & H8 & H9) ((M1 & M2) & M3 & M4 & M5).
  rewrite M1 in H5. rewrite M2 in H6. rewrite M3 in H7. rewrite M4 in H8.
  repeat apply conj; tauto.
Qed.

(** X7.  A context that holds no map and has one of the three methods
    selected stays so under every sequence of operations none of which calls
    a codec, and no such sequence meets the release loop of
    [_ctmFreeMapList].  So on the context at the end every call of
    [ctmTexCoordPrecision] and [ctmAttribPrecision] is turned down, and
    [ctmGetFloatArray] returns null for every identifier but [CTM_VERTICES]
    and [CTM_NORMALS]. *)
Theorem no_map_without_codec (fuel : nat) (ops : list operation)
  (self : _CTMcontext) (w : World)
  (Hself : mapless self)
  (Hops : forallb (fun op => negb (calls_codec op)) ops = true) :
  run_all fuel ops (Some self) w <> OutOfFuel
  /\ forall c w',
      run_all fuel ops (Some self) w = Returns (Some c, w') ->
      mapless c
      /\ (forall p x, raised (ctmTexCoordPrecision (Some c) p x) <> Done)
      /\ (forall p x, raised (ctmAttribPrecision (Some c) p x) <> Done)
      /\ (forall p, p <> CTM_VERTICES -> p <> CTM_NORMALS ->
                    ctmGetFloatArray (Some c) p
                    = raise None CTM_INVALID_ARGUMENT c).
Proof.
  split.
  - revert self w Hself. induction ops as [|op rest IH]; intros self w Hself;
      [discriminate|].
    simpl in Hops. apply andb_prop in Hops. destruct Hops as [Hop Hrest].
    apply negb_true_iff in Hop. simpl.
    pose proof (run_no_maps fuel op self w Hop (proj1 Hself)) as Hstep.
    destruct (run fuel op (Some self) w) as [[r w1]| |] eqn:Hrun;
      try discriminate; [|congruence].
    simpl. destruct (run_kept _ _ _ _ _ _ Hop Hrun) as (_ & _ & Hkept).
    destruct (after r) as [c1|].
    + apply (IH Hrest). eapply kept_mapless; [apply Hkept; reflexivity|].
      exact Hself.
    + rewrite run_all_null. discriminate.
  - intros c w' Hrun.
    assert (Hc : mapless c).
    { revert self w Hself Hrun.
      induction ops as [|op rest IH]; intros self w Hself Hrun.
      - injection Hrun as <- <-. exact Hself.
      - simpl in Hops. apply andb_prop in Hops. destruct Hops as [Hop Hrest].
        apply negb_true_iff in Hop. simpl in Hrun.
        destruct (run fuel op (Some self) w) as [[r w1]| |] eqn:Hstep;
          try discriminate Hrun.
        simpl in Hrun.
        destruct (run_kept _ _ _ _ _ _ Hop Hstep) as (_ & _ & Hkept).
        destruct (after r) as [c1|].
        + apply (IH Hrest c1 w1); [|exact Hrun].
          eapply kept_mapless; [apply Hkept; reflexivity|exact Hself].
        + rewrite run_all_null in Hrun. discriminate Hrun. }
    split; [exact Hc|].
    destruct Hc as (_ & Ht & Ha & _).
    repeat apply conj.
    + intros p x. unfold ctmTexCoordPrecision. rewrite Ht.
      destruct (negb _); [discriminate|].
      replace (0 <=? p - CTM_TEX_MAP_1) with true
        by (symmetry; apply N.leb_le; lia).
      rewrite orb_true_r. discriminate.
    + intros p x. unfold ctmAttribPrecision. rewrite Ha.
      destruct (negb _); [discriminate|].
      replace (0 <=? p - CTM_ATTRIB_MAP_1) with true
        by (symmetry; apply N.leb_le; lia).
      rewrite orb_true_r. discriminate.
    + intros p Hv Hn. unfold ctmGetFloatArray. rewrite Ht, Ha.
      rewrite (window_test_false CTM_TEX_MAP_1 0 p)
        by (unfold in_window; lia).
      rewrite (window_test_false CTM_ATTRIB_MAP_1 0 p)
        by (unfold in_window; lia).
      apply N.eqb_neq in Hv, Hn. rewrite Hv, Hn. reflexivity.
Qed.

(** ** The precision relative to the mesh: the divisor and the reads *)

Lemma edge_loop_wrapped (self : _CTMcontext) (i : CTMuint)
  (js : list CTMuint) (p p' : point) (avg avg' : CTMfloat) (k k' : CTMuint) :
  edge_loop self i js (p, avg, k) = Returns (p', avg', k') ->
  k < 2 ^ 32 -> k' < 2 ^ 32.
Proof.
  revert p avg k. induction js as [|j js IH]; intros p avg k H Hk.
  - simpl in H. injection H as _ _ <-. exact Hk.
  - simpl in H. unfold bind in H.
    destruct (index_at self _) as [x| |]; try discriminate H.
    destruct (vertex_at self _) as [p2| |]; try discriminate H.
    apply IH in H; [exact H|]. unfold wrap32. apply N.mod_lt. discriminate.
Qed.

Lemma triangle_loop_wrapped (self : _CTMcontext) (n : nat) (i : CTMuint)
  (avg avg' : CTMfloat) (k k' : CTMuint) :
  triangle_loop self n i (avg, k) = Returns (avg', k') ->
  k < 2 ^ 32 -> k' < 2 ^ 32.
Proof.
  revert i avg k. induction n as [|n IH]; intros i avg k H Hk.
  - simpl in H. injection H as _ <-. exact Hk.
  - cbn [triangle_loop] in H. unfold bind in H.
    destruct (index_at self _) as [x| |]; try discriminate H.
    destruct (vertex_at self _) as [p1| |]; try discriminate H.
    destruct (edge_loop self i [0; 1; 2] (p1, avg, k))
      as [[[p2 avg2] k2]| |] eqn:He; try discriminate H.
    apply edge_loop_wrapped in He; [|exact Hk].
    apply IH in H; assumption.
Qed.

(** Three times a 32-bit number wraps to zero for zero only. *)
Lemma three_times_wraps (n : N) :
  n < 2 ^ 32 -> (wrap32 (3 * n) = 0 <-> n = 0).
Proof.
  intros Hn. unfold wrap32. split; [|intros ->; reflexivity].
  intros H. pose proof (N.Div0.div_mod (3 * n) (2 ^ 32)) as Hd.
  rewrite H in Hd.
  assert (Hq : 3 * n / 2 ^ 32 < 3).
  { apply N.Div0.div_lt_upper_bound. lia. }
  change (2 ^ 32) with 4294967296 in *.
  remember (3 * n / 4294967296) as q. lia.
Qed.

(** X8.  In [ctmVertexPrecisionRel] the number that divides the sum of the
    edge lengths is three times the triangle count modulo [2 ^ 32], and it
    is zero for a triangle count of zero only: a call that returns is turned
    down with [CTM_INVALID_MESH] exactly when the context has no triangle,
    and otherwise stores the relative precision times the quotient. *)
Theorem precision_rel_divisor (self : _CTMcontext) (aRelPrecision : CTMfloat)
  (r : reply unit)
  (Hexport : mMode self = CTM_EXPORT)
  (Hpos : f_le_zero aRelPrecision = false)
  (Hcount : mTriangleCount self < 2 ^ 32)
  (Hret : ctmVertexPrecisionRel (Some self) aRelPrecision = Returns r) :
  exists avgEdgeLength,
    triangle_loop self (N.to_nat (mTriangleCount self)) 0 (f_zero, 0)
    = Returns (avgEdgeLength, wrap32 (3 * mTriangleCount self))
    /\ (wrap32 (3 * mTriangleCount self) = 0 <-> mTriangleCount self = 0)
    /\ (raised r = Raised CTM_INVALID_MESH <-> mTriangleCount self = 0)
    /\ (mTriangleCount self <> 0 ->
        r = quiet tt
              (Some (set_mVertexPrecision
                       (f_mul aRelPrecision
                          (f_div avgEdgeLength
                             (f_of_uint (wrap32 (3 * mTriangleCount self)))))
                       self))).
Proof.
  unfold ctmVertexPrecisionRel in Hret. rewrite Hexport, Hpos in Hret.
  simpl negb in Hret. cbv iota in Hret.
  destruct (triangle_loop self _ 0 (f_zero, 0)) as [[avg k]| |] eqn:Hloop;
    try discriminate Hret.
  pose proof (triangle_loop_edgeCount _ _ _ _ _ _ _ Hloop) as Hk.
  pose proof (triangle_loop_wrapped _ _ _ _ _ _ _ Hloop) as Hlt.
  assert (Ek : k = wrap32 (3 * mTriangleCount self)).
  { rewrite N2Nat.id, N.add_0_l in Hk. rewrite <- Hk. unfold wrap32.
    symmetry. apply N.mod_small. apply Hlt. reflexivity. }
  subst k. exists avg. split; [reflexivity|].
  pose proof (three_times_wraps _ Hcount) as Hz.
  split; [exact Hz|]. cbn [bind] in Hret.
  destruct (wrap32 (3 * mTriangleCount self) =? 0) eqn:Hq.
  - apply N.eqb_eq in Hq. injection Hret as <-. split.
    + split; [intros _; apply Hz, Hq|reflexivity].
    + intros Hne. contradict Hne. apply Hz, Hq.
  - apply N.eqb_neq in Hq. injection Hret as <-. split.
    + split; [discriminate|]. intros H0. contradict Hq. apply Hz, H0.
    + reflexivity.
Qed.

(** X9.  [ctmVertexPrecisionRel] checks neither the arrays nor the indices:
    on an Export-mode context with a triangle count that is not zero, the
    call has no defined result when the index array is null or holds fewer
    than three indices, and when the vertex the third index names lies
    outside the vertex array (or that array is null). *)
Theorem precision_rel_reads_unchecked (self : _CTMcontext)
  (aRelPrecision : CTMfloat)
  (Hexport : mMode self = CTM_EXPORT)
  (Hpos : f_le_zero aRelPrecision = false)
  (Hcount : mTriangleCount self <> 0) :
  (mIndices self = None ->
   ctmVertexPrecisionRel (Some self) aRelPrecision = Undefined)
  /\ (forall ix, mIndices self = Some ix -> (length ix < 3)%nat ->
        ctmVertexPrecisionRel (Some self) aRelPrecision = Undefined)
  /\ (forall ix k, mIndices self = Some ix -> nth_error ix 2 = Some k ->
        mVertices self = None ->
        ctmVertexPrecisionRel (Some self) aRelPrecision = Undefined)
  /\ (forall ix k v, mIndices self = Some ix -> nth_error ix 2 = Some k ->
        mVertices self = Some v ->
        N.of_nat (length v) <= wrap32 (k * 3) + 2 ->
        ctmVertexPrecisionRel (Some self) aRelPrecision = Undefined).
Proof.
  assert (Hstart : forall o,
             index_at self (wrap32 (0 * 3 + 2)) = o ->
             (forall k, o = Returns k ->
                        vertex_at self (wrap32 (k * 3)) = Undefined) ->
             o <> OutOfFuel ->
             ctmVertexPrecisionRel (Some self) aRelPrecision = Undefined).
  { intros o Ho Hv Hf. unfold ctmVertexPrecisionRel.
    rewrite Hexport, Hpos. simpl negb. cbv iota.
    destruct (N.to_nat (mTriangleCount self)) as [|n] eqn:Hn; [lia|].
    cbn [triangle_loop]. rewrite Ho.
    destruct o as [k| |]; [|reflexivity|congruence].
    cbn [bind]. rewrite (Hv k eq_refl). reflexivity. }
  change (wrap32 (0 * 3 + 2)) with 2 in Hstart.
  repeat apply conj.
  - intros Hix. apply (Hstart Undefined); try discriminate.
    unfold index_at. rewrite Hix. reflexivity.
  - intros ix Hix Hlen. apply (Hstart Undefined); try discriminate.
    unfold index_at. rewrite Hix.
    replace (nth_error ix (N.to_nat 2)) with (@None CTMuint);
      [reflexivity|].
    symmetry. apply nth_error_None. change (N.to_nat 2) with 2%nat. lia.
  - intros ix k Hix Hk Hv. apply (Hstart (Returns k)); try discriminate.
    + unfold index_at. rewrite Hix. change (N.to_nat 2) with 2%nat.
      rewrite Hk. reflexivity.
    + intros k' Hk'. injection Hk' as <-. unfold vertex_at. rewrite Hv.
      reflexivity.
  - intros ix k v Hix Hk Hv Hlen.
    apply (Hstart (Returns k)); try discriminate.
    + unfold index_at. rewrite Hix. change (N.to_nat 2) with 2%nat.
      rewrite Hk. reflexivity.
    + intros k' Hk'. injection Hk' as <-. unfold vertex_at. rewrite Hv.
      replace (nth_error v (N.to_nat (wrap32 (k * 3) + 2)))
        with (@None CTMfloat)
        by (symmetry; apply nth_error_None; lia).
      destruct (nth_error v (N.to_nat (wrap32 (k * 3)))); [|reflexivity].
      destruct (nth_error v (N.to_nat (wrap32 (k * 3) + 1))); reflexivity.
Qed.

(** ** The precision of a map *)

(** X10.  [ctmTexCoordPrecision] and [ctmAttribPrecision] accept a call
    exactly in Export mode, with a precision that is not [<= 0] and an
    identifier among those of the context's maps; an accepted call stores
    nothing, the context after it is the context before it.  A call that is
    not accepted records [CTM_INVALID_OPERATION] or [CTM_INVALID_ARGUMENT]
    and changes nothing else. *)
Theorem map_precision_is_checked_not_stored (self : _CTMcontext)
  (p : CTMproperty) (x : CTMfloat) :
  (mMode self = CTM_EXPORT /\ f_le_zero x = false
   /\ in_window CTM_TEX_MAP_1 (mTexMapCount self) p ->
   ctmTexCoordPrecision (Some self) p x = quiet tt (Some self))
  /\ (~ (mMode self = CTM_EXPORT /\ f_le_zero x = false
         /\ in_window CTM_TEX_MAP_1 (mTexMapCount self) p) ->
      rejected CTM_INVALID_OPERATION self
        (ctmTexCoordPrecision (Some self) p x)
      \/ rejected CTM_INVALID_ARGUMENT self
           (ctmTexCoordPrecision (Some self) p x))
  /\ (mMode self = CTM_EXPORT /\ f_le_zero x = false
      /\ in_window CTM_ATTRIB_MAP_1 (mAttribMapCount self) p ->
      ctmAttribPrecision (Some self) p x = quiet tt (Some self))
  /\ (~ (mMode self = CTM_EXPORT /\ f_le_zero x = false
         /\ in_window CTM_ATTRIB_MAP_1 (mAttribMapCount self) p) ->
      rejected CTM_INVALID_OPERATION self
        (ctmAttribPrecision (Some self) p x)
      \/ rejected CTM_INVALID_ARGUMENT self
           (ctmAttribPrecision (Some self) p x)).
Proof.
  assert (Hgate : forall base count,
             (f_le_zero x || (p <? base) || (count <=? p - base) = false)
             <-> f_le_zero x = false /\ in_window base count p).
  { intros base count. unfold in_window.
    rewrite !orb_false_iff, N.ltb_ge, N.leb_gt. split.
    - intros [[Hx Hb] Hc]. split; [exact Hx|]. lia.
    - intros [Hx [Hb Hc]]. repeat split; try assumption. lia. }
  unfold ctmTexCoordPrecision, ctmAttribPrecision.
  destruct (CTMcontextmode_eqb (mMode self) CTM_EXPORT) eqn:Hmode; simpl negb;
    cbv iota.
  - apply CTMcontextmode_eqb_eq in Hmode.
    split; [|split; [|split]].
    + intros (_ & Hx & Hw).
      rewrite (proj2 (Hgate _ _) (conj Hx Hw)). reflexivity.
    + intros Hno.
      destruct (f_le_zero x || (p <? CTM_TEX_MAP_1)
                || (mTexMapCount self <=? p - CTM_TEX_MAP_1)) eqn:Hg;
        [right; apply raise_rejected|].
      apply Hgate in Hg. tauto.
    + intros (_ & Hx & Hw).
      rewrite (proj2 (Hgate _ _) (conj Hx Hw)). reflexivity.
    + intros Hno.
      destruct (f_le_zero x || (p <? CTM_ATTRIB_MAP_1)
                || (mAttribMapCount self <=? p - CTM_ATTRIB_MAP_1)) eqn:Hg;
        [right; apply raise_rejected|].
      apply Hgate in Hg. tauto.
  - assert (Hne : mMode self <> CTM_EXPORT).
    { intros H. apply CTMcontextmode_eqb_eq in H. congruence. }
    split; [|split; [|split]]; try tauto;
      intros _; left; apply raise_rejected.
Qed.

(** ** The comment *)

Lemma c_str_spec (obj : list byte) :
  terminated obj = true ->
  ~ In x00 (c_str obj) /\ exists rest, obj = c_str obj ++ x00 :: rest.
Proof.
  induction obj as [|b obj IH]; simpl; [discriminate|].
  destruct (Byte.eqb b x00) eqn:Hb.
  - apply Byte.byte_dec_bl in Hb. subst b. intros _. split; [simpl; tauto|].
    exists obj. reflexivity.
  - apply Byte.eqb_false in Hb. simpl. intros Hobj.
    destruct (IH Hobj) as (Hn & rest & Ho). split.
    + simpl. intros [H|H]; [congruence|contradiction].
    + exists rest. simpl. rewrite <- Ho. reflexivity.
Qed.

Lemma int_of_size_small (n : nat) :
  (Z.of_nat n <= INT_MAX)%Z -> int_of_size (N.of_nat n) = Z.of_nat n.
Proof.
  intros Hn. unfold int_of_size, INT_MAX in *.
  assert (Hw : wrap32 (N.of_nat n) = N.of_nat n).
  { unfold wrap32. apply N.mod_small.
    change (2 ^ 32) with 4294967296. lia. }
  rewrite Hw, nat_N_Z.
  destruct (Z.leb_spec (Z.of_nat n) (2 ^ 31 - 1)); [reflexivity|lia].
Qed.

(** X11.  In Export mode [ctmFileComment] replaces the comment and touches
    no other field.  The string it is given is what its object holds before
    the first NUL, and its length is taken as an [int]; on an object that
    holds no NUL the call has no defined result.  With a null pointer or an
    empty string no comment is stored afterwards, whatever was stored
    before, and the allocator is not called; with a string that is not empty
    and shorter than [INT_MAX], and a block granted, the string is stored,
    and [ctmGetString] for [CTM_FILE_COMMENT] returns it; with a string of
    length [INT_MAX] the call has no defined result ([len + 1]
    overflows). *)
Theorem comment_then_query (self : _CTMcontext) (w : World)
  (Hexport : mMode self = CTM_EXPORT) :
  (forall obj, terminated obj = true ->
      ~ In x00 (c_str obj) /\ exists rest, obj = c_str obj ++ x00 :: rest)
  /\ (forall obj, terminated obj = false ->
        ctmFileComment (Some self) (Some obj) w = Undefined)
  /\ (forall s,
        s = None
        \/ (exists obj, s = Some obj /\ terminated obj = true
                        /\ c_str obj = []) ->
        exists c,
          ctmFileComment (Some self) s w = Returns (quiet tt (Some c), w)
          /\ same_but_mFileComment self c
          /\ ctmGetString (Some c) CTM_FILE_COMMENT = quiet None (Some c))
  /\ (forall obj, terminated obj = true -> c_str obj <> [] ->
        (Z.of_nat (length (c_str obj)) < INT_MAX)%Z ->
        fst (malloc w) = true ->
        exists c,
          ctmFileComment (Some self) (Some obj) w
          = Returns (quiet tt (Some c), snd (malloc w))
          /\ same_but_mFileComment self c
          /\ ctmGetString (Some c) CTM_FILE_COMMENT
             = quiet (Some (c_str obj)) (Some c))
  /\ (forall obj, terminated obj = true ->
        Z.of_nat (length (c_str obj)) = INT_MAX ->
        ctmFileComment (Some self) (Some obj) w = Undefined).
Proof.
  assert (Hold : exists c0,
             (if is_null (mFileComment self) then self
              else set_mFileComment None self) = c0
             /\ same_but_mFileComment self c0 /\ mFileComment c0 = None).
  { eexists. split; [reflexivity|].
    destruct (mFileComment self) eqn:Hc; simpl;
      (split; [repeat split|]); try reflexivity; exact Hc. }
  destruct Hold as (c0 & Hc0 & Hsame & Hnone).
  split; [exact c_str_spec|].
  unfold ctmFileComment. rewrite Hexport, Hc0. simpl negb. cbv iota.
  split; [|split; [|split]].
  - intros obj Hobj. rewrite Hobj. reflexivity.
  - intros s [-> | (obj & -> & Hobj & Hempty)];
      [|rewrite Hobj, Hempty]; simpl;
      exists c0; (split; [reflexivity|]); (split; [exact Hsame|]);
      unfold ctmGetString; rewrite N.eqb_refl, Hnone; reflexivity.
  - intros obj Hobj Hstr Hlen Hgrant. rewrite Hobj. simpl negb. cbv iota.
    rewrite int_of_size_small by lia.
    assert (H0 : (Z.of_nat (length (c_str obj)) =? 0)%Z = false).
    { apply Z.eqb_neq. destruct (c_str obj); [congruence|]. simpl length.
      lia. }
    assert (H1 : (Z.of_nat (length (c_str obj)) =? INT_MAX)%Z = false)
      by (apply Z.eqb_neq; lia).
    assert (H2 : holds_string (Z.of_nat (length (c_str obj)))
                   (length (c_str obj)) = true).
    { unfold holds_string. rewrite Z.eqb_refl.
      destruct (Z.leb_spec 0 (Z.of_nat (length (c_str obj))));
        [reflexivity|lia]. }
    rewrite H0, H1, H2.
    destruct (malloc w) as [granted w1]. simpl in Hgrant.
    subst granted. eexists. split; [reflexivity|]. split.
    + unfold same_but_mFileComment in *. simpl. exact Hsame.
    + unfold ctmGetString. rewrite N.eqb_refl. reflexivity.
  - intros obj Hobj Hlen. rewrite Hobj. simpl negb. cbv iota.
    rewrite int_of_size_small by lia. rewrite Hlen.
    reflexivity.
Qed.

(** ** The header, written and read *)

Lemma byte_of_N_to_N (n : N) : Byte.to_N (byte_of_N n) = n mod 256.
Proof.
  unfold byte_of_N. destruct (Byte.of_N (n mod 256)) as [b|] eqn:Hb.
  - apply Byte.to_of_N. exact Hb.
  - apply Byte.of_N_None_iff in Hb.
    pose proof (N.mod_lt n 256). lia.
Qed.

Lemma uint_of_bytes_of_uint (n : CTMuint) :
  n < 2 ^ 32 -> uint_of_bytes (bytes_of_uint n) = n.
Proof.
  intros Hn. unfold uint_of_bytes, bytes_of_uint. cbn [fold_right].
  rewrite !byte_of_N_to_N.
  change (2 ^ 8) with 256. change (2 ^ 16) with (256 * 256).
  change (2 ^ 24) with (256 * (256 * 256)).
  rewrite <- !N.Div0.div_div.
  pose proof (N.Div0.div_mod n 256) as H0.
  pose proof (N.Div0.div_mod (n / 256) 256) as H1.
  pose proof (N.Div0.div_mod (n / 256 / 256) 256) as H2.
  assert (H3 : n / 256 / 256 / 256 < 256).
  { rewrite !N.Div0.div_div. apply N.Div0.div_lt_upper_bound.
    change (2 ^ 32) with 4294967296 in Hn. lia. }
  rewrite (N.mod_small (n / 256 / 256 / 256) 256 H3). lia.
Qed.

Lemma bytes_of_uint_length (n : CTMuint) : length (bytes_of_uint n) = 4%nat.
Proof. reflexivity. Qed.

(** An integer that [_ctmStreamWriteUINT] has written is the one
    [_ctmStreamReadUINT] reads. *)
Lemma read_written_uint (self : _CTMcontext) (fn : CTMreadfn) (n : CTMuint)
  (rest : list byte) (w : World) :
  mReadFn self = Some fn -> n < 2 ^ 32 ->
  w_source w = bytes_of_uint n ++ rest ->
  _ctmStreamReadUINT self w = Returns (n, set_w_source rest w).
Proof.
  intros Hfn Hn Hsrc.
  rewrite (_ctmStreamReadUINT_app self fn (bytes_of_uint n) rest w Hfn
             (bytes_of_uint_length n) Hsrc).
  rewrite uint_of_bytes_of_uint by exact Hn. reflexivity.
Qed.

(** A comment that [_ctmStreamWriteSTRING] has written is the one
    [_ctmStreamReadSTRING] reads, the empty string apart. *)
Lemma read_written_string (self : _CTMcontext) (fn : CTMreadfn)
  (s : option (list byte)) (rest : list byte) (w : World) :
  mReadFn self = Some fn ->
  match s with
  | Some str => N.of_nat (length str) < 2 ^ 32
  | None => True
  end ->
  w_source w = comment_bytes s ++ rest ->
  _ctmStreamReadSTRING self w = Returns (comment_read s, set_w_source rest w).
Proof.
  intros Hfn Hlen Hsrc. unfold _ctmStreamReadSTRING.
  destruct s as [str|].
  - unfold comment_bytes in Hsrc. rewrite <- app_assoc in Hsrc.
    rewrite (read_written_uint self fn _ _ w Hfn Hlen Hsrc). cbn [bind].
    destruct str as [|b str']; [reflexivity|].
    replace (N.of_nat (length (b :: str')) =? 0) with false
      by (symmetry; apply N.eqb_neq; simpl; lia).
    unfold _ctmStreamRead. rewrite Hfn. cbn [w_source set_w_source].
    replace (N.of_nat (length (b :: str'))
             <=? N.of_nat (length ((b :: str') ++ rest))) with true
      by (symmetry; apply N.leb_le; rewrite length_app; lia).
    rewrite Nat2N.id. cbn [bind].
    rewrite firstn_app, Nat.sub_diag, firstn_O, app_nil_r, firstn_all.
    rewrite skipn_app, Nat.sub_diag, skipn_all, skipn_O. reflexivity.
  - unfold comment_bytes in Hsrc.
    rewrite (read_written_uint self fn 0 _ w Hfn eq_refl Hsrc). reflexivity.
Qed.

Lemma method_of_tag_method_tag (m : CTMmethod) :
  m <> CTM_METHOD_OTHER ->
  length (method_tag m) = 4%nat
  /\ method_of_tag (uint_of_bytes (method_tag m)) = Some m.
Proof.
  destruct m; intros H; try congruence; split; reflexivity.
Qed.

(** [ctmLoadCustom] on a stream that begins with the header of [src]: the
    context it has built when it turns to the arrays. *)
Lemma ctmLoadCustom_header (fuel : nat) (src dst : _CTMcontext)
  (aReadFn : CTMreadfn) (aUserData : userdata) (body : list byte)
  (w : World) :
  mMode dst = CTM_IMPORT -> no_maps dst ->
  _CTM_FORMAT_VERSION < 2 ^ 32 -> in_range src ->
  mVertexCount src <> 0 -> mTriangleCount src <> 0 ->
  mMethod src <> CTM_METHOD_OTHER ->
  w_source w = header src ++ body ->
  ctmLoadCustom fuel (Some dst) aReadFn aUserData w
  = load_arrays fuel
      (set_mFileComment (comment_read (mFileComment src))
         (set_mAttribMapCount (mAttribMapCount src)
            (set_mTexMapCount (mTexMapCount src)
               (set_mTriangleCount (mTriangleCount src)
                  (set_mVertexCount (mVertexCount src)
                     (set_mMethod (mMethod src)
                        (cleared
                           (set_mUserData aUserData
                              (set_mReadFn (Some aReadFn) dst)))))))))
      (header_flags src) (set_w_source body w).
Proof.
  intros Hmode Hmaps Hver (Hvc & Htc & Hxc & Hac & Hcl) Hv0 Ht0 Hm Hsrc.
  set (bound := set_mUserData aUserData (set_mReadFn (Some aReadFn) dst)).
  assert (Hclear : _ctmClearMesh fuel bound = Returns (cleared bound))
    by (apply _ctmClearMesh_no_maps; exact Hmaps).
  destruct (method_of_tag_method_tag _ Hm) as [Hml Hmt].
  unfold header in Hsrc. rewrite <- !app_assoc in Hsrc.
  unfold ctmLoadCustom. rewrite Hmode. simpl negb. cbv iota.
  fold bound. rewrite Hclear. cbn [bind].
  rewrite (_ctmStreamReadUINT_app (cleared bound) aReadFn tag_OCTM _ w
             eq_refl eq_refl Hsrc).
  cbn [bind]. rewrite N.eqb_refl. simpl negb. cbv iota.
  erewrite (read_written_uint (cleared bound) aReadFn _CTM_FORMAT_VERSION)
    by (reflexivity || assumption).
  cbn [bind]. rewrite N.eqb_refl. simpl negb. cbv iota.
  erewrite (_ctmStreamReadUINT_app (cleared bound) aReadFn
              (method_tag (mMethod src)))
    by (reflexivity || assumption).
  cbn [bind]. rewrite Hmt.
  erewrite (read_written_uint _ aReadFn (mVertexCount src))
    by (reflexivity || assumption).
  cbn [bind]. cbn [mVertexCount set_mVertexCount].
  apply N.eqb_neq in Hv0. rewrite Hv0.
  erewrite (read_written_uint _ aReadFn (mTriangleCount src))
    by (reflexivity || assumption).
  cbn [bind]. cbn [mTriangleCount set_mTriangleCount].
  apply N.eqb_neq in Ht0. rewrite Ht0.
  erewrite (read_written_uint _ aReadFn (mTexMapCount src))
    by (reflexivity || assumption).
  cbn [bind].
  erewrite (read_written_uint _ aReadFn (mAttribMapCount src))
    by (reflexivity || assumption).
  cbn [bind].
  erewrite (read_written_uint _ aReadFn (header_flags src))
    by (reflexivity || assumption
        || (unfold header_flags; destruct (is_null _); reflexivity)).
  cbn [bind].
  erewrite (read_written_string _ aReadFn (mFileComment src))
    by (reflexivity || assumption).
  cbn [bind]. reflexivity.
Qed.

Lemma load_arrays_granted (fuel : nat) (self : _CTMcontext) (flags : CTMuint)
  (w : World) :
  w_malloc w = [] ->
  load_arrays fuel self flags w
  = ' (c, w2) <-
      uncompress
        (let self :=
           set_mIndices (Some (fresh_uints (mTriangleCount self * 3)))
             (set_mVertices (Some (fresh_floats (mVertexCount self * 3)))
                self) in
         if N.land flags _CTM_HAS_NORMALS_BIT =? 0 then self
         else set_mNormals (Some (fresh_floats (mVertexCount self * 3))) self)
        w ;;
    Returns (quiet tt (Some c), w2).
Proof.
  intros Hm. unfold load_arrays, malloc.
  rewrite Hm. cbv beta iota zeta delta [negb].
  rewrite Hm. cbv beta iota zeta delta [negb].
  destruct (N.land flags _CTM_HAS_NORMALS_BIT =? 0);
    cbv beta iota zeta delta [negb]; try rewrite Hm; reflexivity.
Qed.

(** X12.  The header read back.  Let [src] be an Export-mode context with a
    mesh, one of the three methods and 32-bit counts.  [ctmSaveCustom]
    writes [header src] and hands over to the codec writer; and on every
    stream that begins with [header src], [ctmLoadCustom], in an Import-mode
    context without maps and with memory granted, hands to the codec reader
    of the same method the rest of the stream and a context that has the
    method, the four counts and the comment of [src] (an empty comment read
    as none), fresh vertex and index arrays of three entries per vertex and
    per triangle, a fresh normal array exactly when [src] has normals, and
    no map, whatever the map counts are. *)
Theorem header_round_trip (fuel : nat) (src dst : _CTMcontext)
  (aWriteFn : CTMwritefn) (aReadFn : CTMreadfn) (ud ud' : userdata)
  (body : list byte) (w0 w : World)
  (Hexport : mMode src = CTM_EXPORT)
  (Hvertices : mVertices src <> None) (Hindices : mIndices src <> None)
  (Hvc : mVertexCount src <> 0) (Htc : mTriangleCount src <> 0)
  (Hmethod : mMethod src <> CTM_METHOD_OTHER)
  (Hrange : in_range src) (Hversion : _CTM_FORMAT_VERSION < 2 ^ 32)
  (Himport : mMode dst = CTM_IMPORT) (Hmaps : no_maps dst)
  (Hmalloc : w_malloc w = [])
  (Hsource : w_source w = header src ++ body) :
  ctmSaveCustom (Some src) aWriteFn ud w0
  = ' (c, w2) <- compress (set_mUserData ud (set_mWriteFn (Some aWriteFn) src))
                   (set_w_sink (w_sink w0 ++ header src) w0) ;;
    Returns (quiet tt (Some c), w2)
  /\ exists c0,
      ctmLoadCustom fuel (Some dst) aReadFn ud' w
      = ' (c, w2) <- uncompress c0 (set_w_source body w) ;;
        Returns (quiet tt (Some c), w2)
      /\ mMethod c0 = mMethod src
      /\ mVertexCount c0 = mVertexCount src
      /\ mTriangleCount c0 = mTriangleCount src
      /\ mTexMapCount c0 = mTexMapCount src
      /\ mAttribMapCount c0 = mAttribMapCount src
      /\ mFileComment c0 = comment_read (mFileComment src)
      /\ mVertices c0 = Some (fresh_floats (mVertexCount src * 3))
      /\ mIndices c0 = Some (fresh_uints (mTriangleCount src * 3))
      /\ mNormals c0
         = (if is_null (mNormals src) then None
            else Some (fresh_floats (mVertexCount src * 3)))
      /\ no_maps c0
      /\ mMode c0 = CTM_IMPORT /\ mError c0 = mError dst
      /\ mVertexPrecision c0 = mVertexPrecision dst
      /\ mReadFn c0 = Some aReadFn /\ mUserData c0 = ud'.
Proof.
  split.
  - apply ctmSaveCustom_valid; assumption.
  - rewrite (ctmLoadCustom_header fuel src dst aReadFn ud' body w)
      by assumption.
    rewrite load_arrays_granted by exact Hmalloc.
    eexists. split; [reflexivity|].
    unfold header_flags, no_maps.
    destruct (mNormals src); simpl; repeat apply conj; try reflexivity;
      exact Himport.
Qed.

(** X13.  Out of memory while loading.  On a stream that begins with a
    well-formed header, in an Import-mode context without maps: when the
    block for the vertices is refused, [ctmLoadCustom] records
    [CTM_OUT_OF_MEMORY] and returns at once, so the context keeps the counts
    and the comment of the header, with no array; when the block for the
    indices is refused, it clears the mesh first, and the counts are
    zero. *)
Theorem load_out_of_memory (fuel : nat) (src dst : _CTMcontext)
  (aReadFn : CTMreadfn) (aUserData : userdata) (body : list byte)
  (w : World)
  (Hvc : mVertexCount src <> 0) (Htc : mTriangleCount src <> 0)
  (Hmethod : mMethod src <> CTM_METHOD_OTHER)
  (Hrange : in_range src) (Hversion : _CTM_FORMAT_VERSION < 2 ^ 32)
  (Himport : mMode dst = CTM_IMPORT) (Hmaps : no_maps dst)
  (Hsource : w_source w = header src ++ body) :
  (forall rest, w_malloc w = false :: rest ->
     exists c w',
       ctmLoadCustom fuel (Some dst) aReadFn aUserData w
       = Returns (Reply tt (Raised CTM_OUT_OF_MEMORY) (Some c), w')
       /\ w_malloc w' = rest /\ mError c = CTM_OUT_OF_MEMORY
       /\ mVertices c = None /\ mIndices c = None /\ mNormals c = None
       /\ mVertexCount c = mVertexCount src
       /\ mTriangleCount c = mTriangleCount src
       /\ mTexMapCount c = mTexMapCount src
       /\ mAttribMapCount c = mAttribMapCount src
       /\ mFileComment c = comment_read (mFileComment src))
  /\ (forall rest, w_malloc w = true :: false :: rest ->
        exists c w',
          ctmLoadCustom fuel (Some dst) aReadFn aUserData w
          = Returns (Reply tt (Raised CTM_OUT_OF_MEMORY) (Some c), w')
          /\ w_malloc w' = rest /\ mError c = CTM_OUT_OF_MEMORY
          /\ mVertices c = None /\ mIndices c = None /\ mNormals c = None
          /\ mVertexCount c = 0 /\ mTriangleCount c = 0
          /\ mTexMapCount c = 0 /\ mAttribMapCount c = 0
          /\ mFileComment c = comment_read (mFileComment src)).
Proof.
  split; intros rest Hm;
    rewrite (ctmLoadCustom_header fuel src dst aReadFn aUserData body w)
      by assumption;
    unfold load_arrays, malloc; cbn [w_malloc set_w_source]; rewrite Hm;
    simpl negb; cbv iota.
  - eexists _, _. split; [reflexivity|]. repeat apply conj; reflexivity.
  - cbn [w_malloc set_w_malloc]. simpl negb. cbv iota.
    rewrite _ctmClearMesh_no_maps by (split; reflexivity).
    cbn [bind]. eexists _, _. split; [reflexivity|].
    repeat apply conj; reflexivity.
Qed.

(** ** Files *)

(** X14.  [ctmSave] opens its file before the mesh is checked: in Export
    mode, on a context without a mesh, it records [CTM_INVALID_MESH] and
    leaves a file with no byte in it.  When the file cannot be opened,
    [ctmSave] and [ctmLoad] record [CTM_FILE_ERROR] and change nothing else,
    neither in the context, whose mesh stays attached, nor around it. *)
Theorem files_and_checks (fuel : nat) (self : _CTMcontext)
  (aFileName : list byte) (w : World) :
  (mMode self = CTM_EXPORT -> w_fopen_wb w aFileName = true ->
   mVertices self = None \/ mIndices self = None
   \/ mVertexCount self = 0 \/ mTriangleCount self = 0 ->
   exists r, ctmSave (Some self) aFileName w = Returns (r, set_w_sink [] w)
             /\ rejected CTM_INVALID_MESH self r)
  /\ (mMode self = CTM_EXPORT -> w_fopen_wb w aFileName = false ->
      exists r, ctmSave (Some self) aFileName w = Returns (r, w)
                /\ rejected CTM_FILE_ERROR self r)
  /\ (mMode self = CTM_IMPORT -> w_fopen_rb w aFileName = None ->
      exists r, ctmLoad fuel (Some self) aFileName w = Returns (r, w)
                /\ rejected CTM_FILE_ERROR self r).
Proof.
  repeat apply conj.
  - intros Hmode Hopen Hbad. unfold ctmSave, ctmSaveCustom.
    rewrite Hmode, Hopen. simpl negb. cbv iota.
    assert (Hc : is_null (mVertices self) || is_null (mIndices self)
                 || (mVertexCount self <? 1) || (mTriangleCount self <? 1)
                 = true).
    { destruct Hbad as [H|[H|[H|H]]]; rewrite H; simpl;
        rewrite ?orb_true_r; reflexivity. }
    rewrite Hc. eexists. split; [reflexivity|apply raise_rejected].
  - intros Hmode Hopen. unfold ctmSave. rewrite Hmode, Hopen. simpl negb.
    cbv iota. eexists. split; [reflexivity|apply raise_rejected].
  - intros Hmode Hopen. unfold ctmLoad. rewrite Hmode, Hopen. simpl negb.
    cbv iota. eexists. split; [reflexivity|apply raise_rejected].
Qed.

(** ** A map count without its list *)

Lemma walk_maps_past (l : list _CTMfloatmap) (i k : N) :
  i + k < 2 ^ 32 -> (length l <= N.to_nat k)%nat ->
  walk_maps l i (i + k) = [].
Proof.
  revert i k. induction l as [|x l IH]; intros i k Hlt Hlen; [reflexivity|].
  simpl in Hlen. simpl.
  destruct (N.eqb_spec i (i + k)) as [Heq|Hne]; [lia|].
  assert (Hw : wrap32 (i + 1) = i + 1)
    by (unfold wrap32; apply N.mod_small; lia).
  rewrite Hw. replace (i + k) with (i + 1 + N.pred k) by lia.
  apply IH; lia.
Qed.

(** X15.  [ctmGetFloatArray] trusts the map count for the range of
    identifiers and the list for the map: with an identifier below the
    count and a list that ends before it, as after [ctmLoadCustom] has read
    the counts of a header, it returns null and records
    [CTM_INVALID_ARGUMENT]. *)
Theorem map_count_without_list (self : _CTMcontext) (k : N) :
  (k < mTexMapCount self -> CTM_TEX_MAP_1 + k < 2 ^ 32 ->
   (length (mTexMaps self) <= N.to_nat k)%nat ->
   ctmGetFloatArray (Some self) (CTM_TEX_MAP_1 + k)
   = raise None CTM_INVALID_ARGUMENT self)
  /\ (k < mAttribMapCount self -> CTM_ATTRIB_MAP_1 + k < 2 ^ 32 ->
      (length (mAttribMaps self) <= N.to_nat k)%nat ->
      ~ in_window CTM_TEX_MAP_1 (mTexMapCount self) (CTM_ATTRIB_MAP_1 + k) ->
      ctmGetFloatArray (Some self) (CTM_ATTRIB_MAP_1 + k)
      = raise None CTM_INVALID_ARGUMENT self).
Proof.
  split.
  - intros Hk Hlt Hlen. unfold ctmGetFloatArray.
    rewrite (proj2 (window_test CTM_TEX_MAP_1 (mTexMapCount self)
                      (CTM_TEX_MAP_1 + k)))
      by (unfold in_window; lia).
    rewrite walk_maps_past by assumption. reflexivity.
  - intros Hk Hlt Hlen Hout. unfold ctmGetFloatArray.
    rewrite (window_test_false _ _ _ Hout).
    rewrite (proj2 (window_test CTM_ATTRIB_MAP_1 (mAttribMapCount self)
                      (CTM_ATTRIB_MAP_1 + k)))
      by (unfold in_window; lia).
    rewrite walk_maps_past by assumption. reflexivity.
Qed.

(** ** The header checks, both ways *)







(** ** Method and precision *)


(** ** A mode that is neither *)

(** X18.  [ctmNewContext] does not check the mode it is given: with a value
    that is neither [CTM_IMPORT] nor [CTM_EXPORT] it returns a context, and
    on that context each of the eleven operations that test the mode is
    turned down with [CTM_INVALID_OPERATION], changing nothing else in the
    context and nothing around it: no mesh can be defined, loaded or saved
    with it. *)
Theorem neither_import_nor_export (w : World)
  (Hgranted : fst (malloc w) = true) :
  exists c,
    ctmNewContext CTM_MODE_OTHER w = Returns (Some c, snd (malloc w))
    /\ forall fuel op w2,
        gated op = true ->
        exists r, run fuel op (Some c) w2 = Returns (r, w2)
                  /\ rejected CTM_INVALID_OPERATION c r.
Proof.
  unfold ctmNewContext. destruct (malloc w) as [granted w1].
  simpl in Hgranted. subst granted. eexists. split; [reflexivity|].
  intros fuel op w2 Hop.
  destruct op; try discriminate Hop; simpl; eexists;
    (split; [reflexivity|]);
    (split; [reflexivity|]); eexists; (split; [reflexivity|]);
    (split; [reflexivity|]); apply same_but_mError_set.
Qed.

(** ** Definition, then save *)

(** X19.  [ctmDefineMesh] and [ctmSaveCustom] take the counts on trust: for
    arrays of any length, the empty ones included, and counts that are not
    zero, on an Export-mode context without maps the definition is accepted,
    and [ctmSaveCustom] then passes its mesh check, writes a header with
    these counts, zero for both map counts and the flag of the normals, and
    runs the codec on arrays that need not hold what the counts
    announce. *)
Theorem define_then_save (fuel : nat) (self : _CTMcontext)
  (v : list CTMfloat) (vc : CTMuint) (ix : list CTMuint) (tc : CTMuint)
  (n : option (list CTMfloat)) (aWriteFn : CTMwritefn) (aUserData : userdata)
  (w : World)
  (Hexport : mMode self = CTM_EXPORT) (Hmaps : no_maps self)
  (Hvc : vc <> 0) (Htc : tc <> 0)
  (Hmethod : mMethod self <> CTM_METHOD_OTHER) :
  exists c,
    ctmDefineMesh fuel (Some self) (Some v) vc (Some ix) tc n
    = Returns (quiet tt (Some c))
    /\ mVertices c = Some v /\ mIndices c = Some ix
    /\ ctmSaveCustom (Some c) aWriteFn aUserData w
       = ' (c2, w2) <-
           compress (set_mUserData aUserData
                       (set_mWriteFn (Some aWriteFn) c))
             (set_w_sink (w_sink w ++ header c) w) ;;
         Returns (quiet tt (Some c2), w2)
    /\ header c
       = tag_OCTM ++ bytes_of_uint _CTM_FORMAT_VERSION
         ++ method_tag (mMethod self)
         ++ bytes_of_uint vc ++ bytes_of_uint tc
         ++ bytes_of_uint 0 ++ bytes_of_uint 0
         ++ bytes_of_uint (if is_null n then 0 else 1)
         ++ comment_bytes (mFileComment self).
Proof.
  unfold ctmDefineMesh. rewrite Hexport. simpl negb. cbv iota.
  simpl is_null.
  assert (Hc : (false || false || (vc =? 0) || (tc =? 0)) = false).
  { pose proof Hvc as Hvc'. pose proof Htc as Htc'.
    apply N.eqb_neq in Hvc', Htc'. rewrite Hvc', Htc'. reflexivity. }
  rewrite Hc. rewrite (_ctmClearMesh_no_maps fuel self Hmaps).
  cbv beta iota delta [bind]. eexists. split; [reflexivity|].
  match goal with
  | |- mVertices ?x = _ /\ _ => remember x as c eqn:Ec
  end.
  assert (Pmode : mMode c = CTM_EXPORT) by (rewrite Ec; exact Hexport).
  assert (Pv : mVertices c = Some v) by (rewrite Ec; reflexivity).
  assert (Pi : mIndices c = Some ix) by (rewrite Ec; reflexivity).
  assert (Pvc : mVertexCount c = vc) by (rewrite Ec; reflexivity).
  assert (Ptc : mTriangleCount c = tc) by (rewrite Ec; reflexivity).
  assert (Pxc : mTexMapCount c = 0) by (rewrite Ec; reflexivity).
  assert (Pac : mAttribMapCount c = 0) by (rewrite Ec; reflexivity).
  assert (Pn : mNormals c = n) by (rewrite Ec; reflexivity).
  assert (Pm : mMethod c = mMethod self) by (rewrite Ec; reflexivity).
  assert (Pc : mFileComment c = mFileComment self)
    by (rewrite Ec; reflexivity).
  clear Ec.
  split; [exact Pv|]. split; [exact Pi|]. split.
  - apply ctmSaveCustom_valid; congruence.
  - unfold header, header_flags.
    rewrite Pm, Pvc, Ptc, Pxc, Pac, Pn, Pc. reflexivity.
Qed.

(** ** After a load that failed *)




(** ** The precision relative to the mesh: the sum and the quotient *)

Lemma triangle_loop_sums (self : _CTMcontext) (n : nat) (i : CTMuint)
  (avg : CTMfloat) (k : CTMuint) (ts : list triangle) :
  triangles self n i = Returns ts ->
  length ts = n
  /\ exists k',
      triangle_loop self n i (avg, k)
      = Returns (fold_left f_add_double (flat_map boundary_edges ts) avg, k').
Proof.
  revert i avg k ts. induction n as [|n IH]; intros i avg k ts H.
  - simpl in H. injection H as <-. split; [reflexivity|].
    exists k. reflexivity.
  - cbn [triangles] in H.
    destruct (triangle_at self i) as [[[pa pb] pc]| |] eqn:Ht;
      try discriminate H.
    cbn [bind] in H.
    destruct (triangles self n (wrap32 (i + 1))) as [ts'| |] eqn:Hts;
      try discriminate H.
    cbn [bind] in H. injection H as <-.
    unfold triangle_at in Ht.
    destruct (index_at self (wrap32 (i * 3 + 0))) as [a| |] eqn:Ia;
      try discriminate Ht.
    cbn [bind] in Ht.
    destruct (index_at self (wrap32 (i * 3 + 1))) as [b| |] eqn:Ib;
      try discriminate Ht.
    cbn [bind] in Ht.
    destruct (index_at self (wrap32 (i * 3 + 2))) as [c| |] eqn:Ic;
      try discriminate Ht.
    cbn [bind] in Ht.
    destruct (vertex_at self (wrap32 (a * 3))) as [qa| |] eqn:Va;
      try discriminate Ht.
    cbn [bind] in Ht.
    destruct (vertex_at self (wrap32 (b * 3))) as [qb| |] eqn:Vb;
      try discriminate Ht.
    cbn [bind] in Ht.
    destruct (vertex_at self (wrap32 (c * 3))) as [qc| |] eqn:Vc;
      try discriminate Ht.
    cbn [bind] in Ht. injection Ht as -> -> ->.
    destruct (IH (wrap32 (i + 1))
                (f_add_double
                   (f_add_double (f_add_double avg (edge_length pc pa))
                      (edge_length pa pb))
                   (edge_length pb pc))
                (wrap32 (wrap32 (wrap32 (k + 1) + 1) + 1)) ts' Hts)
      as (Hlen & k' & Hloop).
    split; [simpl; rewrite Hlen; reflexivity|].
    exists k'. cbn [triangle_loop edge_loop].
    rewrite Ic. cbn [bind]. rewrite Vc. cbn [bind].
    rewrite Ia. cbn [bind]. rewrite Va. cbn [bind].
    rewrite Ib. cbn [bind]. rewrite Vb. cbn [bind].
    rewrite Hloop. reflexivity.
Qed.

(** C6 (amended).  In Export mode, with a relative precision that is not
    [<= 0]: when the context has no triangle, [ctmVertexPrecisionRel] records
    [CTM_INVALID_MESH] and changes nothing else.  When it has triangles, all
    of them with indices and vertices inside the arrays, the call changes the
    vertex precision and no other field, and stores the relative precision
    times the quotient, both computed in [CTMfloat], of the sum of the edge
    lengths by the number of edges: the sum starts at [0.0] and takes, for
    every triangle in turn, the lengths of its three boundary edges (last
    vertex to first, first to second, second to third), each added to a sum
    kept in [CTMfloat]; the number of edges is three times the triangle
    count, modulo [2 ^ 32], converted to [CTMfloat].  For one triangle this
    is [R * (((0 + |c-a|) + |a-b|) + |b-c|) / 3)], every operation rounded. *)
Theorem relative_precision (self : _CTMcontext) (aRelPrecision : CTMfloat)
  (Hexport : mMode self = CTM_EXPORT)
  (Hpos : f_le_zero aRelPrecision = false)
  (Hcount : mTriangleCount self < 2 ^ 32) :
  (mTriangleCount self = 0 ->
   exists r, ctmVertexPrecisionRel (Some self) aRelPrecision = Returns r
             /\ rejected CTM_INVALID_MESH self r)
  /\ (forall ts,
         mTriangleCount self <> 0 ->
         triangles self (N.to_nat (mTriangleCount self)) 0 = Returns ts ->
         length ts = N.to_nat (mTriangleCount self)
         /\ ctmVertexPrecisionRel (Some self) aRelPrecision
            = Returns
                (quiet tt
                   (Some (set_mVertexPrecision
                            (f_mul aRelPrecision
                               (f_div (sum_of_edges ts)
                                  (f_of_uint
                                     (wrap32 (3 * mTriangleCount self)))))
                            self))))
  /\ (forall pa pb pc,
         mTriangleCount self = 1 ->
         triangle_at self 0 = Returns (pa, pb, pc) ->
         ctmVertexPrecisionRel (Some self) aRelPrecision
         = Returns
             (quiet tt
                (Some (set_mVertexPrecision
                         (f_mul aRelPrecision
                            (f_div
                               (f_add_double
                                  (f_add_double
                                     (f_add_double f_zero (edge_length pc pa))
                                     (edge_length pa pb))
                                  (edge_length pb pc))
                               (f_of_uint 3)))
                         self)))).
Proof.
  assert (Hmany : forall ts,
             mTriangleCount self <> 0 ->
             triangles self (N.to_nat (mTriangleCount self)) 0 = Returns ts ->
             length ts = N.to_nat (mTriangleCount self)
             /\ ctmVertexPrecisionRel (Some self) aRelPrecision
                = Returns
                    (quiet tt
                       (Some (set_mVertexPrecision
                                (f_mul aRelPrecision
                                   (f_div (sum_of_edges ts)
                                      (f_of_uint
                                         (wrap32 (3 * mTriangleCount self)))))
                                self)))).
  { intros ts Hne Hts.
    destruct (triangle_loop_sums self _ 0 f_zero 0 ts Hts)
      as (Hlen & k & Hloop).
    split; [exact Hlen|].
    pose proof (triangle_loop_edgeCount _ _ _ _ _ _ _ Hloop) as Hk.
    pose proof (triangle_loop_wrapped _ _ _ _ _ _ _ Hloop) as Hlt.
    assert (Ek : k = wrap32 (3 * mTriangleCount self)).
    { rewrite N2Nat.id, N.add_0_l in Hk. rewrite <- Hk. unfold wrap32.
      symmetry. apply N.mod_small. apply Hlt. reflexivity. }
    subst k. unfold ctmVertexPrecisionRel.
    rewrite Hexport, Hpos. simpl negb. cbv iota.
    match goal with
    | |- context [triangle_loop ?a ?b ?c ?d] =>
        replace (triangle_loop a b c d)
          with (Returns
                  (fold_left f_add_double (flat_map boundary_edges ts) f_zero,
                   wrap32 (3 * mTriangleCount self)))
          by (symmetry; exact Hloop)
    end.
    cbn [bind].
    assert (Hq : (wrap32 (3 * mTriangleCount self) =? 0) = false).
    { apply N.eqb_neq. intros H0. apply Hne.
      apply (three_times_wraps _ Hcount). exact H0. }
    rewrite Hq. reflexivity. }
  split; [|split].
  - intros Hzero. unfold ctmVertexPrecisionRel.
    rewrite Hexport, Hpos, Hzero. simpl. eauto with ctm.
  - exact Hmany.
  - intros pa pb pc Hone Ht.
    destruct (Hmany [(pa, pb, pc)]) as (_ & Heq).
    + rewrite Hone. discriminate.
    + rewrite Hone. change (N.to_nat 1) with 1%nat. cbn [triangles].
      rewrite Ht. reflexivity.
    + rewrite Heq, Hone. reflexivity.
Qed.

End Properties.

#[local] Existing Instances binary32 sample_enumerators idle_codecs.

(** * The properties on sample data *)

Lemma mode_gating_witness :
  mMode (@new_context binary32 CTM_IMPORT) = CTM_IMPORT
  /\ mMode (@new_context binary32 CTM_EXPORT) = CTM_EXPORT
  /\ (forall aMethod,
         rejected CTM_INVALID_OPERATION (new_context CTM_IMPORT)
           (ctmCompressionMethod (Some (new_context CTM_IMPORT)) aMethod))
  /\ (forall fuel aReadFn aUserData,
         exists r, ctmLoadCustom fuel (Some (new_context CTM_EXPORT)) aReadFn
                     aUserData sample_world = Returns (r, sample_world)
                   /\ rejected CTM_INVALID_OPERATION
                        (new_context CTM_EXPORT) r).
Proof.
  split; [reflexivity|]. split; [reflexivity|].
  pose proof (mode_gating (new_context CTM_IMPORT) (new_context CTM_EXPORT)
                sample_world eq_refl eq_refl) as H.
  split; [exact (proj1 H)|].
  exact (proj2 (proj2 (proj2 (proj2 (proj2 (proj2 H)))))).
Defined.

Lemma error_register_witness :
  run 0 (call_ctmCompressionMethod CTM_METHOD_RAW)
    (Some (new_context CTM_IMPORT)) sample_world
  = Returns (Reply no_value (Raised CTM_INVALID_OPERATION)
               (Some (set_mError CTM_INVALID_OPERATION
                        (new_context CTM_IMPORT))), sample_world)
  /\ exists c,
      Some (set_mError CTM_INVALID_OPERATION (new_context CTM_IMPORT))
      = Some c
      /\ value (ctmError (Some c)) = CTM_INVALID_OPERATION
      /\ value (ctmError (after (ctmError (Some c)))) = CTM_NO_ERROR
      /\ exists c3,
          succeed 0
            [call_ctmGetInteger CTM_VERTEX_COUNT;
             call_ctmAddTexMap None None]
            (Some c) sample_world (Some c3) sample_world
          /\ value (ctmError (Some c3)) = CTM_INVALID_OPERATION.
Proof.
  split; [reflexivity|].
  destruct (error_register 0 (call_ctmCompressionMethod CTM_METHOD_RAW)
              (new_context CTM_IMPORT) sample_world sample_world _
              CTM_INVALID_OPERATION eq_refl eq_refl)
    as (c & Hc & Hv & _ & Hn & _ & Hsticky).
  exists c. split; [exact Hc|]. split; [exact Hv|]. split; [exact Hn|].
  injection Hc as <-.
  assert (Hcalls : succeed 0
                     [call_ctmGetInteger CTM_VERTEX_COUNT;
                      call_ctmAddTexMap None None]
                     (Some (set_mError CTM_INVALID_OPERATION
                              (new_context CTM_IMPORT))) sample_world
                     (Some (set_mError CTM_INVALID_OPERATION
                              (new_context CTM_IMPORT))) sample_world).
  { eapply succeed_cons;
      [discriminate|reflexivity|reflexivity|].
    eapply succeed_cons;
      [discriminate|reflexivity|reflexivity|].
    apply succeed_nil. }
  eexists. split; [exact Hcalls|].
  apply (Hsticky 0%nat _ _ _ Hcalls). right. reflexivity.
Defined.

Lemma save_precondition_and_header_witness :
  mMode triangle_context = CTM_EXPORT
  /\ ctmSaveCustom (Some triangle_context) _ctmDefaultWrite null_userdata
       sample_world
     = Returns
         (quiet tt
            (Some (set_mUserData null_userdata
                     (set_mWriteFn (Some _ctmDefaultWrite) triangle_context))),
          set_w_sink
            (["O"; "C"; "T"; "M"; x01; x00; x00; x00; "M"; "G"; "1"; x00;
              x03; x00; x00; x00; x01; x00; x00; x00; x00; x00; x00; x00;
              x00; x00; x00; x00; x00; x00; x00; x00; x03; x00; x00; x00;
              "o"; "l"; "d"]%byte)
            sample_world).
Proof.
  split; [reflexivity|].
  destruct (save_precondition_and_header triangle_context _ctmDefaultWrite
              null_userdata sample_world eq_refl) as [_ H].
  destruct H as (_ & _ & _ & H & _); try discriminate.
  destruct (H eq_refl) as [_ Heq]. rewrite Heq. reflexivity.
Defined.

(** C4 (the code at the failing input).  On an Import-mode context that
    holds one texture map, [ctmLoadCustom] on a stream that does not begin
    with [OCTM] does not return, whatever the fuel: [_ctmClearMesh] enters
    the release loop of [_ctmFreeMapList], which never leaves its first node.
    The same call on the context without the map returns with
    [CTM_FORMAT_ERROR]. *)
Theorem load_with_a_map_attached (fuel : nat) :
  ctmLoadCustom fuel (Some mapped_context) _ctmDefaultRead null_userdata
    garbled_world = OutOfFuel
  /\ exists c w',
      ctmLoadCustom fuel (Some (new_context CTM_IMPORT)) _ctmDefaultRead
        null_userdata garbled_world
      = Returns (Reply tt (Raised CTM_FORMAT_ERROR) (Some c), w')
      /\ mError c = CTM_FORMAT_ERROR.
Proof.
  split.
  - apply ctmLoadCustom_maps; [reflexivity|].
    intros [H _]. discriminate H.
  - destruct fuel; cbv -[binary32]; eexists _, _; split; reflexivity.
Qed.

(** C5 as stated fails: after a call with invalid arguments the mesh
    attached before is still attached. *)
Lemma define_mesh_keeps_the_mesh :
  exists c,
    ctmDefineMesh 0 (Some triangle_context) None 0 None 0 None
    = Returns (Reply tt (Raised CTM_INVALID_ARGUMENT) (Some c))
    /\ mVertices c = mVertices triangle_context
    /\ mVertices c <> None
    /\ mIndices c = Some [0; 1; 2]
    /\ mVertexCount c = 3 /\ mTriangleCount c = 1.
Proof.
  eexists. split; [reflexivity|]. repeat split. discriminate.
Qed.

Lemma define_mesh_witness :
  mMode (@new_context binary32 CTM_EXPORT) = CTM_EXPORT
  /\ (exists r,
         ctmDefineMesh 0 (Some (new_context CTM_EXPORT)) None 3
           (Some [0; 1; 2]) 1 None = Returns r
         /\ rejected CTM_INVALID_ARGUMENT (new_context CTM_EXPORT) r)
  /\ (exists c,
         ctmDefineMesh 0 (Some (new_context CTM_EXPORT))
           (mVertices triangle_context) 3 (Some [0; 1; 2]) 1 None
         = Returns (quiet tt (Some c))
         /\ mVertices c = mVertices triangle_context
         /\ mIndices c = Some [0; 1; 2]).
Proof.
  split; [reflexivity|].
  destruct (define_mesh 0 (new_context CTM_EXPORT) None 3 (Some [0; 1; 2]) 1
              None eq_refl) as [Hbad _].
  destruct (define_mesh 0 (new_context CTM_EXPORT)
              (mVertices triangle_context) 3 (Some [0; 1; 2]) 1 None eq_refl)
    as [_ Hgood].
  split; [apply Hbad; left; reflexivity|].
  destruct Hgood as (c & Hc & Hv & _ & Hi & _);
    try discriminate; try (split; reflexivity).
  exists c. repeat split; assumption.
Defined.

(** C7 as stated fails: with 256 texture maps and one attribute map, the
    identifier [CTM_TEX_MAP_1 + 256] is answered with the values of the
    attribute map, and no error is set. *)
Lemma map_windows_overlap :
  holds_maps crowded_context
  /\ mTexMapCount crowded_context = 256
  /\ ctmGetFloatArray (Some crowded_context) (CTM_TEX_MAP_1 + 256)
     = Reply (mValues other_map) Done (Some crowded_context)
  /\ mValues other_map <> None.
Proof.
  split; [split; reflexivity|]. split; [reflexivity|].
  split; [reflexivity|discriminate].
Qed.

Lemma map_index_dispatch_witness :
  holds_maps three_maps_context
  /\ ctmGetFloatArray (Some three_maps_context) (CTM_TEX_MAP_1 + 1)
     = quiet (mValues other_map) (Some three_maps_context)
  /\ ctmGetFloatArray (Some three_maps_context) (CTM_ATTRIB_MAP_1 + 0)
     = quiet (mValues other_map) (Some three_maps_context)
  /\ value (ctmGetFloatArray (Some three_maps_context) (CTM_TEX_MAP_1 + 2))
     = None
  /\ rejected CTM_INVALID_ARGUMENT three_maps_context
       (ctmGetFloatArray (Some three_maps_context) (CTM_TEX_MAP_1 - 1)).
Proof.
  assert (Hm : holds_maps three_maps_context) by (split; reflexivity).
  destruct (map_index_dispatch three_maps_context Hm) as (Ht & Ha & Hn & _).
  split; [exact Hm|].
  destruct (Ht 1 eq_refl eq_refl) as (m & Hnth & Hget).
  injection Hnth as <-.
  split; [exact Hget|].
  assert (Hout : ~ in_window CTM_TEX_MAP_1 (mTexMapCount three_maps_context)
                     (CTM_ATTRIB_MAP_1 + 0))
    by (unfold in_window; simpl; lia).
  destruct (Ha 0 eq_refl eq_refl Hout) as (m & Hnth & Hget').
  injection Hnth as <-.
  split; [exact Hget'|].
  assert (Hu : forall p, p = 0x0702 \/ p = 0x06FF ->
                         ~ recognised three_maps_context p).
  { intros p Hp. unfold recognised, in_window. simpl. lia. }
  split.
  - apply (Hn (CTM_TEX_MAP_1 + 2)). apply Hu. left. reflexivity.
  - apply (Hn (CTM_TEX_MAP_1 - 1)). apply Hu. right. reflexivity.
Defined.



(** C6 as stated fails: for the triangle with the vertices (9, 0, 0),
    (0, 9, 0) and (0, 0, 9), whose three sides are computed to the same
    length [L], and the relative precision [R = 1], the precision that
    [ctmVertexPrecisionRel] stores is 13346193 * 2^-20, and [R * L] is
    13346194 * 2^-20: the sum of the three lengths is rounded on the way. *)
Lemma equilateral_precision_is_not_R_times_L :
  edge_length (f_of_uint 0, f_of_uint 0, f_of_uint 9)
    (f_of_uint 9, f_of_uint 0, f_of_uint 0)
  = S754_finite false 7165183131591494 (-49)
  /\ edge_length (f_of_uint 9, f_of_uint 0, f_of_uint 0)
       (f_of_uint 0, f_of_uint 9, f_of_uint 0)
     = S754_finite false 7165183131591494 (-49)
  /\ edge_length (f_of_uint 0, f_of_uint 9, f_of_uint 0)
       (f_of_uint 0, f_of_uint 0, f_of_uint 9)
     = S754_finite false 7165183131591494 (-49)
  /\ ctmVertexPrecisionRel (Some equilateral_context) (f_of_uint 1)
     = Returns
         (quiet tt
            (Some (set_mVertexPrecision (S754_finite false 13346193 (-20))
                     equilateral_context)))
  /\ f_mul (f_of_uint 1)
       (to_binary32 (S754_finite false 7165183131591494 (-49)))
     = S754_finite false 13346194 (-20)
  /\ to_binary32
       (SFmul 53 1024 (f_of_uint 1) (S754_finite false 7165183131591494 (-49)))
     = S754_finite false 13346194 (-20)
  /\ S754_finite false 13346193 (-20) <> S754_finite false 13346194 (-20).
Proof.
  split; [vm_compute; reflexivity|]. split; [vm_compute; reflexivity|].
  split; [vm_compute; reflexivity|]. split.
  - rewrite (ctmVertexPrecisionRel_one_triangle equilateral_context
               (f_of_uint 1) 0 1 2 []
               (f_of_uint 9, f_of_uint 0, f_of_uint 0)
               (f_of_uint 0, f_of_uint 9, f_of_uint 0)
               (f_of_uint 0, f_of_uint 0, f_of_uint 9)
               eq_refl eq_refl eq_refl eq_refl eq_refl eq_refl eq_refl).
    assert (Hval :
              f_mul (f_of_uint 1)
                (f_div
                   (f_add_double
                      (f_add_double
                         (f_add_double f_zero
                            (edge_length
                               (f_of_uint 0, f_of_uint 0, f_of_uint 9)
                               (f_of_uint 9, f_of_uint 0, f_of_uint 0)))
                         (edge_length (f_of_uint 9, f_of_uint 0, f_of_uint 0)
                            (f_of_uint 0, f_of_uint 9, f_of_uint 0)))
                      (edge_length (f_of_uint 0, f_of_uint 9, f_of_uint 0)
                         (f_of_uint 0, f_of_uint 0, f_of_uint 9)))
                   (f_of_uint 3))
              = S754_finite false 13346193 (-20))
      by (vm_compute; reflexivity).
    rewrite Hval. reflexivity.
  - split; [vm_compute; reflexivity|]. split; [vm_compute; reflexivity|].
    discriminate.
Qed.

Lemma relative_precision_witness :
  (exists r,
      ctmVertexPrecisionRel (Some (new_context CTM_EXPORT))
        f_default_precision = Returns r
      /\ rejected CTM_INVALID_MESH (new_context CTM_EXPORT) r)
  /\ ctmVertexPrecisionRel (Some triangle_context) f_default_precision
     = Returns
         (quiet tt
            (Some (set_mVertexPrecision
                     (f_mul f_default_precision
                        (f_div
                           (sum_of_edges
                              [((f_of_uint 1, f_of_uint 0, f_of_uint 0),
                                (f_of_uint 0, f_of_uint 1, f_of_uint 0),
                                (f_of_uint 0, f_of_uint 0, f_of_uint 1))])
                           (f_of_uint 3)))
                     triangle_context))).
Proof.
  destruct (relative_precision (new_context CTM_EXPORT)
              (@f_default_precision binary32)
              eq_refl eq_refl eq_refl) as (Hnone & _).
  destruct (relative_precision triangle_context f_default_precision
              eq_refl eq_refl eq_refl) as (_ & Hmany & _).
  split; [apply Hnone; reflexivity|].
  destruct (Hmany [((f_of_uint 1, f_of_uint 0, f_of_uint 0),
                    (f_of_uint 0, f_of_uint 1, f_of_uint 0),
                    (f_of_uint 0, f_of_uint 0, f_of_uint 1))])
    as (_ & Heq); [discriminate|reflexivity|].
  exact Heq.
Defined.

(** C10 as stated fails: on a null handle [ctmError] returns
    [CTM_INVALID_CONTEXT], which is an error code, not the "no error" that a
    context reports after a reset. *)
Lemma ctmError_of_null_is_an_error :
  value (@ctmError binary32 None) = CTM_INVALID_CONTEXT
  /\ value (@ctmError binary32 None) <> CTM_NO_ERROR.
Proof. split; [reflexivity|discriminate]. Qed.

(** The header read back.  What [ctmSaveCustom] writes for the sample
    triangle, [ctmLoadCustom] accepts in a fresh Import-mode context: method,
    counts, comment and the absence of normals are those of the saved
    context, and the arrays are allocated to the sizes of the header. *)
Example load_reads_what_save_wrote :
  exists c1 w1 c2 w2,
    ctmSaveCustom (Some triangle_context) _ctmDefaultWrite null_userdata
      sample_world = Returns (quiet tt (Some c1), w1)
    /\ ctmLoadCustom 0 (Some (new_context CTM_IMPORT)) _ctmDefaultRead
         null_userdata (set_w_source (w_sink w1) sample_world)
       = Returns (quiet tt (Some c2), w2)
    /\ mMethod c2 = mMethod triangle_context
    /\ mVertexCount c2 = 3 /\ mTriangleCount c2 = 1
    /\ mFileComment c2 = mFileComment triangle_context
    /\ mNormals c2 = None
    /\ option_map (@length _) (mVertices c2) = Some 9%nat
    /\ option_map (@length _) (mIndices c2) = Some 3%nat
    /\ w_source w2 = [].
Proof.
  cbv -[binary32]. eexists _, _, _, _.
  split; [reflexivity|]. split; [reflexivity|]. repeat split.
Qed.

(** * The further properties on sample data *)

Lemma clear_mesh_returns_iff_witness :
  _ctmClearMesh 0 (new_context CTM_IMPORT)
  = Returns (cleared (new_context CTM_IMPORT))
  /\ _ctmClearMesh 5 mapped_context = OutOfFuel.
Proof.
  destruct (clear_mesh_returns_iff 0 (new_context CTM_IMPORT)
              (cleared (new_context CTM_IMPORT))) as (Hiff & _).
  destruct (clear_mesh_returns_iff 5 mapped_context mapped_context)
    as (_ & Hloop & _).
  split.
  - apply Hiff. split; [split; reflexivity|reflexivity].
  - apply Hloop. intros [H _]. discriminate H.
Defined.

Lemma free_context_returns_iff_witness :
  ctmFreeContext 0 (Some (@new_context binary32 CTM_EXPORT))
  = Returns (Reply tt Done None)
  /\ ctmFreeContext 7 (Some mapped_context) = OutOfFuel.
Proof.
  destruct (free_context_returns_iff 0 (Some (new_context CTM_EXPORT)))
    as (Hiff & _).
  destruct (free_context_returns_iff 7 (Some mapped_context)) as (_ & Hloop).
  split.
  - apply Hiff. split; reflexivity.
  - apply (Hloop mapped_context eq_refl). intros [H _]. discriminate H.
Defined.

Lemma new_context_is_empty_witness :
  @ctmNewContext binary32 CTM_EXPORT starved_world = Undefined
  /\ exists c,
      @ctmNewContext binary32 CTM_EXPORT sample_world
      = Returns (Some c, sample_world)
      /\ mMethod c = CTM_METHOD_MG1
      /\ ctmError (Some c) = Reply CTM_NO_ERROR Done (Some c).
Proof.
  destruct (new_context_is_empty (F := binary32) CTM_EXPORT starved_world)
    as [Hrefused _].
  destruct (new_context_is_empty (F := binary32) CTM_EXPORT sample_world)
    as [_ Hgranted].
  split; [apply Hrefused; reflexivity|].
  destruct (Hgranted eq_refl) as (c & Hc & _ & Hm & _ & _ & He & _).
  exists c. split; [exact Hc|]. split; [exact Hm|exact He].
Defined.

Lemma define_then_query_witness :
  distinct_labels
  /\ exists c,
      ctmDefineMesh 0 (Some (new_context CTM_EXPORT))
        (Some [@f_zero binary32; f_zero; f_zero]) 1 (Some [0; 0; 0]) 1 None
      = Returns (quiet tt (Some c))
      /\ ctmGetInteger (Some c) CTM_TRIANGLE_COUNT = quiet 1 (Some c)
      /\ ctmGetInteger (Some c) CTM_HAS_NORMALS = quiet CTM_FALSE (Some c)
      /\ ctmGetIntegerArray (Some c) CTM_INDICES
         = quiet (Some [0; 0; 0]) (Some c).
Proof.
  assert (Hlabels : distinct_labels).
  { split; [|discriminate].
    repeat (apply NoDup_cons; [simpl; intuition discriminate|]).
    apply NoDup_nil. }
  split; [exact Hlabels|].
  destruct (define_then_query 0 (new_context CTM_EXPORT)
              [@f_zero binary32; f_zero; f_zero] 1 [0; 0; 0] 1 None
              Hlabels eq_refl (conj eq_refl eq_refl))
    as (c & Hc & _ & Ht & _ & _ & Hn & Hi & _); try discriminate.
  exists c. repeat split; assumption.
Defined.

Lemma operations_without_codec_witness :
  exists c w',
    run_all 0
      [call_ctmFileComment (Some ["n"; "e"; "w"; x00]%byte);
       call_ctmCompressionMethod CTM_METHOD_RAW; call_ctmError]
      (Some triangle_context) sample_world
    = Returns (Some c, w')
    /\ w_sink w' = w_sink sample_world /\ kept triangle_context c.
Proof.
  assert (Hrun : exists c w',
             run_all 0
               [call_ctmFileComment (Some ["n"; "e"; "w"; x00]%byte);
                call_ctmCompressionMethod CTM_METHOD_RAW; call_ctmError]
               (Some triangle_context) sample_world
             = Returns (Some c, w')).
  { cbv -[binary32]. eexists _, _. reflexivity. }
  destruct Hrun as (c & w' & Hrun). exists c, w'.
  split; [exact Hrun|].
  exact (proj2 (operations_without_codec 0
                  [call_ctmFileComment (Some ["n"; "e"; "w"; x00]%byte);
                   call_ctmCompressionMethod CTM_METHOD_RAW; call_ctmError]
                  triangle_context c sample_world w' eq_refl Hrun)).
Defined.

Lemma no_map_without_codec_witness :
  mapless (@new_context binary32 CTM_EXPORT)
  /\ exists c w',
      run_all 0
        [call_ctmAddTexMap (Some [@f_zero binary32]) None;
         call_ctmFileComment (Some ["n"; "e"; "w"; x00]%byte)]
        (Some (new_context CTM_EXPORT)) sample_world
      = Returns (Some c, w')
      /\ mapless c
      /\ raised (ctmTexCoordPrecision (Some c) CTM_TEX_MAP_1
                   f_default_precision) <> Done.
Proof.
  assert (Hself : mapless (@new_context binary32 CTM_EXPORT)).
  { split; [split; reflexivity|]. split; [reflexivity|].
    split; [reflexivity|discriminate]. }
  split; [exact Hself|].
  assert (Hrun : exists c w',
             run_all 0
               [call_ctmAddTexMap (Some [@f_zero binary32]) None;
                call_ctmFileComment (Some ["n"; "e"; "w"; x00]%byte)]
               (Some (new_context CTM_EXPORT)) sample_world
             = Returns (Some c, w')).
  { cbv -[binary32]. eexists _, _. reflexivity. }
  destruct Hrun as (c & w' & Hrun). exists c, w'.
  split; [exact Hrun|].
  destruct (no_map_without_codec 0
              [call_ctmAddTexMap (Some [@f_zero binary32]) None;
               call_ctmFileComment (Some ["n"; "e"; "w"; x00]%byte)]
              (new_context CTM_EXPORT) sample_world Hself eq_refl)
    as (_ & Hend).
  destruct (Hend c w' Hrun) as (Hc & Ht & _).
  split; [exact Hc|apply Ht].
Defined.

Lemma precision_rel_divisor_witness :
  exists r avgEdgeLength,
    ctmVertexPrecisionRel (Some triangle_context) f_default_precision
    = Returns r
    /\ triangle_loop triangle_context 1 0 (f_zero, 0)
       = Returns (avgEdgeLength, 3)
    /\ raised r <> Raised CTM_INVALID_MESH.
Proof.
  pose proof (ctmVertexPrecisionRel_one_triangle triangle_context
                f_default_precision 0 1 2 []
                (f_of_uint 1, f_of_uint 0, f_of_uint 0)
                (f_of_uint 0, f_of_uint 1, f_of_uint 0)
                (f_of_uint 0, f_of_uint 0, f_of_uint 1)
                eq_refl eq_refl eq_refl eq_refl eq_refl eq_refl eq_refl)
    as Hret.
  destruct (precision_rel_divisor triangle_context f_default_precision _
              eq_refl eq_refl eq_refl Hret) as (avg & Hloop & _ & Hiff & _).
  eexists _, avg. split; [exact Hret|]. split; [exact Hloop|].
  intros H. apply Hiff in H. discriminate H.
Defined.

Lemma precision_rel_reads_unchecked_witness :
  mVertexCount wild_context = 3
  /\ ctmVertexPrecisionRel (Some wild_context) f_default_precision
     = Undefined.
Proof.
  split; [reflexivity|].
  destruct (precision_rel_reads_unchecked wild_context f_default_precision
              eq_refl eq_refl) as (_ & _ & _ & H); [discriminate|].
  apply (H [0; 1; 7] 7 (map (@f_of_uint binary32) [1; 0; 0; 0; 1; 0; 0; 0; 1]));
    try reflexivity.
  cbv -[binary32]. discriminate.
Defined.

Lemma map_precision_is_checked_not_stored_witness :
  ctmTexCoordPrecision (Some export_mapped_context) CTM_TEX_MAP_1
    f_default_precision
  = quiet tt (Some export_mapped_context)
  /\ rejected CTM_INVALID_ARGUMENT export_mapped_context
       (ctmAttribPrecision (Some export_mapped_context) CTM_ATTRIB_MAP_1
          f_default_precision).
Proof.
  destruct (map_precision_is_checked_not_stored export_mapped_context
              CTM_TEX_MAP_1 f_default_precision) as (Hyes & _).
  destruct (map_precision_is_checked_not_stored export_mapped_context
              CTM_ATTRIB_MAP_1 f_default_precision) as (_ & _ & _ & Hno).
  split.
  - apply Hyes. split; [reflexivity|]. split; [reflexivity|].
    split; [discriminate|reflexivity].
  - destruct Hno as [H|H].
    + intros (_ & _ & _ & Hlt). revert Hlt. cbv -[binary32]. discriminate.
    + destruct H as [H _]. discriminate H.
    + exact H.
Defined.

Lemma comment_then_query_witness :
  exists c,
    ctmFileComment (Some triangle_context)
      (Some ["n"; "e"; "w"; x00; "x"]%byte) sample_world
    = Returns (quiet tt (Some c), sample_world)
    /\ ctmGetString (Some c) CTM_FILE_COMMENT
       = quiet (Some ["n"; "e"; "w"]%byte) (Some c)
    /\ ctmFileComment (Some c) (Some ["n"; "e"; "w"]%byte) sample_world
       = Undefined
    /\ exists c',
        ctmFileComment (Some c) (Some [x00; "x"]%byte) sample_world
        = Returns (quiet tt (Some c'), sample_world)
        /\ ctmGetString (Some c') CTM_FILE_COMMENT = quiet None (Some c').
Proof.
  destruct (comment_then_query triangle_context sample_world eq_refl)
    as (_ & _ & _ & Hset & _).
  destruct (Hset ["n"; "e"; "w"; x00; "x"]%byte) as (c & Hc & Hsame & Hget);
    [reflexivity|discriminate|reflexivity|reflexivity|].
  exists c. split; [exact Hc|]. split; [exact Hget|].
  destruct (comment_then_query c sample_world) as (_ & Hopen & Hclear & _).
  { destruct Hsame as (Hmode & _). rewrite Hmode. reflexivity. }
  split; [apply Hopen; reflexivity|].
  destruct (Hclear (Some [x00; "x"]%byte)) as (c' & Hc' & _ & Hget');
    [right; eexists; split; [reflexivity|split; reflexivity]|].
  exists c'. split; [exact Hc'|exact Hget'].
Defined.

Lemma header_round_trip_witness :
  in_range triangle_context
  /\ exists c0,
      ctmLoadCustom 0 (Some (new_context CTM_IMPORT)) _ctmDefaultRead
        null_userdata saved_world
      = ' (c, w2) <- uncompress c0 (set_w_source ["*"]%byte saved_world) ;;
        Returns (quiet tt (Some c), w2)
      /\ mMethod c0 = CTM_METHOD_MG1
      /\ mVertexCount c0 = 3 /\ mTriangleCount c0 = 1
      /\ mFileComment c0 = Some ["o"; "l"; "d"]%byte
      /\ mNormals c0 = None.
Proof.
  assert (Hrange : in_range triangle_context) by (repeat split).
  split; [exact Hrange|].
  destruct (header_round_trip 0 triangle_context (new_context CTM_IMPORT)
              _ctmDefaultWrite _ctmDefaultRead null_userdata null_userdata
              ["*"]%byte sample_world saved_world eq_refl)
    as (_ & c0 & Hload & Hm & Hv & Ht & _ & _ & Hc & _ & _ & Hn & _);
    try discriminate; try reflexivity; try exact Hrange;
    try (split; reflexivity).
  exists c0. repeat split; assumption.
Defined.

Lemma load_out_of_memory_witness :
  exists c w',
    ctmLoadCustom 0 (Some (new_context CTM_IMPORT)) _ctmDefaultRead
      null_userdata (set_w_malloc [false] saved_world)
    = Returns (Reply tt (Raised CTM_OUT_OF_MEMORY) (Some c), w')
    /\ w_malloc w' = []
    /\ mVertexCount c = 3 /\ mVertices c = None.
Proof.
  destruct (load_out_of_memory 0 triangle_context (new_context CTM_IMPORT)
              _ctmDefaultRead null_userdata ["*"]%byte
              (set_w_malloc [false] saved_world))
    as (Hfirst & _);
    try discriminate; try reflexivity; try (repeat split).
  destruct (Hfirst [] eq_refl)
    as (c & w' & Hload & Hw & _ & Hv & _ & _ & Hvc & _).
  exists c, w'. repeat split; assumption.
Defined.

Lemma files_and_checks_witness :
  w_sink open_world = ["o"; "l"; "d"]%byte
  /\ (exists r,
         ctmSave (Some (new_context CTM_EXPORT)) ["f"]%byte open_world
         = Returns (r, set_w_sink [] open_world)
         /\ rejected CTM_INVALID_MESH (new_context CTM_EXPORT) r)
  /\ (exists r,
         ctmLoad 0 (Some loaded_context) ["f"]%byte sample_world
         = Returns (r, sample_world)
         /\ rejected CTM_FILE_ERROR loaded_context r).
Proof.
  split; [reflexivity|].
  destruct (files_and_checks 0 (new_context CTM_EXPORT) ["f"]%byte open_world)
    as (Hsave & _).
  destruct (files_and_checks 0 loaded_context ["f"]%byte sample_world)
    as (_ & _ & Hload).
  split.
  - apply Hsave; [reflexivity|reflexivity|left; reflexivity].
  - apply Hload; reflexivity.
Defined.

Lemma map_count_without_list_witness :
  ctmGetInteger (Some counted_context) CTM_TEX_MAP_COUNT
  = quiet 2 (Some counted_context)
  /\ ctmGetFloatArray (Some counted_context) (CTM_TEX_MAP_1 + 1)
     = raise None CTM_INVALID_ARGUMENT counted_context.
Proof.
  split; [reflexivity|].
  destruct (map_count_without_list counted_context 1) as (H & _).
  apply H; [reflexivity|reflexivity|].
  cbv -[binary32]. apply le_0_n.
Defined.



Lemma neither_import_nor_export_witness :
  exists c,
    @ctmNewContext binary32 CTM_MODE_OTHER sample_world
    = Returns (Some c, sample_world)
    /\ exists r,
        run 0 (call_ctmDefineMesh (Some [f_zero]) 1 (Some [0; 0; 0]) 1 None)
          (Some c) sample_world
        = Returns (r, sample_world)
        /\ rejected CTM_INVALID_OPERATION c r.
Proof.
  destruct (neither_import_nor_export (F := binary32) sample_world eq_refl)
    as (c & Hc & Hops).
  exists c. split; [exact Hc|]. apply Hops. reflexivity.
Defined.

Lemma define_then_save_witness :
  exists c,
    ctmDefineMesh 0 (Some (@new_context binary32 CTM_EXPORT)) (Some []) 5
      (Some []) 7 None
    = Returns (quiet tt (Some c))
    /\ mVertices c = Some [] /\ mIndices c = Some []
    /\ firstn 8 (skipn 12 (header c))
       = [x05; x00; x00; x00; x07; x00; x00; x00]%byte.
Proof.
  destruct (define_then_save 0 (@new_context binary32 CTM_EXPORT) [] 5 [] 7
              None _ctmDefaultWrite null_userdata sample_world eq_refl
              (conj eq_refl eq_refl))
    as (c & Hc & Hv & Hi & _ & Hh); try discriminate.
  exists c. split; [exact Hc|]. split; [exact Hv|]. split; [exact Hi|].
  rewrite Hh. reflexivity.
Defined.

